(** * FinAi: the transaction-scoring core

    A shallow embedding of the scoring functions of the server
    (fraud rules, categorizer, financial health score, dataset pattern
    miner, rule-based fraud report) and the properties the specification
    states about them.

    JavaScript numbers are IEEE 754 binary64 values.  They are modelled by
    [spec_float] with precision 53 and maximal exponent 1024, whose
    operations are the correctly rounded ones, so arithmetic and comparisons
    below compute what the engine computes, NaN, infinities and signed
    zeros included. *)

From Stdlib Require Import ZArith List Bool String Ascii Lia.
From Stdlib Require Import Decimal DecimalString.
From Stdlib Require Import Sorting.Sorted Sorting.Permutation.
From Stdlib Require Import Floats.SpecFloat.
Import ListNotations.

Local Open Scope string_scope.
Local Open Scope list_scope.
Local Open Scope Z_scope.

(** ** Numbers *)

Module Num.

Definition number : Set := spec_float.

Definition prec : Z := 53.
Definition emax : Z := 1024.

Definition NaN : number := S754_nan.
Definition Infinity : number := S754_infinity false.
Definition NegInfinity : number := S754_infinity true.

(** An integer literal, rounded to the nearest double (exact below 2^53). *)
Definition of_Z (z : Z) : number := binary_normalize prec emax z 0 false.

Definition add : number -> number -> number := SFadd prec emax.
Definition sub : number -> number -> number := SFsub prec emax.
Definition mul : number -> number -> number := SFmul prec emax.
Definition div : number -> number -> number := SFdiv prec emax.
Definition abs : number -> number := SFabs.

(** [<], [<=] and [===]; every comparison with NaN is false. *)
Definition ltb : number -> number -> bool := SFltb.
Definition leb : number -> number -> bool := SFleb.
Definition eqb : number -> number -> bool := SFeqb.

(** A decimal literal [n / 10^k] such as [0.01]: the double nearest to the
    quotient, which is what a correctly rounded division of the two exactly
    representable integers yields. *)
Definition dec (n : Z) (k : Z) : number := div (of_Z n) (of_Z (10 ^ k)).

(** The binary operation behind [Math.min]: NaN if either is NaN, and -0
    is below +0. *)
Definition min2 (x y : number) : number :=
  match SFcompare x y with
  | None => NaN
  | Some Lt => x
  | Some Gt => y
  | Some Eq =>
      match x with
      | S754_zero true => x
      | _ => y
      end
  end.

Definition max2 (x y : number) : number :=
  match SFcompare x y with
  | None => NaN
  | Some Gt => x
  | Some Lt => y
  | Some Eq =>
      match x with
      | S754_zero false => x
      | _ => y
      end
  end.

(** [Math.round]: the nearest integer, ties towards +Infinity; integers,
    infinities and NaN are returned as they are, and a value in
    [-0.5, -0] gives -0. *)
Definition round (x : number) : number :=
  match x with
  | S754_finite s m e =>
      if 0 <=? e then x
      else
        let sm := if s then Z.neg m else Z.pos m in
        binary_normalize prec emax
          ((2 * sm + 2 ^ (- e)) / 2 ^ (1 - e)) 0 s
  | _ => x
  end.

(** [floor(m * 2^e * 10^d + 1/2)]: the integer [n] for which
    [n / 10^d] is nearest to the magnitude, the larger one on a tie. *)
Definition scaled (d : nat) (m : positive) (e : Z) : Z :=
  if 0 <=? e then Z.pos m * 2 ^ e * 10 ^ Z.of_nat d
  else (2 * Z.pos m * 10 ^ Z.of_nat d + 2 ^ (- e)) / 2 ^ (1 - e).

(** [parseFloat(x.toFixed(d))]: the double nearest to the rounded
    decimal.  From 1e21 on [toFixed] prints the number itself, and the
    text of a number parses back to it. *)
Definition toFixedValue (d : nat) (x : number) : number :=
  match x with
  | S754_zero _ => S754_zero false
  | S754_finite s m e =>
      if SFleb (of_Z (10 ^ 21)) (SFabs x) then x
      else match scaled d m e with
           | Z.pos n =>
               SFdiv prec emax (S754_finite s n 0)
                     (S754_finite false (Z.to_pos (10 ^ Z.of_nat d)) 0)
           | _ => S754_zero s
           end
  | _ => x
  end.

(** The digits of [n] with a point before the last [d] of them. *)
Definition pointed (d : nat) (n : Z) : string :=
  let digits := NilZero.string_of_uint (N.to_uint (Z.to_N n)) in
  let padded :=
    (String.concat "" (repeat "0" (S d - String.length digits)%nat)
     ++ digits)%string in
  if Nat.eqb d 0 then padded
  else (substring 0 (String.length padded - d)%nat padded ++ "."
        ++ substring (String.length padded - d)%nat d padded)%string.

(** [x.toFixed(d)]; [numberToString] prints a number of magnitude 1e21
    or more. *)
Definition toFixed (numberToString : number -> string) (d : nat) (x : number)
  : string :=
  match x with
  | S754_nan => "NaN"
  | S754_infinity s => if s then "-Infinity" else "Infinity"
  | S754_zero _ => pointed d 0
  | S754_finite s m e =>
      if SFleb (of_Z (10 ^ 21)) (SFabs x) then numberToString x
      else ((if s then "-" else "") ++ pointed d (scaled d m e))%string
  end.

(** Truthiness of a number: neither a zero nor NaN. *)
Definition truthy (x : number) : bool :=
  match x with
  | S754_zero _ | S754_nan => false
  | _ => true
  end.

(** [SameValueZero]: the identity of numbers as property-name parts,
    where both zeros print as "0". *)
Definition sameValueZero (x y : number) : bool :=
  match x, y with
  | S754_nan, S754_nan => true
  | _, _ => SFeqb x y
  end.

End Num.

Module Math.
Import Num.

(** [Math.max(...xs)] and [Math.min(...xs)] *)
Definition max (xs : list number) : number := fold_left max2 xs NegInfinity.
Definition min (xs : list number) : number := fold_left min2 xs Infinity.

Definition round : number -> number := Num.round.
Definition abs : number -> number := Num.abs.

End Math.

Declare Scope num_scope.
Delimit Scope num_scope with num.
Notation "# z" := (Num.of_Z z%Z) (at level 1, z at level 0, format "# z") : num_scope.
Infix "+" := Num.add : num_scope.
Infix "-" := Num.sub : num_scope.
Infix "*" := Num.mul : num_scope.
Infix "/" := Num.div : num_scope.
Infix "<?" := Num.ltb : num_scope.
Infix "<=?" := Num.leb : num_scope.
Infix "===" := Num.eqb (at level 70, no associativity) : num_scope.
Notation "x >? y" := (Num.ltb y x) (only parsing) : num_scope.
Notation "x >=? y" := (Num.leb y x) (only parsing) : num_scope.

Local Open Scope num_scope.

(** ** Strings

    Strings are byte strings.  [toLowerCase] folds the letters A to Z, which
    is what the method does on ASCII text; a cased letter outside ASCII
    (an accented capital, the Kelvin sign) is folded by the method and
    left as it is here.  [includes] is the substring test. *)

Module Str.

Definition lowerAscii (c : ascii) : ascii :=
  let n := nat_of_ascii c in
  if (Nat.leb 65 n && Nat.leb n 90)%bool then ascii_of_nat (n + 32) else c.

Fixpoint toLowerCase (s : string) : string :=
  match s with
  | EmptyString => EmptyString
  | String c s' => String (lowerAscii c) (toLowerCase s')
  end.

Fixpoint includes (s sub : string) : bool :=
  (String.prefix sub s
   || match s with
      | EmptyString => false
      | String _ s' => includes s' sub
      end)%bool.

End Str.

(** ** The stored transaction (shared/schema.ts)

    [date] and [createdAt] hold the time value of the timestamp in
    milliseconds, what [new Date(t.date).getTime()] returns (NaN for an
    invalid date).  [amount] holds the number [parseFloat(t.amount)]
    yields for the stored decimal string (NaN when it does not parse): the
    scoring code reads the column through [parseFloat] only. *)

Module Schema.

Record Transaction : Set := {
  id : string;
  userId : string;
  date : Num.number;
  amount : Num.number;
  merchant : string;
  category : string;
  type : string;
  description : option string;
  location : option string;
  accountId : option string;
  isFraudulent : bool;
  fraudReason : option string;
  createdAt : Num.number;
}.

End Schema.

(** ** Rule-based fraud detection (fraud-detection.ts) *)

Module FraudDetection.
Import Schema.

Module Risk.
Record t : Set := { reason : string; score : Num.number }.
End Risk.

Record FraudCheckResult : Set := {
  isFraudulent : bool;
  reason : option string;
  riskScore : Num.number;
}.

(** [if (c) { risks.push(r) }] *)
Definition pushIf (c : bool) (r : Risk.t) (risks : list Risk.t) : list Risk.t :=
  if c then risks ++ [r] else risks.

Definition rule1 : Risk.t :=
  {| Risk.reason := "Unusually large transaction amount"; Risk.score := #55 |}.
Definition rule2 : Risk.t :=
  {| Risk.reason := "Extremely large transaction amount"; Risk.score := #85 |}.
Definition rule3 : Risk.t :=
  {| Risk.reason := "High transaction velocity (20+ transactions in 24 hours)";
     Risk.score := #70 |}.
Definition rule4 : Risk.t :=
  {| Risk.reason := "Multiple rapid transactions (10+ in 5 minutes)";
     Risk.score := #80 |}.
Definition rule5 : Risk.t :=
  {| Risk.reason := "First-time merchant with large amount"; Risk.score := #40 |}.
Definition rule6 : Risk.t :=
  {| Risk.reason := "Potential duplicate transaction"; Risk.score := #90 |}.

Section WithClock.
(** [Date.now()].  The source reads the clock at every comparison; the
    model takes one reading for the whole check. *)
Variable now : Num.number.
(** The candidate (its [id] and [createdAt] are not read) and the user's
    stored transactions. *)
Variable transaction : Transaction.
Variable recentTransactions : list Transaction.

Definition last24Hours : list Transaction :=
  filter (fun t =>
            let hoursDiff := (now - date t) / (#1000 * #60 * #60) in
            hoursDiff <=? #24)
         recentTransactions.

Definition last5Minutes : list Transaction :=
  filter (fun t =>
            let minutesDiff := (now - date t) / (#1000 * #60) in
            minutesDiff <=? #5)
         recentTransactions.

Definition merchantFrequency : list Transaction :=
  filter (fun t =>
            String.eqb (Str.toLowerCase (merchant t))
                       (Str.toLowerCase (merchant transaction)))
         recentTransactions.

Definition duplicates : list Transaction :=
  filter (fun t =>
            let hoursDiff := (now - date t) / (#1000 * #60 * #60) in
            (hoursDiff <=? #1)
            && String.eqb (Str.toLowerCase (merchant t))
                          (Str.toLowerCase (merchant transaction))
            && (Math.abs (amount t - amount transaction) <? Num.dec 1 2))%bool
         recentTransactions.

(** The conditions of the six rules, in the order they are checked. *)
Definition fires1 : bool := amount transaction >? #50000.
Definition fires2 : bool := amount transaction >? #100000.
Definition fires3 : bool := Nat.leb 20 (List.length last24Hours).
Definition fires4 : bool := Nat.leb 10 (List.length last5Minutes).
Definition fires5 : bool :=
  (Nat.eqb (List.length merchantFrequency) 0 && (amount transaction >? #10000))%bool.
Definition fires6 : bool := Nat.ltb 0 (List.length duplicates).

Definition risks : list Risk.t :=
  pushIf fires6 rule6
    (pushIf fires5 rule5
       (pushIf fires4 rule4
          (pushIf fires3 rule3
             (pushIf fires2 rule2
                (pushIf fires1 rule1 []))))).

Definition assess (risks : list Risk.t) : FraudCheckResult :=
  let maxRiskScore :=
    if Nat.ltb 0 (List.length risks) then Math.max (map Risk.score risks) else #0 in
  let isFraudulent := maxRiskScore >=? #85 in
  {| isFraudulent := isFraudulent;
     reason :=
       if isFraudulent
       then option_map Risk.reason
              (find (fun r => Risk.score r === maxRiskScore) risks)
       else None;
     riskScore := maxRiskScore |}.

Definition detectFraud : FraudCheckResult := assess risks.

End WithClock.

(** Categorize transactions using rule-based logic; [amount] is not read. *)
Definition categorizeTransaction (merchant : string) (amount : Num.number) : string :=
  let merchantLower := Str.toLowerCase merchant in
  (* Food & Dining *)
  if (Str.includes merchantLower "restaurant" ||
      Str.includes merchantLower "cafe" ||
      Str.includes merchantLower "coffee" ||
      Str.includes merchantLower "pizza" ||
      Str.includes merchantLower "burger" ||
      Str.includes merchantLower "food" ||
      Str.includes merchantLower "grubhub" ||
      Str.includes merchantLower "doordash" ||
      Str.includes merchantLower "ubereats")%bool
  then "Food & Dining"
  (* Groceries *)
  else if (Str.includes merchantLower "grocery" ||
           Str.includes merchantLower "supermarket" ||
           Str.includes merchantLower "walmart" ||
           Str.includes merchantLower "target" ||
           Str.includes merchantLower "whole foods" ||
           Str.includes merchantLower "trader joe")%bool
  then "Groceries"
  (* Transportation *)
  else if (Str.includes merchantLower "uber" ||
           Str.includes merchantLower "lyft" ||
           Str.includes merchantLower "taxi" ||
           Str.includes merchantLower "gas" ||
           Str.includes merchantLower "fuel" ||
           Str.includes merchantLower "parking")%bool
  then "Transportation"
  (* Shopping *)
  else if (Str.includes merchantLower "amazon" ||
           Str.includes merchantLower "ebay" ||
           Str.includes merchantLower "mall" ||
           Str.includes merchantLower "store")%bool
  then "Shopping"
  (* Entertainment *)
  else if (Str.includes merchantLower "netflix" ||
           Str.includes merchantLower "spotify" ||
           Str.includes merchantLower "hulu" ||
           Str.includes merchantLower "cinema" ||
           Str.includes merchantLower "theater" ||
           Str.includes merchantLower "movie")%bool
  then "Entertainment"
  (* Utilities *)
  else if (Str.includes merchantLower "electric" ||
           Str.includes merchantLower "water" ||
           Str.includes merchantLower "internet" ||
           Str.includes merchantLower "phone" ||
           Str.includes merchantLower "verizon" ||
           Str.includes merchantLower "at&t")%bool
  then "Utilities"
  (* Healthcare *)
  else if (Str.includes merchantLower "pharmacy" ||
           Str.includes merchantLower "hospital" ||
           Str.includes merchantLower "doctor" ||
           Str.includes merchantLower "medical" ||
           Str.includes merchantLower "cvs" ||
           Str.includes merchantLower "walgreens")%bool
  then "Healthcare"
  (* Travel *)
  else if (Str.includes merchantLower "airline" ||
           Str.includes merchantLower "hotel" ||
           Str.includes merchantLower "airbnb" ||
           Str.includes merchantLower "booking")%bool
  then "Travel"
  else "Other".

(** *** Vocabulary of the specification *)

(** The rule table: each rule with its condition, in rule order. *)
Definition rules now transaction recentTransactions : list (bool * Risk.t) :=
  [ (fires1 transaction, rule1);
    (fires2 transaction, rule2);
    (fires3 now recentTransactions, rule3);
    (fires4 now recentTransactions, rule4);
    (fires5 transaction recentTransactions, rule5);
    (fires6 now transaction recentTransactions, rule6) ].

Definition triggered now transaction recentTransactions : list Risk.t :=
  map snd (filter fst (rules now transaction recentTransactions)).

Definition scoreValues : list Num.number :=
  [#0; #40; #55; #70; #80; #85; #90].

Definition firstWithScore (s : Num.number) (l : list Risk.t) : option Risk.t :=
  find (fun r => Risk.score r === s) l.

Definition isSome {A : Type} (o : option A) : bool :=
  match o with Some _ => true | None => false end.

(** A candidate with the given amount and merchant, on the given date. *)
Definition candidate (a : Num.number) (m : string) (d : Num.number) : Transaction :=
  {| id := ""; userId := "u1"; date := d; amount := a; merchant := m;
     category := "Other"; type := "expense"; description := None;
     location := None; accountId := None; Schema.isFraudulent := false;
     fraudReason := None; createdAt := d |}.

(** The category taxonomy and the keyword groups in their priority order. *)
Definition categories : list string :=
  [ "Food & Dining"; "Groceries"; "Transportation"; "Shopping";
    "Entertainment"; "Utilities"; "Healthcare"; "Travel"; "Other" ].

Definition keywordGroups : list (string * list string) :=
  [ ("Food & Dining",
     ["restaurant"; "cafe"; "coffee"; "pizza"; "burger"; "food"; "grubhub";
      "doordash"; "ubereats"]);
    ("Groceries",
     ["grocery"; "supermarket"; "walmart"; "target"; "whole foods";
      "trader joe"]);
    ("Transportation", ["uber"; "lyft"; "taxi"; "gas"; "fuel"; "parking"]);
    ("Shopping", ["amazon"; "ebay"; "mall"; "store"]);
    ("Entertainment",
     ["netflix"; "spotify"; "hulu"; "cinema"; "theater"; "movie"]);
    ("Utilities",
     ["electric"; "water"; "internet"; "phone"; "verizon"; "at&t"]);
    ("Healthcare",
     ["pharmacy"; "hospital"; "doctor"; "medical"; "cvs"; "walgreens"]);
    ("Travel", ["airline"; "hotel"; "airbnb"; "booking"]) ].

(** First group, in priority order, one of whose keywords occurs in the
    lower-cased merchant; "Other" when there is none. *)
Definition firstMatchingGroup (merchant : string) : string :=
  match find (fun g => existsb (Str.includes (Str.toLowerCase merchant)) (snd g))
             keywordGroups with
  | Some g => fst g
  | None => "Other"
  end.

End FraudDetection.

(** ** Financial health score (financial-health.ts) *)

Module FinancialHealth.
Import Schema.

Record HealthScoreComponents : Set := {
  score : Num.number;
  incomeStability : Num.number;
  expenseRatio : Num.number;
  savingsRate : Num.number;
  debtRatio : Num.number;
  liquidity : Num.number;
}.

(** The value returned by the first branch. *)
Definition neutral : HealthScoreComponents :=
  {| score := #50;
     incomeStability := #50;
     expenseRatio := #50;
     savingsRate := #50;
     debtRatio := #50;
     liquidity := #50 |}.

(** [xs.reduce((sum, t) => sum + parseFloat(t.amount), 0)] *)
Definition sumAmounts (xs : list Transaction) : Num.number :=
  fold_left (fun sum t => sum + amount t) xs #0.

Section Window.
(** The time value of [threeMonthsAgo]: the current date with its month
    field lowered by three.  The calendar step is not modelled; its result
    is an input. *)
Variable threeMonthsAgo : Num.number.
Variable transactions : list Transaction.
Variable monthlyIncome : Num.number.

(** Calculate metrics from last 3 months *)
Definition recentTransactions : list Transaction :=
  filter (fun t => date t >=? threeMonthsAgo) transactions.

(** Income stability (based on regular income transactions) *)
Definition incomeTransactions : list Transaction :=
  filter (fun t => String.eqb (type t) "income") recentTransactions.

Definition incomeStabilityValue : Num.number :=
  if Nat.leb 3 (List.length incomeTransactions) then #85
  else Math.min [Num.of_Z (Z.of_nat (List.length incomeTransactions)) * #20; #100].

(** Expense ratio (expenses vs income) *)
Definition expenses : Num.number :=
  sumAmounts (filter (fun t => String.eqb (type t) "expense") recentTransactions).

Definition expenseRatioValue : Num.number :=
  if monthlyIncome >? #0 then expenses / (monthlyIncome * #3) else #1.

Definition expenseRatioScore : Num.number :=
  Math.max [#0; #100 - expenseRatioValue * #100].

(** Savings rate *)
Definition income : Num.number :=
  sumAmounts (filter (fun t => String.eqb (type t) "income") recentTransactions).

Definition savingsAmount : Num.number := income - expenses.

Definition savingsRateValue : Num.number :=
  if income >? #0 then savingsAmount / income else #0.

Definition savingsRateScore : Num.number :=
  Math.max [#0; Math.min [#100; savingsRateValue * #100]].

(** Debt ratio (assuming debt-related categories) *)
Definition debtPayments : Num.number :=
  sumAmounts
    (filter (fun t =>
               (Str.includes (Str.toLowerCase (category t)) "loan" ||
                Str.includes (Str.toLowerCase (category t)) "debt" ||
                Str.includes (Str.toLowerCase (category t)) "credit")%bool)
            recentTransactions).

Definition debtRatioValue : Num.number :=
  if monthlyIncome >? #0 then debtPayments / (monthlyIncome * #3) else #0.

Definition debtRatioScore : Num.number :=
  Math.max [#0; #100 - debtRatioValue * #100].

(** Liquidity (based on expense coverage - assuming liquid funds = savings) *)
Definition monthlyExpenses : Num.number := expenses / #3.

Definition liquidityMonths : Num.number :=
  if savingsAmount >? #0 then savingsAmount / monthlyExpenses else #0.

(** 6 months = 100% *)
Definition liquidityScore : Num.number :=
  Math.min [#100; (liquidityMonths / #6) * #100].

(** Overall score (weighted average) *)
Definition overallScore : Num.number :=
  Math.round
    (incomeStabilityValue * Num.dec 20 2 +
     expenseRatioScore * Num.dec 25 2 +
     savingsRateScore * Num.dec 25 2 +
     debtRatioScore * Num.dec 15 2 +
     liquidityScore * Num.dec 15 2).

Definition computed : HealthScoreComponents :=
  {| score := Math.max [#0; Math.min [#100; overallScore]];
     incomeStability := Math.round incomeStabilityValue;
     expenseRatio := Math.round expenseRatioScore;
     savingsRate := Math.round savingsRateScore;
     debtRatio := Math.round debtRatioScore;
     liquidity := Math.round liquidityScore |}.

End Window.

(** [monthlyIncome] is [None] when the argument is left out; its default
    is 0.  Every division of the function is in [computed]. *)
Definition calculateFinancialHealth (threeMonthsAgo : Num.number)
    (transactions : list Transaction) (monthlyIncome : option Num.number)
    : HealthScoreComponents :=
  let monthlyIncome := match monthlyIncome with Some x => x | None => #0 end in
  if (Nat.eqb (List.length transactions) 0 || (monthlyIncome === #0))%bool
  then neutral
  else computed threeMonthsAgo transactions monthlyIncome.

(** A stored transaction of the given type and amount, on the given date. *)
Definition entry (ty : string) (a : Num.number) (d : Num.number) : Transaction :=
  {| id := "t"; userId := "u1"; date := d; amount := a; merchant := "Acme";
     category := "Other"; type := ty; description := None;
     location := None; accountId := None; Schema.isFraudulent := false;
     fraudReason := None; createdAt := d |}.

End FinancialHealth.

(** ** Arrays

    [Array.prototype.sort] with a comparator is stable: [a] stays before
    [b] unless the comparator gives a positive number on [(a, b)].  With a
    comparator that is a consistent order the result does not depend on
    the algorithm; it is written here as a stable insertion sort.  With a
    comparator that is not one (a NaN key) the order the engine produces
    is its own; the result is a permutation of the array all the same. *)

Module Arr.

Fixpoint insertBy {A : Type} (cmp : A -> A -> Num.number) (x : A) (l : list A)
  : list A :=
  match l with
  | [] => [x]
  | y :: l' => if cmp x y >? #0 then y :: insertBy cmp x l' else x :: l
  end.

Definition sort {A : Type} (cmp : A -> A -> Num.number) (l : list A) : list A :=
  fold_right (insertBy cmp) [] l.

(** [l.slice(0, n)] *)
Definition slice0 {A : Type} (n : N) (l : list A) : list A :=
  firstn (N.to_nat n) l.

(** [l.length] as a number *)
Definition lengthNum {A : Type} (l : list A) : Num.number :=
  Num.of_Z (Z.of_nat (List.length l)).

End Arr.

(** ** Dataset pattern miner (dataset-initialization.ts) *)

Module DatasetInitialization.

Record PretrainedFraudPattern : Set := {
  pattern : string;
  frequency : nat;
  fraudRiskScore : Num.number;
  description : string;
}.

Record DatasetPatterns : Set := {
  patterns : list PretrainedFraudPattern;
  totalTransactionsAnalyzed : nat;
  fraudPercentage : Num.number;
  lastUpdated : Num.number;
  highRiskMerchants : list string;
  commonFraudIndicators : list string;
}.

(** A parsed CSV row: the columns the miner reads.  A column is [None]
    when the file does not have it (the property is undefined); the
    parser yields strings, so [record.isFraud === 1] never holds. *)
Record CsvRecord : Set := {
  isFraud : option string;
  Merchant : option string;
  MerchantID : option string;
  PaymentType : option string;
  ProductCD : option string;
  DeviceType : option string;
  TransactionAmt : option string;
  Amount : option string;
  TransactionTime : option string;
  Country : option string;
  Browser : option string;
}.

(** Truthiness of a column: defined and not the empty string. *)
Definition truthy (v : option string) : bool :=
  match v with
  | Some (String _ _) => true
  | _ => false
  end.

(** [a || b] *)
Definition orElse (a b : option string) : option string :=
  if truthy a then a else b.

(** [`${v}`] *)
Definition template (v : option string) : string :=
  match v with
  | Some s => s
  | None => "undefined"
  end.

Definition pushIf (c : bool) (p : string) (patterns : list string) : list string :=
  if c then patterns ++ [p] else patterns.

(** The per-key counters and the object holding them: keys keep their
    insertion order, which is the order [Object.entries] lists them in
    (no pattern key is an array index or names a member of
    [Object.prototype]: each starts with a letter and has an underscore). *)
Record Counters : Set := { count : nat; fraudCount : nat }.

Definition bumpCounters (isFraud : bool) (d : Counters) : Counters :=
  {| count := S (count d);
     fraudCount := if isFraud then S (fraudCount d) else fraudCount d |}.

Fixpoint bump (isFraud : bool) (key : string) (obj : list (string * Counters))
  : list (string * Counters) :=
  match obj with
  | [] => [(key, bumpCounters isFraud {| count := 0; fraudCount := 0 |})]
  | (k, d) :: rest =>
      if String.eqb k key then (k, bumpCounters isFraud d) :: rest
      else (k, d) :: bump isFraud key rest
  end.

(** [obj[key] = (obj[key] || 0) + n] *)
Fixpoint addTo (key : string) (n : nat) (obj : list (string * nat))
  : list (string * nat) :=
  match obj with
  | [] => [(key, n)]
  | (k, v) :: rest =>
      if String.eqb k key then (k, (v + n)%nat) :: rest
      else (k, v) :: addTo key n rest
  end.

Definition getPatternDescription (pattern : string) : string :=
  let descriptions :=
    [ ("payment_S", "Shopping transaction");
      ("payment_W", "Withdrawal transaction");
      ("payment_C", "Cash transaction");
      ("device_desktop", "Desktop device");
      ("device_mobile", "Mobile device");
      ("amount_100k+", "Very high transaction amount (₹100k+)");
      ("amount_50k-100k", "High transaction amount (₹50k-100k)");
      ("amount_10k-50k", "Medium-high transaction amount (₹10k-50k)");
      ("amount_under_100", "Very low transaction amount");
      ("time_early_morning", "Early morning transaction (12am-6am)");
      ("time_evening", "Evening transaction (6pm-12am)");
      ("time_afternoon", "Afternoon transaction (12pm-6pm)") ] in
  match find (fun kv => String.eqb (fst kv) pattern) descriptions with
  | Some kv => snd kv
  | None => pattern
  end.

Definition natNum (n : nat) : Num.number := Num.of_Z (Z.of_nat n).

(** The score given to a key seen [count] times, [fraudCount] of them in
    fraudulent rows. *)
Definition riskScoreOf (d : Counters) : Num.number :=
  let fraudRatePercent := (natNum (fraudCount d) / natNum (count d)) * #100 in
  Math.min [#100; Math.round (fraudRatePercent * #2)].

Definition toPattern (entry : string * Counters) : PretrainedFraudPattern :=
  let '(pattern, data) := entry in
  {| pattern := pattern;
     frequency := count data;
     fraudRiskScore := riskScoreOf data;
     description := getPatternDescription pattern |}.

Section Builtins.
(** [parseFloat] on strings and [new Date(s).getHours()] (NaN for a string
    that is not a date) are inputs: nothing below depends on what they
    compute. *)
Variable parseFloat : string -> Num.number.
Variable getHours : string -> Num.number.

Definition extractPatterns (record : CsvRecord) (isFraud : bool) : list string :=
  let patterns := [] in
  let patterns :=
    pushIf (truthy (PaymentType record) || truthy (ProductCD record))%bool
      ("payment_" ++ template (orElse (PaymentType record) (ProductCD record)))
      patterns in
  let patterns :=
    pushIf (truthy (DeviceType record))
      ("device_" ++ template (DeviceType record)) patterns in
  let amount :=
    parseFloat
      (template (orElse (orElse (TransactionAmt record) (Amount record))
                        (Some "0"))) in
  let patterns :=
    if amount >? #100000 then patterns ++ ["amount_100k+"]
    else if amount >? #50000 then patterns ++ ["amount_50k-100k"]
    else if amount >? #10000 then patterns ++ ["amount_10k-50k"]
    else if amount <? #100 then patterns ++ ["amount_under_100"]
    else patterns in
  let patterns :=
    if truthy (TransactionTime record) then
      let hour := getHours (template (TransactionTime record)) in
      if ((hour >=? #0) && (hour <? #6))%bool
      then patterns ++ ["time_early_morning"]
      else if ((hour >=? #18) && (hour <? #24))%bool
      then patterns ++ ["time_evening"]
      else if ((hour >=? #12) && (hour <? #18))%bool
      then patterns ++ ["time_afternoon"]
      else patterns
    else patterns in
  let patterns :=
    pushIf (truthy (Country record))
      ("country_" ++ template (Country record)) patterns in
  let patterns :=
    pushIf (truthy (Browser record))
      ("browser_" ++ template (Browser record)) patterns in
  patterns.

Definition isFraudRow (record : CsvRecord) : bool :=
  match isFraud record with
  | Some s => String.eqb s "1"
  | None => false
  end.

(** The state of the loop over the rows. *)
Record Tally : Set := {
  totalFraud : nat;
  patternFrequency : list (string * Counters);
  merchantFraudMap : list (string * nat);
}.

Definition step (acc : Tally) (record : CsvRecord) : Tally :=
  let isFraud := isFraudRow record in
  let merchant :=
    template
      (orElse (Merchant record)
              (Some ("Merchant_" ++ template (orElse (MerchantID record)
                                                     (Some "Unknown")))%string)) in
  {| totalFraud := if isFraud then S (totalFraud acc) else totalFraud acc;
     patternFrequency :=
       fold_left (fun obj pattern => bump isFraud pattern obj)
                 (extractPatterns record isFraud) (patternFrequency acc);
     merchantFraudMap :=
       addTo merchant (if isFraud then 1 else 0)%nat (merchantFraudMap acc) |}.

Definition tally (recordsToProcess : list CsvRecord) : Tally :=
  fold_left step recordsToProcess
    {| totalFraud := 0; patternFrequency := []; merchantFraudMap := [] |}.

Definition minePatterns (patternFrequency : list (string * Counters))
  : list PretrainedFraudPattern :=
  Arr.slice0 15
    (Arr.sort (fun a b => fraudRiskScore b - fraudRiskScore a)
       (map toPattern
          (filter (fun entry => Nat.ltb 0 (fraudCount (snd entry)))
                  patternFrequency))).

(** [records] is what the CSV parser returned and [now] the clock. *)
Definition processDataset (now : Num.number) (records : list CsvRecord)
  : DatasetPatterns :=
  let recordsToProcess := Arr.slice0 50000 records in
  let acc := tally recordsToProcess in
  let highRiskMerchants :=
    map fst
      (filter (fun entry =>
                 let '(merchant, fraudCount) := entry in
                 let totalForMerchant :=
                   List.length
                     (filter (fun r =>
                                String.eqb
                                  (template
                                     (orElse (Merchant r)
                                        (Some ("Merchant_" ++ template (MerchantID r))%string)))
                                  merchant)
                             recordsToProcess) in
                 natNum fraudCount / natNum totalForMerchant >? Num.dec 5 2)
              (merchantFraudMap acc)) in
  let patterns := minePatterns (patternFrequency acc) in
  let commonFraudIndicators :=
    map pattern (filter (fun p => fraudRiskScore p >? #40) patterns) in
  {| patterns := patterns;
     totalTransactionsAnalyzed := List.length recordsToProcess;
     fraudPercentage :=
       (natNum (totalFraud acc) / Arr.lengthNum recordsToProcess) * #100;
     lastUpdated := now;
     highRiskMerchants := Arr.slice0 10 highRiskMerchants;
     commonFraudIndicators := commonFraudIndicators |}.

End Builtins.

(** *** Vocabulary of the specification *)

(** Number of the given rows, fraudulent ones if [onlyFraud], that carry
    the pattern key. *)
Definition rowsIn (parseFloat getHours : string -> Num.number)
    (onlyFraud : bool) (key : string) (rows : list CsvRecord) : nat :=
  List.length
    (filter (fun r =>
               (existsb (String.eqb key)
                  (extractPatterns parseFloat getHours r (isFraudRow r))
                && (negb onlyFraud || isFraudRow r))%bool)
            rows).

(** The same among the rows the miner processes: the first 50000. *)
Definition rowsWith (parseFloat getHours : string -> Num.number)
    (onlyFraud : bool) (key : string) (records : list CsvRecord) : nat :=
  rowsIn parseFloat getHours onlyFraud key (Arr.slice0 50000 records).

(** Descending order of risk score. *)
Definition scoreGe (a b : PretrainedFraudPattern) : Prop :=
  (fraudRiskScore b <=? fraudRiskScore a) = true.

(** A row with a device type and a fraud label, nothing else. *)
Definition deviceRow (device : string) (label : string) : CsvRecord :=
  {| isFraud := Some label; Merchant := None; MerchantID := None;
     PaymentType := None; ProductCD := None; DeviceType := Some device;
     TransactionAmt := None; Amount := None; TransactionTime := None;
     Country := None; Browser := None |}.

End DatasetInitialization.

(** ** Rule-based fraud report (llm-fraud-analysis.ts)

    A function that can throw returns an [option]: [None] stands for an
    exception that propagates to the caller. *)

Module LlmFraudAnalysis.
Import DatasetInitialization.

Notation "x <- c ;; k" :=
  (match c with Some x => k | None => None end)
    (at level 61, c at next level, right associativity).

(** [xs.reduce(f)] without an initial value: a TypeError on the empty
    array. *)
Definition reduce1 {A : Type} (f : A -> A -> A) (xs : list A) : option A :=
  match xs with
  | [] => None
  | x :: rest => Some (fold_left f rest x)
  end.

(** [xs[0].field]: a TypeError when [xs[0]] is undefined. *)
Definition first {A : Type} (xs : list A) : option A := nth_error xs 0.

Fixpoint forEachM {A S : Type} (f : S -> A -> option S) (xs : list A) (s : S)
  : option S :=
  match xs with
  | [] => Some s
  | x :: rest => s' <- f s x ;; forEachM f rest s'
  end.

Definition natToString (n : nat) : string :=
  NilZero.string_of_uint (Nat.to_uint n).

Inductive RiskLevel : Set := low | medium | high | critical.

Record FraudPattern : Set := {
  pattern : string;
  frequency : Num.number;
  riskLevel : RiskLevel;
  affectedTransactions : Num.number;
}.

(** An element of [debits] and [credits]; [category] is absent in the
    "N/A" default of [largestDebit] and [largestCredit]. *)
Record Entry : Set := {
  amount : Num.number;
  merchant : string;
  category : option string;
}.

Record DebitCreditAnalysis : Set := {
  totalDebits : Num.number;
  totalCredits : Num.number;
  debitCount : nat;
  creditCount : nat;
  largestDebit : Entry;
  largestCredit : Entry;
  debitCategories : list (string * Num.number);
  creditCategories : list (string * Num.number);
}.

Record LLMFraudAnalysisResult : Set := {
  summary : string;
  fraudPatterns : list FraudPattern;
  debitCreditAnalysis : DebitCreditAnalysis;
  riskAssessment : string;
  recommendations : list string;
  overallFraudRisk : Num.number;
}.

(** [obj[key] = (obj[key] || 0) + amount] on an object whose keys keep
    their insertion order (category names are taken not to be array
    indices or names of members of [Object.prototype]). *)
Fixpoint accumulate (key : string) (amount : Num.number)
    (obj : list (string * Num.number)) : list (string * Num.number) :=
  match obj with
  | [] => [(key, #0 + amount)]
  | (k, v) :: rest =>
      if String.eqb k key
      then (k, (if Num.truthy v then v else #0) + amount) :: rest
      else (k, v) :: accumulate key amount rest
  end.

Definition calculateDebitCreditAnalysis (transactions : list Schema.Transaction)
  : option DebitCreditAnalysis :=
  let '(debits, credits) :=
    fold_left
      (fun '(debits, credits) t =>
         let amount := Math.abs (Schema.amount t) in
         let entry := {| amount := amount; merchant := Schema.merchant t;
                         category := Some (Schema.category t) |} in
         if String.eqb (Schema.type t) "expense" then (debits ++ [entry], credits)
         else if String.eqb (Schema.type t) "income" then (debits, credits ++ [entry])
         else (debits, credits))
      transactions ([], []) in
  let categoriesOf entries :=
    fold_left
      (fun obj d =>
         accumulate (match category d with Some c => c | None => "undefined" end)
                    (amount d) obj)
      entries [] in
  let debitCategories := categoriesOf debits in
  let creditCategories := categoriesOf credits in
  let totalDebits := fold_left (fun sum d => sum + amount d) debits #0 in
  let totalCredits := fold_left (fun sum c => sum + amount c) credits #0 in
  let larger := fun max d => if amount d >? amount max then d else max in
  largestDebit <-
    (if Nat.ltb 0 (List.length debits) then reduce1 larger debits
     else Some {| amount := #0; merchant := "N/A"; category := None |}) ;;
  largestCredit <-
    (if Nat.ltb 0 (List.length credits) then reduce1 larger credits
     else Some {| amount := #0; merchant := "N/A"; category := None |}) ;;
  Some {| totalDebits := Num.toFixedValue 2 totalDebits;
          totalCredits := Num.toFixedValue 2 totalCredits;
          debitCount := List.length debits;
          creditCount := List.length credits;
          largestDebit := largestDebit;
          largestCredit := largestCredit;
          debitCategories := debitCategories;
          creditCategories := creditCategories |}.

(** The key [`${t.merchant}_${Math.round(parseFloat(t.amount) / 100) * 100}`]
    of a group.  The text of a number has no underscore, so two keys are
    the same string exactly when the merchants are and the two numbers
    print alike, which is [sameValueZero]; the key is kept as the pair. *)
Definition groupKey (t : Schema.Transaction) : string * Num.number :=
  (Schema.merchant t, Math.round (Schema.amount t / #100) * #100).

Definition sameKey (a b : string * Num.number) : bool :=
  (String.eqb (fst a) (fst b) && Num.sameValueZero (snd a) (snd b))%bool.

(** [merchantGroups[key] = [...(merchantGroups[key] || []), t]] *)
Fixpoint addToGroup (key : string * Num.number) (t : Schema.Transaction)
    (groups : list ((string * Num.number) * list Schema.Transaction))
  : list ((string * Num.number) * list Schema.Transaction) :=
  match groups with
  | [] => [(key, [] ++ [t])]
  | (k, group) :: rest =>
      if sameKey k key then (k, group ++ [t]) :: rest
      else (k, group) :: addToGroup key t rest
  end.

Section Environment.
(** [Date.now()] (one reading for the whole call), the pattern cache of
    the dataset miner (what [getPretrainedPatterns()] returns), the
    printing of large numbers, and the call to the external model, whose
    promise is rejected on [None]. *)
Variable now : Num.number.
Variable cachedPatterns : option DatasetPatterns.
Variable numberToString : Num.number -> string.
Variable callGeminiForFraudAnalysis :
  list Schema.Transaction -> DebitCreditAnalysis -> string ->
  option LLMFraudAnalysisResult.

Definition detectFraudPatterns (transactions : list Schema.Transaction)
  : option (list FraudPattern) :=
  let patterns := [] in
  let pretrainedPatterns := cachedPatterns in
  (* Include pretrained patterns from IEEE dataset *)
  let patterns :=
    match pretrainedPatterns with
    | Some pretrainedPatterns =>
        if Nat.ltb 0 (List.length (DatasetInitialization.patterns pretrainedPatterns))
        then
          let patterns :=
            fold_left
              (fun patterns pretrained =>
                 let riskLevel :=
                   if fraudRiskScore pretrained >? #70 then critical
                   else if fraudRiskScore pretrained >? #50 then high
                   else if fraudRiskScore pretrained >? #30 then medium
                   else low in
                 patterns ++
                 [{| pattern := "[Dataset Pattern] " ++ description pretrained;
                     frequency := natNum (DatasetInitialization.frequency pretrained);
                     riskLevel := riskLevel;
                     affectedTransactions :=
                       Math.round
                         (natNum (DatasetInitialization.frequency pretrained)
                          * (fraudRiskScore pretrained / #100)) |}])
              (Arr.slice0 5 (DatasetInitialization.patterns pretrainedPatterns))
              patterns in
          (* High-risk merchants from dataset *)
          if Nat.ltb 0 (List.length (highRiskMerchants pretrainedPatterns))
          then
            let matchingTxns :=
              filter
                (fun t =>
                   existsb
                     (fun m =>
                        Str.includes (Str.toLowerCase (Schema.merchant t))
                                     (Str.toLowerCase m))
                     (highRiskMerchants pretrainedPatterns))
                transactions in
            if Nat.ltb 0 (List.length matchingTxns)
            then patterns ++
                 [{| pattern := "Transactions from high-risk merchants (IEEE data)";
                     frequency := Arr.lengthNum matchingTxns;
                     riskLevel := high;
                     affectedTransactions := Arr.lengthNum matchingTxns |}]
            else patterns
          else patterns
        else patterns
    | None => patterns
    end in
  (* Pattern 1: Unusual velocity *)
  let last24h :=
    filter (fun t =>
              let hoursDiff := (now - Schema.date t) / (#1000 * #60 * #60) in
              hoursDiff <=? #24)
           transactions in
  let patterns :=
    if Nat.ltb 15 (List.length last24h)
    then patterns ++
         [{| pattern := "High transaction velocity (15+ transactions in 24 hours)";
             frequency := Arr.lengthNum last24h;
             riskLevel := high;
             affectedTransactions := Arr.lengthNum last24h |}]
    else patterns in
  (* Pattern 2: Large transactions *)
  let largeTxns :=
    filter (fun t =>
              let amount := Schema.amount t in
              Math.abs amount >? #50000)
           transactions in
  let patterns :=
    if Nat.ltb 0 (List.length largeTxns)
    then patterns ++
         [{| pattern := "Large transactions detected (₹50,000+): "
                        ++ natToString (List.length largeTxns) ++ " transactions";
             frequency := Arr.lengthNum largeTxns;
             riskLevel := if Nat.ltb 3 (List.length largeTxns) then high else medium;
             affectedTransactions := Arr.lengthNum largeTxns |}]
    else patterns in
  (* Pattern 3: Duplicate-like transactions *)
  let merchantGroups :=
    fold_left (fun groups t => addToGroup (groupKey t) t groups) transactions [] in
  patterns <-
    forEachM
      (fun patterns '(key, group) =>
         if Nat.ltb 2 (List.length group)
         then
           g0 <- first group ;;
           Some (patterns ++
                 [{| pattern := "Repeated similar transactions: " ++ Schema.merchant g0;
                     frequency := Arr.lengthNum group;
                     riskLevel := if Nat.ltb 5 (List.length group) then high else medium;
                     affectedTransactions := Arr.lengthNum group |}])
         else Some patterns)
      merchantGroups patterns ;;
  (* Pattern 4: Unusual merchants *)
  let fraudTxns := filter Schema.isFraudulent transactions in
  let patterns :=
    if Nat.ltb 0 (List.length fraudTxns)
    then patterns ++
         [{| pattern := "Flagged transactions detected by fraud detector";
             frequency := Arr.lengthNum fraudTxns;
             riskLevel := critical;
             affectedTransactions := Arr.lengthNum fraudTxns |}]
    else patterns in
  Some patterns.

Definition riskWeights (level : RiskLevel) : Num.number :=
  match level with
  | critical => #100
  | high => #70
  | medium => #50
  | low => #20
  end.

Definition provideRuleBasedAnalysis (transactions : list Schema.Transaction)
    (debitCreditAnalysis : DebitCreditAnalysis) : option LLMFraudAnalysisResult :=
  patterns <- detectFraudPatterns transactions ;;
  let fraudTxns := List.length (filter Schema.isFraudulent transactions) in
  (* Calculate weighted fraud risk based on pattern severity *)
  let patternRiskScore :=
    if Nat.ltb 0 (List.length patterns)
    then
      let totalWeight :=
        fold_left (fun sum p => sum + riskWeights (riskLevel p)) patterns #0 in
      totalWeight / Arr.lengthNum patterns
    else #0 in
  (* Calculate debit/credit imbalance risk *)
  let totalAmount :=
    totalDebits debitCreditAnalysis + totalCredits debitCreditAnalysis in
  let debitCreditRatio :=
    if totalAmount >? #0
    then (Math.abs (totalDebits debitCreditAnalysis
                    - totalCredits debitCreditAnalysis) / totalAmount) * #100
    else #0 in
  (* Flagged transaction percentage *)
  let flaggedPercentage :=
    if Nat.ltb 0 (List.length transactions)
    then (natNum fraudTxns / Arr.lengthNum transactions) * #100
    else #0 in
  (* Combine all risk factors *)
  let overallRisk :=
    Math.min
      [#100;
       (patternRiskScore * Num.dec 4 1) +
       (flaggedPercentage * Num.dec 35 2) +
       (Math.min [debitCreditRatio; #100] * Num.dec 25 2)] in
  Some
    {| summary :=
         "Analyzed " ++ natToString (List.length transactions)
         ++ " transactions. Detected " ++ natToString fraudTxns
         ++ " flagged transactions and " ++ natToString (List.length patterns)
         ++ " fraud patterns.";
       fraudPatterns := patterns;
       debitCreditAnalysis := debitCreditAnalysis;
       riskAssessment :=
         "Your account has a " ++ Num.toFixed numberToString 1 overallRisk
         ++ "% fraud risk score. "
         ++ (if overallRisk >=? #70
             then "Multiple critical issues detected. Immediate review recommended."
             else if overallRisk >=? #50
             then "Several suspicious patterns identified. Enhanced monitoring advised."
             else "No critical issues found.");
       recommendations :=
         filter (fun s => negb (String.eqb s ""))
           [ "Monitor unusual merchant patterns regularly";
             "Enable transaction alerts for high-value transactions";
             "Review and verify one-time merchants";
             if Nat.ltb 0 fraudTxns
             then "Contact bank if suspicious transactions found"
             else "Maintain current security practices";
             "Keep transaction records for audit purposes";
             if overallRisk >=? #70
             then "Consider updating account security and payment methods"
             else "" ];
       overallFraudRisk := Num.toFixedValue 1 overallRisk |}.

(** [apiKey] is [None] when the argument is undefined; the empty string
    is falsy too. *)
Definition analyzeFraudWithLLM (transactions : list Schema.Transaction)
    (apiKey : option string) : option LLMFraudAnalysisResult :=
  (* Calculate debit/credit analysis first *)
  debitCreditAnalysis <- calculateDebitCreditAnalysis transactions ;;
  (* If no API key, provide rule-based analysis *)
  match apiKey with
  | None | Some EmptyString =>
      provideRuleBasedAnalysis transactions debitCreditAnalysis
  | Some apiKey =>
      match callGeminiForFraudAnalysis transactions debitCreditAnalysis apiKey with
      | Some result => Some result
      | None =>
          (* Fallback to rule-based analysis *)
          provideRuleBasedAnalysis transactions debitCreditAnalysis
      end
  end.

End Environment.

End LlmFraudAnalysis.

(** ** Receipt analysis (vision-analysis.ts) *)

Module VisionAnalysis.

Record ReceiptData : Set := {
  merchant : string;
  amount : Num.number;
  date : string;
  category : string;
  confidence : Num.number;
  extractedText : option string;
  fraudIndicators : option (list string);
  rawAmountText : option string;
  transactionType : option string;
}.

Record VisionAnalysisResult : Set := {
  isFraudulent : bool;
  fraudReason : option string;
  riskScore : Num.number;
  receiptData : ReceiptData;
  analysisDetails : option string;
}.

Definition pushIf (c : bool) (s : string) (indicators : list string) : list string :=
  if c then indicators ++ [s] else indicators.

(** [l.indexOf(item)]: the first index holding [item], -1 without one. *)
Fixpoint indexOf (item : string) (l : list string) : Z :=
  match l with
  | [] => -1
  | x :: l' =>
      if String.eqb x item then 0
      else let i := indexOf item l' in if (i <? 0)%Z then -1 else (i + 1)%Z
  end.

(** [l.filter((item, index) => f item index)], from index [i] on. *)
Fixpoint filterFrom {A : Type} (f : A -> Z -> bool) (i : Z) (l : list A) : list A :=
  match l with
  | [] => []
  | x :: l' =>
      if f x i then x :: filterFrom f (i + 1)%Z l' else filterFrom f (i + 1)%Z l'
  end.

(** The indicators before the duplicates are removed. *)
Definition collectIndicators (receiptData : ReceiptData) : list string :=
  let indicators := [] in
  (* Check for suspicious patterns *)
  let indicators :=
    pushIf (amount receiptData >? #500000) "Unusually high transaction amount"
      indicators in
  let indicators :=
    match extractedText receiptData with
    | Some (String _ _ as text) =>
        let lowerText := Str.toLowerCase text in
        (* Check for known fraud keywords *)
        let indicators :=
          pushIf (Str.includes lowerText "duplicate" || Str.includes lowerText "retry")%bool
            "Possible duplicate transaction" indicators in
        let indicators :=
          pushIf (Str.includes lowerText "unauthorized" || Str.includes lowerText "failed")%bool
            "Transaction failure indicators present" indicators in
        pushIf (Str.includes lowerText "test" || Str.includes lowerText "demo")%bool
          "Test/demo transaction detected" indicators
    | _ => indicators
    end in
  (* Combine with Gemini-detected indicators *)
  match fraudIndicators receiptData with
  | Some detected =>
      if Nat.ltb 0 (List.length detected) then indicators ++ detected
      else indicators
  | None => indicators
  end.

Definition detectFraudIndicatorsFromReceipt (receiptData : ReceiptData)
  : list string :=
  let indicators := collectIndicators receiptData in
  (* Remove duplicates using filter *)
  filterFrom (fun item index => (indexOf item indicators =? index)%Z) 0%Z indicators.

Section Environment.
(** The day [new Date().toISOString().split('T')[0]] and the call to the
    external model, whose promise is rejected on [None]. *)
Variable today : string.
Variable callGeminiVision : string -> string -> option VisionAnalysisResult.

(** The [catch] of the source guards the construction of the value, which
    does not throw. *)
Definition fallbackReceiptAnalysis (imageBase64 : string) : VisionAnalysisResult :=
  {| isFraudulent := false;
     fraudReason := None;
     riskScore := #0;
     receiptData :=
       {| merchant := "Receipt Transaction";
          amount := #0;
          date := today;
          category := "Payment";
          confidence := #0;
          extractedText := Some "API unavailable - please enter amount manually";
          fraudIndicators := Some [];
          rawAmountText := None;
          transactionType := None |};
     analysisDetails :=
       Some "⚠️ AI Vision API temporarily unavailable. Amount extraction failed. Please manually enter the amount from your receipt in the next step." |}.

Definition analyzeReceiptWithVision (imageBase64 : string) (apiKey : option string)
  : VisionAnalysisResult :=
  match apiKey with
  | None | Some EmptyString => fallbackReceiptAnalysis imageBase64
  | Some apiKey =>
      match callGeminiVision imageBase64 apiKey with
      | Some analysisResult => analysisResult
      | None => fallbackReceiptAnalysis imageBase64
      end
  end.

End Environment.

(** The test of the screenshot route before it stores the transaction. *)
Definition isValidOCR (receiptData : ReceiptData) : bool :=
  ((amount receiptData >? #0)
   && negb (String.eqb (merchant receiptData) "Receipt Transaction")
   && negb (String.eqb (merchant receiptData) "Unknown")
   && ((if Num.truthy (confidence receiptData) then confidence receiptData else #0)
       >=? #50))%bool.

End VisionAnalysis.

(** ** Dataset statistics (dataset-processor.ts)

    The rows are those of the pattern miner.  Merchant names are taken
    not to be array indices or names of members of [Object.prototype], so
    that the objects used as maps list their keys in insertion order. *)

Module DatasetProcessor.
Import DatasetInitialization.

Record FraudPatternSummary : Set := {
  pattern : string;
  frequency : nat;
  associatedFraudRate : Num.number;
}.

Module Merchant.
Record t : Set := { name : string; count : nat; fraudCount : nat }.
End Merchant.

Record AmountStats : Set := {
  min : Num.number;
  max : Num.number;
  average : Num.number;
  median : Num.number;
}.

Record DatasetStats : Set := {
  totalTransactions : nat;
  fraudCount : nat;
  fraudPercentage : Num.number;
  fraudPatterns : list FraudPatternSummary;
  topMerchants : list Merchant.t;
  amountStats : AmountStats;
  categoryDistribution : list (string * nat);
}.

Definition estimateCategory (record : CsvRecord) : string :=
  let merchant :=
    Str.toLowerCase
      (template (orElse (orElse (Merchant record) (MerchantID record)) (Some ""))) in
  let productCD := Str.toLowerCase (template (orElse (ProductCD record) (Some ""))) in
  (* Map to categories *)
  if (Str.includes merchant "gas" || Str.includes merchant "fuel")%bool then "Fuel"
  else if (Str.includes merchant "grocery" || Str.includes merchant "supermarket")%bool
  then "Groceries"
  else if (Str.includes merchant "restaurant" || Str.includes merchant "cafe")%bool
  then "Food & Dining"
  else if (Str.includes merchant "hotel" || Str.includes merchant "travel")%bool
  then "Travel"
  else if (Str.includes merchant "shopping" || Str.includes merchant "retail")%bool
  then "Shopping"
  else if (Str.includes merchant "health" || Str.includes merchant "pharmacy")%bool
  then "Healthcare"
  else if (Str.includes merchant "entertainment" || Str.includes merchant "movie")%bool
  then "Entertainment"
  (* Fallback to ProductCD *)
  else if String.eqb productCD "s" then "Shopping"
  else if String.eqb productCD "w" then "Withdrawal"
  else if String.eqb productCD "c" then "Cash"
  else "Other".

Section Builtins.
Variable parseFloat : string -> Num.number.
Variable getHours : string -> Num.number.

Definition amountOf (record : CsvRecord) : Num.number :=
  parseFloat
    (template (orElse (orElse (TransactionAmt record) (Amount record)) (Some "0"))).

Definition merchantOf (record : CsvRecord) : string :=
  template
    (orElse (Merchant record)
            (Some ("Merchant_" ++ template (orElse (MerchantID record)
                                                   (Some "Unknown")))%string)).

Definition extractPatterns (record : CsvRecord) (isFraud : bool) : list string :=
  let patterns := [] in
  (* Payment type pattern *)
  let patterns :=
    pushIf (truthy (PaymentType record) || truthy (ProductCD record))%bool
      ("payment_type_" ++ template (orElse (PaymentType record) (ProductCD record)))
      patterns in
  (* Device pattern *)
  let patterns :=
    pushIf (truthy (DeviceType record))
      ("device_" ++ template (DeviceType record)) patterns in
  (* Amount range pattern *)
  let amount := amountOf record in
  let patterns :=
    if amount >? #100000 then patterns ++ ["high_amount_100k+"]
    else if amount >? #50000 then patterns ++ ["high_amount_50k"]
    else if amount >? #10000 then patterns ++ ["medium_amount_10k"]
    else if amount <? #100 then patterns ++ ["low_amount_under_100"]
    else patterns in
  (* Time pattern (if available) *)
  let patterns :=
    if truthy (TransactionTime record) then
      let hour := getHours (template (TransactionTime record)) in
      if ((hour >=? #0) && (hour <? #6))%bool
      then patterns ++ ["time_early_morning"]
      else if ((hour >=? #18) && (hour <? #24))%bool
      then patterns ++ ["time_evening"]
      else patterns
    else patterns in
  (* Browser/OS pattern (if available) *)
  let patterns :=
    pushIf (truthy (Browser record))
      ("browser_" ++ template (Browser record)) patterns in
  (* Country pattern (if available) *)
  let patterns :=
    pushIf (truthy (Country record))
      ("country_" ++ template (Country record)) patterns in
  patterns.

(** The state of the loop over the rows. *)
Record Tally : Set := {
  seen : nat;
  frauds : nat;
  merchantData : list (string * Counters);
  amounts : list Num.number;
  patterns : list (string * Counters);
  categories : list (string * nat);
}.

Definition step (acc : Tally) (record : CsvRecord) : Tally :=
  (* Map IEEE-CIS dataset columns to our schema *)
  let amount := amountOf record in
  let isFraud := isFraudRow record in
  let merchant := merchantOf record in
  {| seen := S (seen acc);
     frauds := if isFraud then S (frauds acc) else frauds acc;
     amounts := amounts acc ++ [amount];
     (* Track merchants *)
     merchantData := bump isFraud merchant (merchantData acc);
     (* Extract patterns *)
     patterns :=
       fold_left (fun obj pattern => bump isFraud pattern obj)
                 (extractPatterns record isFraud) (patterns acc);
     (* Category (estimate from merchant or transaction type) *)
     categories := addTo (estimateCategory record) 1%nat (categories acc) |}.

Definition tally (recordsToProcess : list CsvRecord) : Tally :=
  fold_left step recordsToProcess
    {| seen := 0; frauds := 0; merchantData := []; amounts := [];
       patterns := []; categories := [] |}.

(** [records] is what the CSV parser returned.  The result is [None] when
    the body throws, which the source turns into the rejection
    "Failed to process dataset". *)
Definition processIEEEDataset (records : list CsvRecord) : option DatasetStats :=
  (* Process records - limit to 50k for performance *)
  let recordsToProcess := Arr.slice0 50000 records in
  let acc := tally recordsToProcess in
  let totalTransactions := seen acc in
  let fraudCount := frauds acc in
  (* Calculate statistics *)
  let amounts := Arr.sort (fun a b => a - b) (amounts acc) in
  let median := nth_error amounts (Nat.div (List.length amounts) 2) in
  let average :=
    fold_left (fun a b => a + b) amounts #0 / Arr.lengthNum amounts in
  (* Build fraud patterns with association rates *)
  let fraudPatterns :=
    Arr.slice0 10
      (Arr.sort (fun a b => associatedFraudRate b - associatedFraudRate a)
         (map (fun '(pattern, data) =>
                 {| pattern := pattern;
                    frequency := count data;
                    associatedFraudRate :=
                      (natNum (DatasetInitialization.fraudCount data)
                       / natNum (count data)) * #100 |})
              (filter (fun entry =>
                         Nat.ltb 0 (DatasetInitialization.fraudCount (snd entry)))
                      (patterns acc)))) in
  (* Top merchants by fraud *)
  let topMerchants :=
    Arr.slice0 10
      (Arr.sort (fun a b =>
                   natNum (Merchant.fraudCount b) - natNum (Merchant.fraudCount a))
         (map (fun '(name, data) =>
                 {| Merchant.name := name;
                    Merchant.count := count data;
                    Merchant.fraudCount := DatasetInitialization.fraudCount data |})
              (filter (fun entry =>
                         Nat.ltb 0 (DatasetInitialization.fraudCount (snd entry)))
                      (merchantData acc)))) in
  let min := Math.min amounts in
  let max := Math.max amounts in
  let average := Num.toFixedValue 2 average in
  (* [median.toFixed(2)] on [undefined] is a TypeError *)
  match median with
  | None => None
  | Some median =>
      let median := Num.toFixedValue 2 median in
      Some
        {| totalTransactions := totalTransactions;
           fraudCount := fraudCount;
           fraudPercentage := (natNum fraudCount / natNum totalTransactions) * #100;
           fraudPatterns := fraudPatterns;
           topMerchants := topMerchants;
           amountStats :=
             {| min := min; max := max; average := average; median := median |};
           categoryDistribution := categories acc |}
  end.

End Builtins.

End DatasetProcessor.

(** ** CSV rows with free column names (csv-analyzer.ts)

    A parsed row is an object from column names to strings, listed in the
    order of the columns (column names are taken not to be array
    indices). *)

Module CsvAnalyzer.

Record CSVAnalysis : Set := {
  creditColumn : option string;
  debitColumn : option string;
  dateColumn : option string;
  merchantColumn : option string;
  hasCreditsColumn : bool;
  hasDebitsColumn : bool;
}.

(** [record[key]] *)
Definition get (record : list (string * string)) (key : string) : option string :=
  option_map snd (find (fun kv => String.eqb (fst kv) key) record).

(** [Object.keys(record)] *)
Definition keys (record : list (string * string)) : list string := map fst record.

Definition truthy (v : option string) : bool :=
  match v with
  | Some (String _ _) => true
  | _ => false
  end.

Definition isNaN (x : Num.number) : bool :=
  match x with
  | S754_nan => true
  | _ => false
  end.

(** Without an API key the structure analysis names no column. *)
Definition noAnalysis : CSVAnalysis :=
  {| creditColumn := None; debitColumn := None; dateColumn := None;
     merchantColumn := None; hasCreditsColumn := false; hasDebitsColumn := false |}.

Section Builtins.
Variable parseFloat : string -> Num.number.

(** [parseFloat(v)] on a value that may be undefined, which gives NaN. *)
Definition parseValue (v : option string) : Num.number :=
  match v with
  | Some s => parseFloat s
  | None => Num.NaN
  end.

Definition isPositive (v : option string) : bool :=
  let val := parseValue v in (negb (isNaN val) && (val >? #0))%bool.

(** [record[analysis.column]] when the column is named and the cell is
    not empty. *)
Definition cell (record : list (string * string)) (column : option string)
  : option string :=
  match column with
  | Some (String _ _ as c) => if truthy (get record c) then get record c else None
  | _ => None
  end.

(** The loop over the lower-cased column names. *)
Fixpoint scanColumns (record : list (string * string)) (columnNames : list string)
  : string :=
  match columnNames with
  | [] =>
      (* Default to expense *)
      "expense"
  | col :: rest =>
      let val :=
        get record
          (match find (fun k => String.eqb (Str.toLowerCase k) col) (keys record) with
           | Some (String _ _ as k) => k
           | _ => ""
           end) in
      if ((Str.includes col "credit" || Str.includes col "deposit"
           || Str.includes col "received") && isPositive val)%bool
      then "income"
      else if ((Str.includes col "debit" || Str.includes col "withdrawal"
                || Str.includes col "expense") && isPositive val)%bool
      then "expense"
      else scanColumns record rest
  end.

Definition detectTransactionType (record : list (string * string))
    (analysis : CSVAnalysis) : string :=
  (* If analysis found credit/debit columns, use them *)
  if (truthy (cell record (creditColumn analysis))
      && isPositive (cell record (creditColumn analysis)))%bool
  then "income"
  else if (truthy (cell record (debitColumn analysis))
           && isPositive (cell record (debitColumn analysis)))%bool
  then "expense"
  else
    (* Fallback: check column names for keywords *)
    scanColumns record (map Str.toLowerCase (keys record)).

End Builtins.

(** The loop over the keys; [None] when it ends without a [return]. *)
Fixpoint firstAmountColumn (record : list (string * string)) (ks : list string)
  : option (option string) :=
  match ks with
  | [] => None
  | key :: rest =>
      let keyLower := Str.toLowerCase key in
      if (Str.includes keyLower "amount" || Str.includes keyLower "total"
          || String.eqb keyLower "value")%bool
      then Some (get record key)
      else firstAmountColumn record rest
  end.

(** The result is [None] for [undefined]. *)
Definition extractAmountFromRecord (record : list (string * string))
    (analysis : CSVAnalysis) (type : string) : option string :=
  (* Try to find amount from credit/debit columns first *)
  if (String.eqb type "income" && truthy (cell record (creditColumn analysis)))%bool
  then cell record (creditColumn analysis)
  else if (String.eqb type "expense" && truthy (cell record (debitColumn analysis)))%bool
  then cell record (debitColumn analysis)
  else
    (* Fallback: look for amount columns *)
    match firstAmountColumn record (keys record) with
    | Some v => v
    | None => if truthy (get record "amount") then get record "amount" else Some "0"
    end.

End CsvAnalyzer.

(** ** In-memory storage (storage.ts)

    A [Map] with string keys is the list of its entries in insertion
    order: [set] on a key that is present replaces the value where it
    stands, [set] on a new key appends, and [values()] lists in that
    order. *)

Module JsMap.
Section Entries.
Context {V : Type}.

Definition get (m : list (string * V)) (key : string) : option V :=
  option_map snd (find (fun e => String.eqb (fst e) key) m).

Fixpoint set (m : list (string * V)) (key : string) (value : V)
  : list (string * V) :=
  match m with
  | [] => [(key, value)]
  | (k, v) :: rest =>
      if String.eqb k key then (k, value) :: rest
      else (k, v) :: set rest key value
  end.

Definition has (m : list (string * V)) (key : string) : bool :=
  existsb (fun e => String.eqb (fst e) key) m.

(** [m.delete(key)]: the map without the entry, and whether it had one. *)
Definition delete (m : list (string * V)) (key : string)
  : list (string * V) * bool :=
  (filter (fun e => negb (String.eqb (fst e) key)) m, has m key).

Definition values (m : list (string * V)) : list V := map snd m.

End Entries.
End JsMap.

Module Storage.

(** [a || null] on a nullable string *)
Definition orNull (a : option string) : option string :=
  match a with
  | Some (String _ _) => a
  | _ => None
  end.

(** The value of a property after [{...old, ...updates}]: the one of
    [updates] when it has the property. *)
Definition spread {A : Type} (update : option A) (old : A) : A :=
  match update with
  | Some v => v
  | None => old
  end.

Module User.
Record t : Set := {
  id : string;
  username : string;
  password : string;
  email : string;
  monthlyIncome : option string;
  createdAt : Num.number;
}.
End User.

Module InsertUser.
Record t : Set := {
  username : string;
  password : string;
  email : string;
  monthlyIncome : option string;
}.
End InsertUser.

(** The fields of an insert that may be left out are [None] then; [date]
    holds the time value of the date or of the parsed string. *)
Module InsertTransaction.
Record t : Set := {
  userId : string;
  date : Num.number;
  amount : Num.number;
  merchant : string;
  category : string;
  type : string;
  description : option string;
  location : option string;
  accountId : option string;
  isFraudulent : option bool;
  fraudReason : option string;
}.
End InsertTransaction.

(** [Partial<Transaction>]: a property is [None] when the object does not
    have it. *)
Module TransactionUpdates.
Record t : Set := {
  id : option string;
  userId : option string;
  date : option Num.number;
  amount : option Num.number;
  merchant : option string;
  category : option string;
  type : option string;
  description : option (option string);
  location : option (option string);
  accountId : option (option string);
  isFraudulent : option bool;
  fraudReason : option (option string);
  createdAt : option Num.number;
}.
End TransactionUpdates.

Module Budget.
Record t : Set := {
  id : string;
  userId : string;
  category : string;
  amount : string;
  period : string;
  status : string;
  createdAt : Num.number;
  deletedAt : option Num.number;
}.
End Budget.

Module InsertBudget.
Record t : Set := {
  userId : string;
  category : string;
  amount : string;
  period : string;
  status : option string;
  deletedAt : option Num.number;
}.
End InsertBudget.

Module BudgetUpdates.
Record t : Set := {
  id : option string;
  userId : option string;
  category : option string;
  amount : option string;
  period : option string;
  status : option string;
  createdAt : option Num.number;
  deletedAt : option (option Num.number);
}.
End BudgetUpdates.

Module Goal.
Record t : Set := {
  id : string;
  userId : string;
  name : string;
  targetAmount : string;
  currentAmount : string;
  deadline : option Num.number;
  type : string;
  status : string;
  createdAt : Num.number;
}.
End Goal.

Module InsertGoal.
Record t : Set := {
  userId : string;
  name : string;
  targetAmount : string;
  deadline : option Num.number;
  type : string;
}.
End InsertGoal.

Module GoalUpdates.
Record t : Set := {
  id : option string;
  userId : option string;
  name : option string;
  targetAmount : option string;
  currentAmount : option string;
  deadline : option (option Num.number);
  type : option string;
  status : option string;
  createdAt : option Num.number;
}.
End GoalUpdates.

Module Health.
Record t : Set := {
  id : string;
  userId : string;
  score : Num.number;
  incomeStability : Num.number;
  expenseRatio : Num.number;
  savingsRate : Num.number;
  debtRatio : Num.number;
  liquidity : Num.number;
  calculatedAt : Num.number;
}.
End Health.

(** [Omit<FinancialHealth, "id" | "calculatedAt">] *)
Module HealthInput.
Record t : Set := {
  userId : string;
  score : Num.number;
  incomeStability : Num.number;
  expenseRatio : Num.number;
  savingsRate : Num.number;
  debtRatio : Num.number;
  liquidity : Num.number;
}.
End HealthInput.

Record MemStorage : Set := {
  users : list (string * User.t);
  transactions : list (string * Schema.Transaction);
  budgets : list (string * Budget.t);
  goals : list (string * Goal.t);
  financialHealth : list (string * Health.t);
}.

(** [new MemStorage()] *)
Definition empty : MemStorage :=
  {| users := []; transactions := []; budgets := []; goals := [];
     financialHealth := [] |}.

Definition withUsers (s : MemStorage) (m : list (string * User.t)) : MemStorage :=
  {| users := m; transactions := transactions s; budgets := budgets s;
     goals := goals s; financialHealth := financialHealth s |}.

Definition withTransactions (s : MemStorage) (m : list (string * Schema.Transaction))
  : MemStorage :=
  {| users := users s; transactions := m; budgets := budgets s;
     goals := goals s; financialHealth := financialHealth s |}.

Definition withBudgets (s : MemStorage) (m : list (string * Budget.t)) : MemStorage :=
  {| users := users s; transactions := transactions s; budgets := m;
     goals := goals s; financialHealth := financialHealth s |}.

Definition withGoals (s : MemStorage) (m : list (string * Goal.t)) : MemStorage :=
  {| users := users s; transactions := transactions s; budgets := budgets s;
     goals := m; financialHealth := financialHealth s |}.

Definition withFinancialHealth (s : MemStorage) (m : list (string * Health.t))
  : MemStorage :=
  {| users := users s; transactions := transactions s; budgets := budgets s;
     goals := goals s; financialHealth := m |}.

(** The methods.  One that changes the store returns the new store with
    its result; [uuid] is what [randomUUID()] returns and [now] the time
    value of [new Date()]. *)

(** *** User methods *)

Definition getUser (s : MemStorage) (id : string) : option User.t :=
  JsMap.get (users s) id.

Definition getUserByUsername (s : MemStorage) (username : string) : option User.t :=
  find (fun user => String.eqb (User.username user) username)
       (JsMap.values (users s)).

Definition getUserByEmail (s : MemStorage) (email : string) : option User.t :=
  find (fun user => String.eqb (User.email user) email) (JsMap.values (users s)).

Definition createUser (uuid : string) (now : Num.number) (s : MemStorage)
    (insertUser : InsertUser.t) (customId : option string)
  : MemStorage * User.t :=
  let id := match customId with Some (String _ _ as c) => c | _ => uuid end in
  let user :=
    {| User.id := id;
       User.username := InsertUser.username insertUser;
       User.password := InsertUser.password insertUser;
       User.email := InsertUser.email insertUser;
       User.monthlyIncome := orNull (InsertUser.monthlyIncome insertUser);
       User.createdAt := now |} in
  (withUsers s (JsMap.set (users s) id user), user).

(** *** Transaction methods *)

Definition getTransaction (s : MemStorage) (id : string) : option Schema.Transaction :=
  JsMap.get (transactions s) id.

Definition getTransactionsByUser (s : MemStorage) (userId : string)
  : list Schema.Transaction :=
  Arr.sort (fun a b => Schema.date b - Schema.date a)
    (filter (fun t => String.eqb (Schema.userId t) userId)
            (JsMap.values (transactions s))).

Definition getTransactionsByDateRange (s : MemStorage) (userId : string)
    (startDate endDate : Num.number) : list Schema.Transaction :=
  Arr.sort (fun a b => Schema.date b - Schema.date a)
    (filter (fun t =>
               let transDate := Schema.date t in
               (String.eqb (Schema.userId t) userId
                && (transDate >=? startDate) && (transDate <=? endDate))%bool)
            (JsMap.values (transactions s))).

Definition createTransaction (uuid : string) (now : Num.number) (s : MemStorage)
    (insertTransaction : InsertTransaction.t) : MemStorage * Schema.Transaction :=
  let id := uuid in
  let transaction :=
    {| Schema.id := id;
       Schema.userId := InsertTransaction.userId insertTransaction;
       Schema.amount := InsertTransaction.amount insertTransaction;
       Schema.merchant := InsertTransaction.merchant insertTransaction;
       Schema.category := InsertTransaction.category insertTransaction;
       Schema.type := InsertTransaction.type insertTransaction;
       Schema.date := InsertTransaction.date insertTransaction;
       Schema.isFraudulent :=
         match InsertTransaction.isFraudulent insertTransaction with
         | Some true => true
         | _ => false
         end;
       Schema.fraudReason := orNull (InsertTransaction.fraudReason insertTransaction);
       Schema.description := orNull (InsertTransaction.description insertTransaction);
       Schema.location := orNull (InsertTransaction.location insertTransaction);
       Schema.accountId := orNull (InsertTransaction.accountId insertTransaction);
       Schema.createdAt := now |} in
  (withTransactions s (JsMap.set (transactions s) id transaction), transaction).

Definition updateTransaction (s : MemStorage) (id : string)
    (updates : TransactionUpdates.t) : MemStorage * option Schema.Transaction :=
  match JsMap.get (transactions s) id with
  | None => (s, None)
  | Some transaction =>
      let updated :=
        {| Schema.id := spread (TransactionUpdates.id updates) (Schema.id transaction);
           Schema.userId :=
             spread (TransactionUpdates.userId updates) (Schema.userId transaction);
           Schema.date :=
             spread (TransactionUpdates.date updates) (Schema.date transaction);
           Schema.amount :=
             spread (TransactionUpdates.amount updates) (Schema.amount transaction);
           Schema.merchant :=
             spread (TransactionUpdates.merchant updates) (Schema.merchant transaction);
           Schema.category :=
             spread (TransactionUpdates.category updates) (Schema.category transaction);
           Schema.type :=
             spread (TransactionUpdates.type updates) (Schema.type transaction);
           Schema.description :=
             spread (TransactionUpdates.description updates)
                    (Schema.description transaction);
           Schema.location :=
             spread (TransactionUpdates.location updates) (Schema.location transaction);
           Schema.accountId :=
             spread (TransactionUpdates.accountId updates)
                    (Schema.accountId transaction);
           Schema.isFraudulent :=
             spread (TransactionUpdates.isFraudulent updates)
                    (Schema.isFraudulent transaction);
           Schema.fraudReason :=
             spread (TransactionUpdates.fraudReason updates)
                    (Schema.fraudReason transaction);
           Schema.createdAt :=
             spread (TransactionUpdates.createdAt updates)
                    (Schema.createdAt transaction) |} in
      (withTransactions s (JsMap.set (transactions s) id updated), Some updated)
  end.

Definition deleteTransaction (s : MemStorage) (id : string) : MemStorage * bool :=
  let '(m, deleted) := JsMap.delete (transactions s) id in
  (withTransactions s m, deleted).

(** *** Budget methods *)

Definition getBudget (s : MemStorage) (id : string) : option Budget.t :=
  JsMap.get (budgets s) id.

Definition getBudgetsByUser (s : MemStorage) (userId : string) : list Budget.t :=
  filter (fun b => String.eqb (Budget.userId b) userId) (JsMap.values (budgets s)).

Definition createBudget (uuid : string) (now : Num.number) (s : MemStorage)
    (insertBudget : InsertBudget.t) : MemStorage * Budget.t :=
  let id := uuid in
  let budget :=
    {| Budget.id := id;
       Budget.userId := InsertBudget.userId insertBudget;
       Budget.category := InsertBudget.category insertBudget;
       Budget.amount := InsertBudget.amount insertBudget;
       Budget.period := InsertBudget.period insertBudget;
       Budget.status := "active";
       Budget.deletedAt := None;
       Budget.createdAt := now |} in
  (withBudgets s (JsMap.set (budgets s) id budget), budget).

Definition updateBudget (s : MemStorage) (id : string) (updates : BudgetUpdates.t)
  : MemStorage * option Budget.t :=
  match JsMap.get (budgets s) id with
  | None => (s, None)
  | Some budget =>
      let updated :=
        {| Budget.id := spread (BudgetUpdates.id updates) (Budget.id budget);
           Budget.userId := spread (BudgetUpdates.userId updates) (Budget.userId budget);
           Budget.category :=
             spread (BudgetUpdates.category updates) (Budget.category budget);
           Budget.amount := spread (BudgetUpdates.amount updates) (Budget.amount budget);
           Budget.period := spread (BudgetUpdates.period updates) (Budget.period budget);
           Budget.status := spread (BudgetUpdates.status updates) (Budget.status budget);
           Budget.createdAt :=
             spread (BudgetUpdates.createdAt updates) (Budget.createdAt budget);
           Budget.deletedAt :=
             spread (BudgetUpdates.deletedAt updates) (Budget.deletedAt budget) |} in
      (withBudgets s (JsMap.set (budgets s) id updated), Some updated)
  end.

Definition deleteBudget (now : Num.number) (s : MemStorage) (id : string)
  : MemStorage * bool :=
  match JsMap.get (budgets s) id with
  | None => (s, false)
  | Some budget =>
      let updated :=
        {| Budget.id := Budget.id budget;
           Budget.userId := Budget.userId budget;
           Budget.category := Budget.category budget;
           Budget.amount := Budget.amount budget;
           Budget.period := Budget.period budget;
           Budget.status := "deleted";
           Budget.createdAt := Budget.createdAt budget;
           Budget.deletedAt := Some now |} in
      (withBudgets s (JsMap.set (budgets s) id updated), true)
  end.

(** *** Goal methods *)

Definition getGoal (s : MemStorage) (id : string) : option Goal.t :=
  JsMap.get (goals s) id.

Definition getGoalsByUser (s : MemStorage) (userId : string) : list Goal.t :=
  filter (fun g => String.eqb (Goal.userId g) userId) (JsMap.values (goals s)).

Definition createGoal (uuid : string) (now : Num.number) (s : MemStorage)
    (insertGoal : InsertGoal.t) : MemStorage * Goal.t :=
  let id := uuid in
  let goal :=
    {| Goal.id := id;
       Goal.name := InsertGoal.name insertGoal;
       Goal.targetAmount := InsertGoal.targetAmount insertGoal;
       Goal.type := InsertGoal.type insertGoal;
       Goal.userId := InsertGoal.userId insertGoal;
       Goal.currentAmount := "0";
       Goal.status := "active";
       Goal.deadline := InsertGoal.deadline insertGoal;
       Goal.createdAt := now |} in
  (withGoals s (JsMap.set (goals s) id goal), goal).

Definition updateGoal (s : MemStorage) (id : string) (updates : GoalUpdates.t)
  : MemStorage * option Goal.t :=
  match JsMap.get (goals s) id with
  | None => (s, None)
  | Some goal =>
      let updated :=
        {| Goal.id := spread (GoalUpdates.id updates) (Goal.id goal);
           Goal.userId := spread (GoalUpdates.userId updates) (Goal.userId goal);
           Goal.name := spread (GoalUpdates.name updates) (Goal.name goal);
           Goal.targetAmount :=
             spread (GoalUpdates.targetAmount updates) (Goal.targetAmount goal);
           Goal.currentAmount :=
             spread (GoalUpdates.currentAmount updates) (Goal.currentAmount goal);
           Goal.deadline := spread (GoalUpdates.deadline updates) (Goal.deadline goal);
           Goal.type := spread (GoalUpdates.type updates) (Goal.type goal);
           Goal.status := spread (GoalUpdates.status updates) (Goal.status goal);
           Goal.createdAt :=
             spread (GoalUpdates.createdAt updates) (Goal.createdAt goal) |} in
      (withGoals s (JsMap.set (goals s) id updated), Some updated)
  end.

Definition deleteGoal (s : MemStorage) (id : string) : MemStorage * bool :=
  match JsMap.get (goals s) id with
  | None => (s, false)
  | Some goal =>
      let updated :=
        {| Goal.id := Goal.id goal;
           Goal.userId := Goal.userId goal;
           Goal.name := Goal.name goal;
           Goal.targetAmount := Goal.targetAmount goal;
           Goal.currentAmount := Goal.currentAmount goal;
           Goal.deadline := Goal.deadline goal;
           Goal.type := Goal.type goal;
           Goal.status := "deleted";
           Goal.createdAt := Goal.createdAt goal |} in
      (withGoals s (JsMap.set (goals s) id updated), true)
  end.

(** *** Financial Health methods *)

Definition getFinancialHealth (s : MemStorage) (userId : string) : option Health.t :=
  find (fun fh => String.eqb (Health.userId fh) userId)
       (JsMap.values (financialHealth s)).

Definition createOrUpdateFinancialHealth (uuid : string) (now : Num.number)
    (s : MemStorage) (health : HealthInput.t) : MemStorage * Health.t :=
  let withId id :=
    {| Health.id := id;
       Health.userId := HealthInput.userId health;
       Health.score := HealthInput.score health;
       Health.incomeStability := HealthInput.incomeStability health;
       Health.expenseRatio := HealthInput.expenseRatio health;
       Health.savingsRate := HealthInput.savingsRate health;
       Health.debtRatio := HealthInput.debtRatio health;
       Health.liquidity := HealthInput.liquidity health;
       Health.calculatedAt := now |} in
  match getFinancialHealth s (HealthInput.userId health) with
  | Some existing =>
      let updated := withId (Health.id existing) in
      (withFinancialHealth s
         (JsMap.set (financialHealth s) (Health.id existing) updated),
       updated)
  | None =>
      let id := uuid in
      let newHealth := withId id in
      (withFinancialHealth s (JsMap.set (financialHealth s) id newHealth), newHealth)
  end.

End Storage.

(** ** The transaction routes (routes.ts)

    The handlers over the in-memory storage.  [parseFloat] is the builtin;
    [now] stands for every reading of the clock during one request and
    [threeMonthsAgo] for the start of the window of the health score;
    [userUuid], [transactionUuid] and [healthUuid] are what the calls of
    [randomUUID()] return, in the order the handler makes them. *)

Module Routes.
Import Storage.

(** The argument of [detectFraud] made from the insert; the rule engine
    reads no [id] and no [createdAt]. *)
Definition asCandidate (transactionData : InsertTransaction.t) : Schema.Transaction :=
  {| Schema.id := "";
     Schema.userId := InsertTransaction.userId transactionData;
     Schema.date := InsertTransaction.date transactionData;
     Schema.amount := InsertTransaction.amount transactionData;
     Schema.merchant := InsertTransaction.merchant transactionData;
     Schema.category := InsertTransaction.category transactionData;
     Schema.type := InsertTransaction.type transactionData;
     Schema.description := InsertTransaction.description transactionData;
     Schema.location := InsertTransaction.location transactionData;
     Schema.accountId := InsertTransaction.accountId transactionData;
     Schema.isFraudulent :=
       match InsertTransaction.isFraudulent transactionData with
       | Some b => b
       | None => false
       end;
     Schema.fraudReason := InsertTransaction.fraudReason transactionData;
     Schema.createdAt := Num.NaN |}.

(** [{ userId, ...healthMetrics }] *)
Definition withUserId (userId : string)
    (healthMetrics : FinancialHealth.HealthScoreComponents) : HealthInput.t :=
  {| HealthInput.userId := userId;
     HealthInput.score := FinancialHealth.score healthMetrics;
     HealthInput.incomeStability := FinancialHealth.incomeStability healthMetrics;
     HealthInput.expenseRatio := FinancialHealth.expenseRatio healthMetrics;
     HealthInput.savingsRate := FinancialHealth.savingsRate healthMetrics;
     HealthInput.debtRatio := FinancialHealth.debtRatio healthMetrics;
     HealthInput.liquidity := FinancialHealth.liquidity healthMetrics |}.

Section Environment.
Variable parseFloat : string -> Num.number.
Variable now : Num.number.
Variable threeMonthsAgo : Num.number.
Variable userUuid : string.
Variable transactionUuid : string.
Variable healthUuid : string.

(** Ensure user exists in database (create if not exists) *)
Definition ensureUser (s : MemStorage) (userId : string) : MemStorage :=
  match getUser s userId with
  | Some existingUser => s
  | None =>
      (* Create demo user if it doesn't exist *)
      fst (createUser userUuid now s
             {| InsertUser.username := userId;
                InsertUser.password := "";
                InsertUser.email := userId ++ "@demo.local";
                InsertUser.monthlyIncome := None |}
             (Some userId))
  end.

(** Recalculate financial health *)
Definition recalculateHealth (s : MemStorage) (userId : string) : MemStorage :=
  match getUser s userId with
  | Some finalUser =>
      let allTransactions := getTransactionsByUser s userId in
      let healthMetrics :=
        FinancialHealth.calculateFinancialHealth threeMonthsAgo allTransactions
          (Some (parseFloat
                   (match User.monthlyIncome finalUser with
                    | Some (String _ _ as m) => m
                    | _ => "0"
                    end))) in
      fst (createOrUpdateFinancialHealth healthUuid now s
             (withUserId userId healthMetrics))
  | None => s
  end.

(** [POST /api/transactions] on the parsed body [data]: the store after
    the request and the [transaction] and [fraudCheck] of the response. *)
Definition postTransaction (s : MemStorage) (data : InsertTransaction.t)
  : MemStorage * (Schema.Transaction * FraudDetection.FraudCheckResult) :=
  let s := ensureUser s (InsertTransaction.userId data) in
  (* Auto-categorize if no category provided *)
  let category :=
    if (String.eqb (InsertTransaction.category data) ""
        || String.eqb (InsertTransaction.category data) "Other")%bool
    then FraudDetection.categorizeTransaction (InsertTransaction.merchant data)
           (InsertTransaction.amount data)
    else InsertTransaction.category data in
  (* Ensure date is a Date object and handle optional fields *)
  let transactionData :=
    {| InsertTransaction.userId := InsertTransaction.userId data;
       InsertTransaction.date := InsertTransaction.date data;
       InsertTransaction.amount := InsertTransaction.amount data;
       InsertTransaction.merchant := InsertTransaction.merchant data;
       InsertTransaction.category := category;
       InsertTransaction.type := InsertTransaction.type data;
       InsertTransaction.description := InsertTransaction.description data;
       InsertTransaction.location := InsertTransaction.location data;
       InsertTransaction.accountId := InsertTransaction.accountId data;
       InsertTransaction.isFraudulent :=
         Some (match InsertTransaction.isFraudulent data with
               | Some b => b
               | None => false
               end);
       InsertTransaction.fraudReason := InsertTransaction.fraudReason data |} in
  (* Check for fraud *)
  let recentTransactions := getTransactionsByUser s (InsertTransaction.userId data) in
  let fraudCheck :=
    FraudDetection.detectFraud now (asCandidate transactionData) recentTransactions in
  let transactionData :=
    if FraudDetection.isFraudulent fraudCheck
    then
      {| InsertTransaction.userId := InsertTransaction.userId transactionData;
         InsertTransaction.date := InsertTransaction.date transactionData;
         InsertTransaction.amount := InsertTransaction.amount transactionData;
         InsertTransaction.merchant := InsertTransaction.merchant transactionData;
         InsertTransaction.category := InsertTransaction.category transactionData;
         InsertTransaction.type := InsertTransaction.type transactionData;
         InsertTransaction.description :=
           InsertTransaction.description transactionData;
         InsertTransaction.location := InsertTransaction.location transactionData;
         InsertTransaction.accountId := InsertTransaction.accountId transactionData;
         InsertTransaction.isFraudulent := Some true;
         InsertTransaction.fraudReason := orNull (FraudDetection.reason fraudCheck) |}
    else transactionData in
  let '(s, transaction) := createTransaction transactionUuid now s transactionData in
  (* Recalculate financial health after new transaction *)
  let s := recalculateHealth s (InsertTransaction.userId data) in
  (s, (transaction, fraudCheck)).

(** The type detection of the CSV upload, on a parsed row. *)
Fixpoint scanColumns (record : list (string * string)) (columnNames : list string)
  : option string :=
  match columnNames with
  | [] => None
  | col :: rest =>
      let colLower := Str.toLowerCase col in
      let value :=
        parseFloat (if CsvAnalyzer.truthy (CsvAnalyzer.get record col)
                    then DatasetInitialization.template (CsvAnalyzer.get record col)
                    else "0") in
      if ((Str.includes colLower "credit" || Str.includes colLower "received"
           || Str.includes colLower "deposit") && (value >? #0))%bool
      then Some "income"
      else if ((Str.includes colLower "debit" || Str.includes colLower "withdrawal"
                || Str.includes colLower "paid" || Str.includes colLower "expense")
               && (value >? #0))%bool
      then Some "expense"
      else scanColumns record rest
  end.

Definition incomeKeywords : list string :=
  ["salary"; "income"; "bonus"; "payment received"; "deposit"; "refund";
   "transfer in"; "received"; "credit"].

Definition expenseKeywords : list string :=
  ["payment"; "purchase"; "withdrawal"; "transfer out"; "expense"; "debit";
   "charge"; "fee"; "paid"].

Definition detectTransactionType (record : list (string * string)) : string :=
  let type := CsvAnalyzer.get record "type" in
  (* If explicit type provided, use it *)
  if (CsvAnalyzer.truthy type
      && (String.eqb (DatasetInitialization.template type) "income"
          || String.eqb (DatasetInitialization.template type) "expense"))%bool
  then DatasetInitialization.template type
  else
    (* Check columns for credit/debit keywords first *)
    match scanColumns record (CsvAnalyzer.keys record) with
    | Some type => type
    | None =>
        (* Analyze merchant/description for income keywords *)
        let merchant :=
          Str.toLowerCase
            (DatasetInitialization.template
               (DatasetInitialization.orElse
                  (DatasetInitialization.orElse (CsvAnalyzer.get record "merchant")
                                                (CsvAnalyzer.get record "description"))
                  (Some ""))) in
        let matchesIncome := existsb (fun kw => Str.includes merchant kw) incomeKeywords in
        let matchesExpense := existsb (fun kw => Str.includes merchant kw) expenseKeywords in
        if (matchesIncome && negb matchesExpense)%bool then "income"
        else if (matchesExpense && negb matchesIncome)%bool then "expense"
        else
          (* Check amount for negative sign (indicates expense) *)
          if (CsvAnalyzer.truthy (CsvAnalyzer.get record "amount")
              && Str.includes
                   (DatasetInitialization.template (CsvAnalyzer.get record "amount"))
                   "-")%bool
          then "expense"
          else
            (* Default to expense if uncertain *)
            "expense"
    end.

End Environment.

End Routes.

(** ** Vocabulary of the properties *)

Module NumSpec.
Import Num.

(** The order on finite values of one sign is the lexicographic one of
    exponent and mantissa. *)
Definition cmp_mag (e1 : Z) (m1 : positive) (e2 : Z) (m2 : positive) : comparison :=
  match (e1 ?= e2)%Z with
  | Lt => Lt
  | Gt => Gt
  | Eq => (m1 ?= m2)%positive
  end.

(** The rounding steps keep a mantissa non-negative. *)
Definition nonneg_rec (mrs : shr_record) : Prop := 0 <= shr_m mrs.

(** A number that is not NaN, has sign [s], and whose exponent, when it is
    finite and not zero, is at least [lo]. *)
Definition signed (s : bool) (lo : Z) (x : number) : Prop :=
  match x with
  | S754_zero s' => s' = s
  | S754_infinity s' => s' = s
  | S754_finite s' _ e => s' = s /\ lo <= e
  | S754_nan => False
  end.

(** Equality of representations. *)
Definition sameb (x y : number) : bool :=
  match x, y with
  | S754_zero s, S754_zero s' => Bool.eqb s s'
  | S754_infinity s, S754_infinity s' => Bool.eqb s s'
  | S754_nan, S754_nan => true
  | S754_finite s m e, S754_finite s' m' e' =>
      (Bool.eqb s s' && Pos.eqb m m' && Z.eqb e e')%bool
  | _, _ => false
  end.

End NumSpec.

Module DatasetSpec.
Import DatasetInitialization.

Definition keys (obj : list (string * Counters)) : list string := map fst obj.

Definition noCounters : Counters := {| count := 0; fraudCount := 0 |}.

(** [obj[key]], with the zero counters for an absent key. *)
Definition countersOf (key : string) (obj : list (string * Counters)) : Counters :=
  match find (fun e => String.eqb (fst e) key) obj with
  | Some e => snd e
  | None => noCounters
  end.

(** The events of the loop: one per row and pattern key of the row. *)
Definition events (parseFloat getHours : string -> Num.number)
    (records : list CsvRecord) : list (bool * string) :=
  flat_map
    (fun r =>
       map (fun p => (isFraudRow r, p))
           (extractPatterns parseFloat getHours r (isFraudRow r)))
    records.

Definition bumpAll (evs : list (bool * string)) (obj : list (string * Counters))
  : list (string * Counters) :=
  fold_left (fun obj ev => bump (fst ev) (snd ev) obj) evs obj.

(** Occurrences of a key among the events, all or the fraudulent ones. *)
Definition occurrences (onlyFraud : bool) (key : string)
    (evs : list (bool * string)) : nat :=
  List.length
    (filter (fun ev => (String.eqb key (snd ev) && (negb onlyFraud || fst ev))%bool)
            evs).

(** The integers 0 to 100 as numbers. *)
Definition scoreTable : list Num.number := map natNum (seq 0 101).

Definition inTable (x : Num.number) : bool := existsb (NumSpec.sameb x) scoreTable.

(** The patterns before truncation: the entries with a fraud count,
    scored and sorted. *)
Definition ranked (parseFloat getHours : string -> Num.number)
    (records : list CsvRecord) : list PretrainedFraudPattern :=
  Arr.sort (fun a b => fraudRiskScore b - fraudRiskScore a)
    (map toPattern
       (filter (fun entry => Nat.ltb 0 (fraudCount (snd entry)))
          (patternFrequency
             (tally parseFloat getHours (Arr.slice0 50000 records))))).

(** Ten rows with the same device, the first one fraudulent. *)
Definition tenRows : list CsvRecord :=
  deviceRow "mobile" "1" :: repeat (deviceRow "mobile" "0") 9.

End DatasetSpec.

Module IntSpec.
Import Num.

(** A number that is not zero and has sign [s]. *)
Definition nonzero (s : bool) (x : number) : Prop :=
  match x with
  | S754_finite s' _ _ => s' = s
  | S754_infinity s' => s' = s
  | _ => False
  end.

End IntSpec.

Module TimeSpec.
Import Num.

(** The integer a number stands for, when it is one. *)
Definition toZ (x : number) : option Z :=
  match x with
  | S754_zero _ => Some 0
  | S754_finite s m e =>
      if (0 <=? e)%Z then Some (cond_Zopp s (Z.pos m * 2 ^ e)%Z)
      else if (Z.pos m mod 2 ^ (- e) =? 0)%Z
           then Some (cond_Zopp s (Z.pos m / 2 ^ (- e))%Z)
           else None
  | _ => None
  end.

(** The time value of a valid date: an integer number of milliseconds of
    magnitude at most 8.64e15, in its normal representation. *)
Definition isTimeValue (x : number) : bool :=
  match toZ x with
  | Some z => ((Z.abs z <=? 8640000000000000)%Z && NumSpec.sameb x (of_Z z))%bool
  | None => false
  end.

End TimeSpec.

Module StorageSpec.
Import Storage.

(** Every entry is stored under its own id. *)
Definition keyed {V : Type} (idOf : V -> string) (m : list (string * V)) : Prop :=
  Forall (fun e => idOf (snd e) = fst e) m.

(** The health records are stored under their ids, each key once, one
    record per user at most. *)
Definition healthWf (s : MemStorage) : Prop :=
  keyed Health.id (financialHealth s) /\
  NoDup (map fst (financialHealth s)) /\
  NoDup (map Health.userId (JsMap.values (financialHealth s))).

(** The metrics of a stored record. *)
Definition metricsOf (h : Health.t) : HealthInput.t :=
  {| HealthInput.userId := Health.userId h;
     HealthInput.score := Health.score h;
     HealthInput.incomeStability := Health.incomeStability h;
     HealthInput.expenseRatio := Health.expenseRatio h;
     HealthInput.savingsRate := Health.savingsRate h;
     HealthInput.debtRatio := Health.debtRatio h;
     HealthInput.liquidity := Health.liquidity h |}.

Definition noUpdates : TransactionUpdates.t :=
  {| TransactionUpdates.id := None;
     TransactionUpdates.userId := None;
     TransactionUpdates.date := None;
     TransactionUpdates.amount := None;
     TransactionUpdates.merchant := None;
     TransactionUpdates.category := None;
     TransactionUpdates.type := None;
     TransactionUpdates.description := None;
     TransactionUpdates.location := None;
     TransactionUpdates.accountId := None;
     TransactionUpdates.isFraudulent := None;
     TransactionUpdates.fraudReason := None;
     TransactionUpdates.createdAt := None |}.

(** [a] is not older than [b]. *)
Definition notOlder (a b : Schema.Transaction) : Prop :=
  (Schema.date b <=? Schema.date a) = true.

Definition isSome {A : Type} (o : option A) : bool :=
  match o with Some _ => true | None => false end.

(** An insert and a store for the examples. *)
Definition purchase (user : string) (a d : Num.number) : InsertTransaction.t :=
  {| InsertTransaction.userId := user;
     InsertTransaction.date := d;
     InsertTransaction.amount := a;
     InsertTransaction.merchant := "Acme";
     InsertTransaction.category := "Other";
     InsertTransaction.type := "expense";
     InsertTransaction.description := Some "";
     InsertTransaction.location := None;
     InsertTransaction.accountId := None;
     InsertTransaction.isFraudulent := None;
     InsertTransaction.fraudReason := None |}.

Definition twoPurchases : MemStorage :=
  fst (createTransaction "id-2" #1700000000000
         (fst (createTransaction "id-1" #1700000000000 empty
                 (purchase "u1" #10 #1600000000000)))
         (purchase "u1" #20 #1650000000000)).

(** The two purchases beside a transaction of another user whose date
    is not a valid one. *)
Definition threePurchases : MemStorage :=
  fst (createTransaction "id-3" #1700000000000 twoPurchases
         (purchase "u2" #30 Num.NaN)).

Definition salary (user : string) (a d : Num.number) : InsertTransaction.t :=
  {| InsertTransaction.userId := user;
     InsertTransaction.date := d;
     InsertTransaction.amount := a;
     InsertTransaction.merchant := "Employer";
     InsertTransaction.category := "Salary";
     InsertTransaction.type := "income";
     InsertTransaction.description := None;
     InsertTransaction.location := None;
     InsertTransaction.accountId := None;
     InsertTransaction.isFraudulent := None;
     InsertTransaction.fraudReason := None |}.

(** Metrics with the given overall score. *)
Definition metrics (user : string) (overall : Num.number) : HealthInput.t :=
  {| HealthInput.userId := user;
     HealthInput.score := overall;
     HealthInput.incomeStability := #20;
     HealthInput.expenseRatio := #60;
     HealthInput.savingsRate := #40;
     HealthInput.debtRatio := #100;
     HealthInput.liquidity := #30 |}.

(** A store with the health records of two users. *)
Definition twoRecords : MemStorage :=
  fst (createOrUpdateFinancialHealth "h-b" #1700000000000
         (fst (createOrUpdateFinancialHealth "h-a" #1700000000000 empty
                 (metrics "u1" #50)))
         (metrics "u2" #61)).

(** The two records, the user "u1" with a monthly income of 3000, a
    salary and a purchase of that user in the window, and a purchase of
    the user "u2". *)
Definition household : MemStorage :=
  let s1 :=
    fst (createUser "u-0" #1695000000000 twoRecords
           {| InsertUser.username := "ann";
              InsertUser.password := "secret";
              InsertUser.email := "ann@example.org";
              InsertUser.monthlyIncome := Some "3000" |}
           (Some "u1")) in
  let s2 :=
    fst (createTransaction "t-1" #1696000000000 s1
           (salary "u1" #3000 #1696000000000)) in
  let s3 :=
    fst (createTransaction "t-2" #1697000000000 s2
           (purchase "u1" #1200 #1697000000000)) in
  fst (createTransaction "t-9" #1698000000000 s3
         (purchase "u2" #75 #1698000000000)).

End StorageSpec.

Module RouteSpec.
Import Storage.

(** The category the route stores: the one of the request unless it is
    empty or "Other". *)
Definition categoryOf (data : InsertTransaction.t) : string :=
  if (String.eqb (InsertTransaction.category data) ""
      || String.eqb (InsertTransaction.category data) "Other")%bool
  then FraudDetection.categorizeTransaction (InsertTransaction.merchant data)
         (InsertTransaction.amount data)
  else InsertTransaction.category data.

(** The flag of the request, [false] when it has none. *)
Definition flagOf (data : InsertTransaction.t) : bool :=
  match InsertTransaction.isFraudulent data with
  | Some b => b
  | None => false
  end.

(** The monthly income the route reads from a user. *)
Definition incomeOf (parseFloat : string -> Num.number) (user : User.t) : Num.number :=
  parseFloat (match User.monthlyIncome user with
              | Some (String _ _ as m) => m
              | _ => "0"
              end).

End RouteSpec.

Module VisionSpec.
Import VisionAnalysis.

(** One of the six keywords occurs in the text of the receipt. *)
Definition keywordHit (receiptData : ReceiptData) : bool :=
  match extractedText receiptData with
  | Some (String _ _ as text) =>
      existsb (Str.includes (Str.toLowerCase text))
        ["duplicate"; "retry"; "unauthorized"; "failed"; "test"; "demo"]
  | _ => false
  end.

(** The model reported an indicator. *)
Definition reported (receiptData : ReceiptData) : bool :=
  match fraudIndicators receiptData with
  | Some (_ :: _) => true
  | _ => false
  end.

(** A receipt as the model could return it. *)
Definition receipt (a : Num.number) (text : string) (detected : list string)
  : ReceiptData :=
  {| merchant := "Acme"; amount := a; date := "2024-11-24"; category := "Payment";
     confidence := #85; extractedText := Some text;
     fraudIndicators := Some detected; rawAmountText := None;
     transactionType := Some "expense" |}.

End VisionSpec.

Module ProcessorSpec.
Import DatasetInitialization DatasetProcessor.

(** The categories the estimate chooses from. *)
Definition categoryNames : list string :=
  [ "Fuel"; "Groceries"; "Food & Dining"; "Travel"; "Shopping"; "Healthcare";
    "Entertainment"; "Withdrawal"; "Cash"; "Other" ].

Definition sumValues (obj : list (string * nat)) : nat :=
  fold_right (fun e n => (snd e + n)%nat) 0%nat obj.

(** Number of the given rows, fraudulent ones if [onlyFraud], of the
    merchant. *)
Definition rowsOf (name : string) (onlyFraud : bool) (rows : list CsvRecord) : nat :=
  List.length
    (filter (fun r =>
               (String.eqb name (merchantOf r)
                && (negb onlyFraud || isFraudRow r))%bool)
            rows).

(** The events of the merchant counters: one per row. *)
Definition merchantEvents (rows : list CsvRecord) : list (bool * string) :=
  map (fun r => (isFraudRow r, merchantOf r)) rows.

(** Descending order of fraud count. *)
Definition byFraudCount (a b : Merchant.t) : Prop :=
  (Merchant.fraudCount b <= Merchant.fraudCount a)%nat.

(** A row with a merchant, a product code and a fraud label. *)
Definition merchantRow (merchant productCD label : string) : CsvRecord :=
  {| isFraud := Some label; Merchant := Some merchant; MerchantID := None;
     PaymentType := None; ProductCD := Some productCD; DeviceType := None;
     TransactionAmt := Some "12.50"; Amount := None; TransactionTime := None;
     Country := None; Browser := None |}.

Definition threeRows : list CsvRecord :=
  [ merchantRow "City Gas" "W" "0"; merchantRow "Corner Cafe" "C" "1";
    merchantRow "City Gas" "W" "1" ].

End ProcessorSpec.

Module ProcessorRank.
Import DatasetInitialization DatasetProcessor.

(** The merchants with a fraudulent row, before the list is cut. *)
Definition rankedMerchants (parseFloat getHours : string -> Num.number)
    (records : list CsvRecord) : list Merchant.t :=
  Arr.sort (fun a b =>
              natNum (Merchant.fraudCount b) - natNum (Merchant.fraudCount a))
    (map (fun '(name, data) =>
            {| Merchant.name := name;
               Merchant.count := count data;
               Merchant.fraudCount := DatasetInitialization.fraudCount data |})
         (filter (fun entry =>
                    Nat.ltb 0 (DatasetInitialization.fraudCount (snd entry)))
                 (merchantData
                    (tally parseFloat getHours (Arr.slice0 50000 records))))).

End ProcessorRank.

Module CsvSpec.
Import CsvAnalyzer.

(** A column name that the fallback of the amount extraction accepts. *)
Definition amountLike (key : string) : bool :=
  let keyLower := Str.toLowerCase key in
  (Str.includes keyLower "amount" || Str.includes keyLower "total"
   || String.eqb keyLower "value")%bool.

(** The text the upload route searches for keywords. *)
Definition merchantText (record : list (string * string)) : string :=
  Str.toLowerCase
    (DatasetInitialization.template
       (DatasetInitialization.orElse
          (DatasetInitialization.orElse (get record "merchant")
                                        (get record "description"))
          (Some ""))).

(** A bank statement row. *)
Definition statementRow : list (string * string) :=
  [ ("Date", "2024-11-24"); ("Narration", "NEFT"); ("Credit", "");
    ("Debit", "250.00"); ("Balance", "1000.00") ].

Definition paymentReceived : list (string * string) :=
  [ ("date", "2024-11-24"); ("description", "Payment received from client");
    ("amount", "500") ].

(** A decimal reader for the examples: the integer part of an unsigned
    decimal, NaN for anything else. *)
Definition readInt (s : string) : Num.number :=
  match NilZero.uint_of_string
          (match index 0 "." s with Some n => substring 0 n s | None => s end) with
  | Some (Decimal.Nil) | None => Num.NaN
  | Some d => Num.of_Z (Z.of_N (N.of_uint d))
  end.

End CsvSpec.

Module MinerSpec.
Import DatasetInitialization.

(** A row with a fraud label and nothing else. *)
Definition bareRow (label : string) : CsvRecord :=
  {| isFraud := Some label; Merchant := None; MerchantID := None;
     PaymentType := None; ProductCD := None; DeviceType := None;
     TransactionAmt := None; Amount := None; TransactionTime := None;
     Country := None; Browser := None |}.

(** Thirty rows without merchant, the first one fraudulent. *)
Definition unnamedRows : list CsvRecord :=
  bareRow "1" :: repeat (bareRow "0") 29.

(** The row names no merchant. *)
Definition unnamed (r : CsvRecord) : bool :=
  (negb (truthy (Merchant r)) && negb (truthy (MerchantID r)))%bool.

End MinerSpec.

Module LlmSpec.
Import LlmFraudAnalysis.

(** The entry the analysis makes of a transaction. *)
Definition entryOf (t : Schema.Transaction) : Entry :=
  {| amount := Math.abs (Schema.amount t);
     merchant := Schema.merchant t;
     category := Some (Schema.category t) |}.

Definition debitsOf (transactions : list Schema.Transaction) : list Entry :=
  map entryOf (filter (fun t => String.eqb (Schema.type t) "expense") transactions).

Definition creditsOf (transactions : list Schema.Transaction) : list Entry :=
  map entryOf (filter (fun t => String.eqb (Schema.type t) "income") transactions).

(** The entry reported when there is none. *)
Definition notAvailable : Entry :=
  {| amount := #0; merchant := "N/A"; category := None |}.

(** [e] is one of [entries] and none of them has a larger amount. *)
Definition largestOf (entries : list Entry) (e : Entry) : Prop :=
  In e entries /\ Forall (fun d => (amount d >? amount e) = false) entries.

End LlmSpec.

Module HealthSpec.
Import Storage.

(** The record of the id of [e] replaced by [h]. *)
Definition replaceById (e h x : Health.t) : Health.t :=
  if String.eqb (Health.id x) (Health.id e) then h else x.

(** The record the upsert stores under [id]. *)
Definition recordOf (id : string) (now : Num.number) (health : HealthInput.t)
  : Health.t :=
  {| Health.id := id;
     Health.userId := HealthInput.userId health;
     Health.score := HealthInput.score health;
     Health.incomeStability := HealthInput.incomeStability health;
     Health.expenseRatio := HealthInput.expenseRatio health;
     Health.savingsRate := HealthInput.savingsRate health;
     Health.debtRatio := HealthInput.debtRatio health;
     Health.liquidity := HealthInput.liquidity health;
     Health.calculatedAt := now |}.

Definition byUser (u : string) (fh : Health.t) : bool :=
  String.eqb (Health.userId fh) u.

End HealthSpec.

(** * Properties *)

(** ** Comparisons of numbers *)

Local Close Scope num_scope.

Module NumFacts.
Import Num NumSpec.

Lemma compare_antisym (x y : number) (c : comparison) :
  SFcompare x y = Some c -> SFcompare y x = Some (CompOpp c).
Proof.
  destruct x as [sx|sx| |sx mx ex], y as [sy|sy| |sy my ey]; simpl;
    try discriminate;
    try (destruct sx; intros [= <-]; reflexivity);
    try (destruct sy; intros [= <-]; reflexivity);
    try (destruct sx, sy; intros [= <-]; reflexivity).
  intros [= <-]. f_equal.
  change (PosDef.Pos.compare_cont Eq my mx) with (Pos.compare my mx).
  change (PosDef.Pos.compare_cont Eq mx my) with (Pos.compare mx my).
  rewrite (Z.compare_antisym ex ey), (Pos.compare_antisym mx my).
  destruct sx, sy; simpl; try reflexivity;
    destruct (ex ?= ey)%Z; simpl; try reflexivity;
    destruct (mx ?= my)%positive; reflexivity.
Qed.

Lemma leb_not_ltb (x y : number) : leb x y = true -> ltb y x = false.
Proof.
  unfold leb, ltb, SFleb, SFltb.
  destruct (SFcompare x y) as [c|] eqn:E; [|discriminate].
  rewrite (compare_antisym _ _ _ E). destruct c; simpl; congruence.
Qed.

Lemma ltb_not_leb (x y : number) : ltb x y = true -> leb y x = false.
Proof.
  unfold leb, ltb, SFleb, SFltb.
  destruct (SFcompare x y) as [c|] eqn:E; [|discriminate].
  rewrite (compare_antisym _ _ _ E). destruct c; simpl; congruence.
Qed.

Lemma ltb_leb (x y : number) : ltb x y = true -> leb x y = true.
Proof.
  unfold leb, ltb, SFleb, SFltb.
  destruct (SFcompare x y) as [[]|]; congruence.
Qed.

Lemma cmp_mag_antisym e1 m1 e2 m2 :
  cmp_mag e2 m2 e1 m1 = CompOpp (cmp_mag e1 m1 e2 m2).
Proof.
  unfold cmp_mag. rewrite (Z.compare_antisym e1 e2), (Pos.compare_antisym m1 m2).
  destruct (e1 ?= e2)%Z; reflexivity.
Qed.

Lemma cmp_mag_le e1 m1 e2 m2 :
  cmp_mag e1 m1 e2 m2 <> Gt <-> (e1 < e2 \/ (e1 = e2 /\ Z.pos m1 <= Z.pos m2))%Z.
Proof.
  unfold cmp_mag.
  destruct (Z.compare_spec e1 e2) as [E|E|E];
    [destruct (Pos.compare_spec m1 m2) as [G|G|G]|..];
    split; intros H; try congruence; try lia.
Qed.

Lemma cmp_mag_lt e1 m1 e2 m2 :
  cmp_mag e1 m1 e2 m2 = Lt <-> (e1 < e2 \/ (e1 = e2 /\ Z.pos m1 < Z.pos m2))%Z.
Proof.
  unfold cmp_mag.
  destruct (Z.compare_spec e1 e2) as [E|E|E];
    [destruct (Pos.compare_spec m1 m2) as [G|G|G]|..];
    split; intros H; try congruence; try lia.
Qed.

Lemma cmp_mag_trans e1 m1 e2 m2 e3 m3 :
  cmp_mag e1 m1 e2 m2 <> Gt -> cmp_mag e2 m2 e3 m3 <> Gt ->
  cmp_mag e1 m1 e3 m3 <> Gt /\
  (cmp_mag e1 m1 e2 m2 = Lt \/ cmp_mag e2 m2 e3 m3 = Lt ->
   cmp_mag e1 m1 e3 m3 = Lt).
Proof.
  rewrite !cmp_mag_le, !cmp_mag_lt. lia.
Qed.

Lemma compare_finite s1 m1 e1 s2 m2 e2 :
  SFcompare (S754_finite s1 m1 e1) (S754_finite s2 m2 e2) =
  Some (match s1, s2 with
        | true, false => Lt
        | false, true => Gt
        | false, false => cmp_mag e1 m1 e2 m2
        | true, true => cmp_mag e2 m2 e1 m1
        end).
Proof.
  destruct s1, s2; try reflexivity.
  rewrite cmp_mag_antisym. unfold cmp_mag. simpl.
  destruct (e1 ?= e2)%Z; reflexivity.
Qed.

Lemma compare_trans_le (x y z : number) (c1 c2 : comparison) :
  SFcompare x y = Some c1 -> c1 <> Gt ->
  SFcompare y z = Some c2 -> c2 <> Gt ->
  exists c3, SFcompare x z = Some c3 /\ c3 <> Gt /\
             (c1 = Lt \/ c2 = Lt -> c3 = Lt).
Proof.
  destruct x as [sx|sx| |sx mx ex], y as [sy|sy| |sy my ey],
           z as [sz|sz| |sz mz ez];
    try discriminate; rewrite ?compare_finite; simpl;
    intros [= <-] H1 [= <-] H2; eexists; (split; [reflexivity|]);
    try (destruct sx; try congruence);
    try (destruct sy; try congruence);
    try (destruct sz; try congruence);
    try (split; [congruence|intros [|]; congruence]).
  - destruct (cmp_mag_trans _ _ _ _ _ _ H2 H1) as [A B].
    split; [assumption|intros [|]; apply B; auto].
  - apply cmp_mag_trans; assumption.
Qed.

Lemma leb_trans (x y z : number) :
  leb x y = true -> leb y z = true -> leb x z = true.
Proof.
  unfold leb, SFleb.
  destruct (SFcompare x y) as [c1|] eqn:E1; [|discriminate].
  destruct (SFcompare y z) as [c2|] eqn:E2; [|discriminate].
  intros H1 H2.
  destruct (compare_trans_le x y z c1 c2 E1) as (c3 & -> & H3 & _); auto.
  - destruct c1; congruence.
  - destruct c2; congruence.
  - destruct c3; congruence.
Qed.

Lemma ltb_leb_trans (x y z : number) :
  ltb x y = true -> leb y z = true -> ltb x z = true.
Proof.
  unfold leb, ltb, SFleb, SFltb.
  destruct (SFcompare x y) as [c1|] eqn:E1; [|discriminate].
  destruct (SFcompare y z) as [c2|] eqn:E2; [|discriminate].
  intros H1 H2.
  destruct (compare_trans_le x y z c1 c2 E1) as (c3 & -> & H3 & H4); auto.
  - destruct c1; congruence.
  - destruct c2; congruence.
  - rewrite H4; auto. left. destruct c1; congruence.
Qed.

Lemma leb_ltb_trans (x y z : number) :
  leb x y = true -> ltb y z = true -> ltb x z = true.
Proof.
  unfold leb, ltb, SFleb, SFltb.
  destruct (SFcompare x y) as [c1|] eqn:E1; [|discriminate].
  destruct (SFcompare y z) as [c2|] eqn:E2; [|discriminate].
  intros H1 H2.
  destruct (compare_trans_le x y z c1 c2 E1) as (c3 & -> & H3 & H4); auto.
  - destruct c1; congruence.
  - destruct c2; congruence.
  - rewrite H4; auto. right. destruct c2; congruence.
Qed.

(** *** Rounding never yields NaN

    [binary_round_aux] ends with a case on the sign of the rounded
    mantissa, whose negative branch is NaN.  A mantissa that starts
    non-negative stays so through the shifts and the rounding, and shifts
    only raise the exponent. *)

Lemma shr_1_nonneg mrs : nonneg_rec mrs -> nonneg_rec (shr_1 mrs).
Proof.
  unfold nonneg_rec. destruct mrs as [m r s]. simpl.
  destruct m as [|[p|p|]|[p|p|]]; simpl; lia.
Qed.

Lemma iter_shr_1_nonneg n mrs :
  nonneg_rec mrs -> nonneg_rec (iter_pos shr_1 n mrs).
Proof.
  revert mrs. induction n as [n IH|n IH|]; simpl; intros mrs H.
  - apply IH, IH, shr_1_nonneg, H.
  - apply IH, IH, H.
  - apply shr_1_nonneg, H.
Qed.

Lemma shr_nonneg mrs e n :
  nonneg_rec mrs -> nonneg_rec (fst (shr mrs e n)) /\ e <= snd (shr mrs e n).
Proof.
  intros H. destruct n as [|p|p]; simpl; try (split; [exact H|lia]).
  split; [apply iter_shr_1_nonneg, H|lia].
Qed.

Lemma shr_fexp_nonneg m e l :
  0 <= m ->
  nonneg_rec (fst (shr_fexp prec emax m e l)) /\
  e <= snd (shr_fexp prec emax m e l).
Proof.
  intros H. unfold shr_fexp. apply shr_nonneg.
  unfold nonneg_rec. destruct l as [|[]]; simpl; exact H.
Qed.

Lemma round_nearest_even_nonneg m l : 0 <= m -> 0 <= round_nearest_even m l.
Proof.
  intros H. destruct l as [|[]]; simpl; try lia.
  destruct (Z.even m); lia.
Qed.

Lemma signed_weaken s lo lo' x : lo' <= lo -> signed s lo x -> signed s lo' x.
Proof.
  intros H. destruct x; simpl; auto. intros [A B]. split; [exact A|lia].
Qed.

Lemma binary_round_aux_signed sx mx ex lx :
  0 <= mx -> signed sx ex (binary_round_aux prec emax sx mx ex lx).
Proof.
  intros H. unfold binary_round_aux.
  destruct (shr_fexp_nonneg mx ex lx H) as [H1 E1].
  destruct (shr_fexp prec emax mx ex lx) as [mrs' e']. simpl in H1, E1.
  pose proof (round_nearest_even_nonneg (shr_m mrs') (loc_of_shr_record mrs') H1)
    as H2.
  destruct (shr_fexp_nonneg _ e' loc_Exact H2) as [H3 E3].
  destruct (shr_fexp prec emax _ e' loc_Exact) as [mrs'' e'']. simpl in H3, E3.
  unfold nonneg_rec in H3.
  destruct (shr_m mrs'') as [|m|m]; simpl; [reflexivity| |lia].
  match goal with
  | |- context [if ?c then _ else _] => destruct c
  end; simpl; [split; [reflexivity|lia]|reflexivity].
Qed.

Lemma binary_round_signed sx mx ex :
  signed sx (Z.min ex (fexp prec emax (Z.pos (digits2_pos mx) + ex)))
         (binary_round prec emax sx mx ex).
Proof.
  unfold binary_round, shl_align.
  set (ex' := fexp prec emax (Z.pos (digits2_pos mx) + ex)).
  destruct (ex' - ex) as [|d|d] eqn:E;
    (eapply signed_weaken; [|apply binary_round_aux_signed; lia]); lia.
Qed.

Lemma mul_signed sx sy lx ly x y :
  signed sx lx x -> signed sy ly y ->
  (forall s, x = S754_zero s -> forall s', y <> S754_infinity s') ->
  (forall s, x = S754_infinity s -> forall s', y <> S754_zero s') ->
  signed (xorb sx sy) (lx + ly) (mul x y).
Proof.
  destruct x as [s|s| |s m e], y as [s'|s'| |s' m' e']; simpl;
    intros Hx Hy Z1 Z2; try contradiction;
    try (exfalso; eapply Z1; reflexivity);
    try (exfalso; eapply Z2; reflexivity);
    repeat match goal with
      | H : _ /\ _ |- _ => destruct H
      end; subst; try reflexivity.
  eapply signed_weaken; [|apply binary_round_aux_signed; lia]. lia.
Qed.

Lemma div_finite_signed sx mx ex sy my ey :
  exists lo,
    signed (xorb sx sy) lo (div (S754_finite sx mx ex) (S754_finite sy my ey)).
Proof.
  unfold div, SFdiv, SFdiv_core_binary.
  set (e' := Z.min _ _). set (m' := match ex - ey - e' with Z0 => _ | _ => _ end).
  assert (Hm : 0 <= m').
  { unfold m'. destruct (ex - ey - e'); try lia. apply Z.shiftl_nonneg. lia. }
  pose proof (Z.div_pos m' (Z.pos my) Hm ltac:(lia)) as Hq.
  unfold Z.div in Hq. destruct (Z.div_eucl m' (Z.pos my)) as [q r].
  simpl in Hq. exists e'. apply binary_round_aux_signed. exact Hq.
Qed.

(** *** Integers below 2^53 are represented exactly *)

Lemma digits2_iter_xO p k :
  digits2_pos (Pos.iter xO p k) = (digits2_pos p + k)%positive.
Proof.
  induction k as [|k IH] using Pos.peano_ind.
  - simpl. lia.
  - rewrite Pos.iter_succ. simpl. rewrite IH. lia.
Qed.

Lemma shr_fexp_canonical m e :
  digits2_pos m = 53%positive -> -1074 <= e ->
  shr_fexp prec emax (Z.pos m) e loc_Exact =
  ({| shr_m := Z.pos m; shr_r := false; shr_s := false |}, e).
Proof.
  intros Hd He. unfold shr_fexp, shr.
  change (Zdigits2 (Z.pos m)) with (Z.pos (digits2_pos m)). rewrite Hd.
  assert (E : fexp prec emax (53 + e) - e = 0)
    by (unfold fexp, emin, prec, emax; lia).
  rewrite E. reflexivity.
Qed.

Lemma binary_round_aux_canonical sx m e :
  digits2_pos m = 53%positive -> -1074 <= e <= 971 ->
  binary_round_aux prec emax sx (Z.pos m) e loc_Exact = S754_finite sx m e.
Proof.
  intros Hd [He1 He2]. unfold binary_round_aux.
  rewrite (shr_fexp_canonical m e Hd He1).
  cbv beta iota delta [shr_m loc_of_shr_record round_nearest_even].
  rewrite (shr_fexp_canonical m e Hd He1).
  cbv beta iota delta [shr_m].
  assert (E : (e <=? emax - prec) = true)
    by (apply Z.leb_le; unfold emax, prec; lia).
  rewrite E. reflexivity.
Qed.

Lemma of_Z_small (p : positive) :
  Z.pos (digits2_pos p) <= 53 ->
  exists m, of_Z (Z.pos p) = S754_finite false m (Z.pos (digits2_pos p) - 53).
Proof.
  intros Hd. unfold of_Z, binary_normalize, binary_round, shl_align.
  assert (F : fexp prec emax (Z.pos (digits2_pos p) + 0)
              = Z.pos (digits2_pos p) - 53)
    by (unfold fexp, emin, prec, emax; lia).
  rewrite F, Z.sub_0_r.
  destruct (Z.pos (digits2_pos p) - 53) as [|d|d] eqn:E.
  - exists p. apply (binary_round_aux_canonical false p 0); lia.
  - lia.
  - exists (Pos.iter xO p d).
    apply (binary_round_aux_canonical false (Pos.iter xO p d) (Z.neg d)); [|lia].
    rewrite digits2_iter_xO. lia.
Qed.

Lemma digits2_pos_bound (p : positive) : Z.pos p < 2 ^ Z.pos (digits2_pos p).
Proof.
  induction p as [p IH|p IH|]; simpl digits2_pos;
    rewrite ?Pos2Z.inj_succ, ?Z.pow_succ_r by lia; lia.
Qed.

Lemma digits2_pos_lower (p : positive) :
  2 ^ (Z.pos (digits2_pos p) - 1) <= Z.pos p.
Proof.
  induction p as [p IH|p IH|]; simpl digits2_pos; [| |simpl; lia];
    rewrite Pos2Z.inj_succ;
    replace (Z.succ (Z.pos (digits2_pos p)) - 1)
      with (Z.succ (Z.pos (digits2_pos p) - 1)) by lia;
    rewrite Z.pow_succ_r by lia; lia.
Qed.

(** A count below 2^53 is a finite positive number. *)
Lemma of_Z_count (n : Z) :
  0 < n < 2 ^ 53 ->
  exists m e, of_Z n = S754_finite false m e.
Proof.
  intros [H0 H1]. destruct n as [|p|p]; try discriminate H0.
  assert (Hd : Z.pos (digits2_pos p) <= 53).
  { destruct (Z.le_gt_cases (Z.pos (digits2_pos p)) 53) as [L|G]; [exact L|].
    exfalso. pose proof (digits2_pos_lower p) as Hl.
    assert (Hm : 2 ^ 53 <= 2 ^ (Z.pos (digits2_pos p) - 1))
      by (apply Z.pow_le_mono_r; lia).
    revert H1 Hl Hm. generalize (2 ^ 53) (2 ^ (Z.pos (digits2_pos p) - 1)).
    intros; lia. }
  destruct (of_Z_small p Hd) as [m Hm]. eauto.
Qed.

End NumFacts.

Local Open Scope num_scope.

(** ** The fraud rule engine *)

Module FraudFacts.
Import Schema FraudDetection.

(** The list the code accumulates is the rule table filtered by the
    conditions, in rule order. *)
Lemma risks_triggered now t h : risks now t h = triggered now t h.
Proof.
  unfold risks, triggered, rules.
  destruct (fires1 t), (fires2 t), (fires3 now h), (fires4 now h),
    (fires5 t h), (fires6 now t h); reflexivity.
Qed.

(** What [assess] returns on each of the 64 possible sets of triggered
    rules is decided by evaluation. *)
Ltac all_rule_cases :=
  unfold detectFraud; rewrite ?risks_triggered; unfold triggered, rules;
  repeat match goal with
    | |- context [fires1 ?t] => generalize (fires1 t); intros [|]
    | |- context [fires2 ?t] => generalize (fires2 t); intros [|]
    | |- context [fires3 ?n ?h] => generalize (fires3 n h); intros [|]
    | |- context [fires4 ?n ?h] => generalize (fires4 n h); intros [|]
    | |- context [fires5 ?t ?h] => generalize (fires5 t h); intros [|]
    | |- context [fires6 ?n ?t ?h] => generalize (fires6 n t h); intros [|]
    end.

Lemma no_history_rules now t :
  fires3 now [] = false /\ fires4 now [] = false /\ fires6 now t [] = false /\
  fires5 t [] = (amount t >? #10000).
Proof. repeat split; reflexivity. Qed.

(** C1: the risk score returned is the maximum of the scores of the
    triggered rules, 0 when no rule triggers; the verdict is fraudulent
    exactly when that score is at least 85; a transaction of amount
    100001 checked against an empty history gets score 85 and is
    fraudulent. *)
Theorem detectFraud_score_is_max_of_triggered now t h :
  let res := detectFraud now t h in
  let trig := triggered now t h in
  Forall (fun r => (Risk.score r <=? riskScore res) = true) trig /\
  (trig = [] /\ riskScore res = #0 \/ In (riskScore res) (map Risk.score trig)) /\
  (trig = [] -> riskScore res = #0) /\
  isFraudulent res = (riskScore res >=? #85) /\
  (amount t = #100001 ->
   riskScore (detectFraud now t []) = #85 /\
   isFraudulent (detectFraud now t []) = true).
Proof.
  cbv zeta. split; [|split; [|split; [|split]]].
  - all_rule_cases; cbn [map filter fst snd];
      repeat (constructor; [vm_compute; reflexivity|]); constructor.
  - all_rule_cases;
      first [ left; split; vm_compute; reflexivity
            | right; vm_compute; intuition reflexivity ].
  - all_rule_cases; cbn [map filter fst snd]; intros E;
      try discriminate E; vm_compute; reflexivity.
  - reflexivity.
  - intros Ha. unfold detectFraud, risks.
    destruct (no_history_rules now t) as (-> & -> & -> & ->).
    unfold fires1, fires2. rewrite Ha. split; vm_compute; reflexivity.
Qed.

Lemma detectFraud_score_is_max_of_triggered_witness :
  riskScore (detectFraud #1700000000000 (candidate #100001 "Acme" #1700000000000) [])
    = #85 /\
  isFraudulent (detectFraud #1700000000000 (candidate #100001 "Acme" #1700000000000) [])
    = true.
Proof.
  apply (detectFraud_score_is_max_of_triggered
           #1700000000000 (candidate #100001 "Acme" #1700000000000) []).
  vm_compute; reflexivity.
Defined.

(** C9: the risk score is one of 0, 40, 55, 70, 80, 85 and 90. *)
Theorem detectFraud_score_values now t h :
  In (riskScore (detectFraud now t h)) scoreValues.
Proof.
  all_rule_cases; vm_compute; intuition reflexivity.
Qed.

(** C10: a reason is returned exactly when the verdict is fraudulent, that
    is when the score is at least 85; with a lower maximum there is no
    reason, whatever rules triggered. *)
Theorem detectFraud_reason_iff_fraudulent now t h :
  let res := detectFraud now t h in
  isSome (reason res) = isFraudulent res /\
  isFraudulent res = (riskScore res >=? #85) /\
  (reason res <> None <-> isFraudulent res = true).
Proof.
  cbv zeta.
  assert (H : isSome (reason (detectFraud now t h))
              = isFraudulent (detectFraud now t h))
    by (all_rule_cases; vm_compute; reflexivity).
  split; [exact H|]. split; [reflexivity|].
  rewrite <- H. destruct (reason (detectFraud now t h)); simpl;
    split; congruence.
Qed.

(** C2, as the specification states it: the reason is that of the first
    rule with the maximum score whenever a rule triggers.  It fails for a
    transaction of amount 60000 against an empty history: rules 1 and 5
    trigger, the maximum is 55, rule 1 has it, and no reason is
    returned. *)
Lemma detectFraud_reason_missing_below_85 :
  let t := candidate #60000 "Acme" #1700000000000 in
  let res := detectFraud #1700000000000 t [] in
  triggered #1700000000000 t [] = [rule1; rule5] /\
  riskScore res = #55 /\
  firstWithScore (riskScore res) (triggered #1700000000000 t []) = Some rule1 /\
  reason res = None /\
  reason res <> Some (Risk.reason rule1).
Proof.
  cbv zeta. repeat split; try (vm_compute; reflexivity). discriminate.
Qed.

(** C2, amended: when the verdict is fraudulent the reason is that of the
    first triggered rule whose score is the maximum, and such a rule
    exists; otherwise no reason is returned. *)
Theorem detectFraud_reason_of_first_max now t h :
  let res := detectFraud now t h in
  let trig := triggered now t h in
  reason res =
    (if isFraudulent res
     then option_map Risk.reason (firstWithScore (riskScore res) trig)
     else None) /\
  (if isFraudulent res
   then isSome (firstWithScore (riskScore res) trig) = true
   else reason res = None).
Proof.
  cbv zeta. split.
  - unfold detectFraud. rewrite risks_triggered. reflexivity.
  - all_rule_cases; vm_compute; reflexivity.
Qed.

(** C8: an amount of at most 50000 with no velocity, rapid-transaction,
    first-time-merchant or duplicate condition gives score 0 and a
    non-fraudulent verdict. *)
Theorem detectFraud_small_amount_clean now t h :
  (amount t <=? #50000) = true ->
  fires3 now h = false ->
  fires4 now h = false ->
  fires5 t h = false ->
  fires6 now t h = false ->
  isFraudulent (detectFraud now t h) = false /\
  riskScore (detectFraud now t h) = #0.
Proof.
  intros Ha H3 H4 H5 H6.
  assert (H1 : fires1 t = false) by (apply NumFacts.leb_not_ltb; exact Ha).
  assert (H2 : fires2 t = false).
  { unfold fires2. apply NumFacts.leb_not_ltb.
    apply NumFacts.leb_trans with (y := #50000);
      [exact Ha|vm_compute; reflexivity]. }
  unfold detectFraud, risks. rewrite H1, H2, H3, H4, H5, H6.
  split; vm_compute; reflexivity.
Qed.

Lemma detectFraud_small_amount_clean_witness :
  let now := #1700000000000 in
  let t := candidate #50000 "Acme" now in
  let h := [candidate #10 "ACME" #1600000000000] in
  isFraudulent (detectFraud now t h) = false /\
  riskScore (detectFraud now t h) = #0.
Proof.
  cbv zeta.
  apply (detectFraud_small_amount_clean
           #1700000000000 (candidate #50000 "Acme" #1700000000000)
           [candidate #10 "ACME" #1600000000000]);
    vm_compute; reflexivity.
Defined.

(** *** The categorizer *)

Lemma lowerAscii_idem (c : ascii) :
  Str.lowerAscii (Str.lowerAscii c) = Str.lowerAscii c.
Proof. destruct c as [[] [] [] [] [] [] [] []]; reflexivity. Qed.

Lemma toLowerCase_idem (s : string) :
  Str.toLowerCase (Str.toLowerCase s) = Str.toLowerCase s.
Proof.
  induction s as [|c s IH]; simpl; [reflexivity|].
  rewrite lowerAscii_idem, IH. reflexivity.
Qed.

Ltac leftmost c :=
  lazymatch c with
  | (?a || _)%bool => leftmost a
  | _ => c
  end.

(** Decide the leftmost keyword test of the chain; when it holds the
    category is settled. *)
Ltac keyword_step :=
  lazymatch goal with
  | |- context [if ?c then _ else _] =>
      let a := leftmost c in
      destruct a; cbn [orb find existsb fst snd]
  end.

Lemma categorize_first_match merchant amount :
  categorizeTransaction merchant amount = firstMatchingGroup merchant.
Proof.
  unfold categorizeTransaction, firstMatchingGroup, keywordGroups.
  cbv zeta. cbn [find existsb fst snd].
  generalize (Str.toLowerCase merchant). intros l.
  repeat (keyword_step; try reflexivity).
Qed.

Lemma categorize_in_taxonomy merchant amount :
  In (categorizeTransaction merchant amount) categories.
Proof.
  unfold categorizeTransaction, categories. cbv zeta.
  generalize (Str.toLowerCase merchant). intros l.
  repeat (keyword_step; try (simpl; tauto)).
Qed.

(** C6: the category is a member of the nine-category taxonomy, namely
    that of the first keyword group, in the order Food & Dining, Groceries,
    Transportation, Shopping, Entertainment, Utilities, Healthcare, Travel,
    with a keyword occurring in the merchant, letter case ignored, and
    "Other" when there is none; "Starbucks Coffee" is Food & Dining and
    "Random LLC" is Other, and "UBEREATS", which has keywords of two
    groups, goes to the first of them. *)
Theorem categorizeTransaction_first_group merchant amount :
  In (categorizeTransaction merchant amount) categories /\
  categorizeTransaction merchant amount = firstMatchingGroup merchant /\
  map fst keywordGroups ++ ["Other"] = categories /\
  (forall amount', categorizeTransaction (Str.toLowerCase merchant) amount'
                   = categorizeTransaction merchant amount) /\
  categorizeTransaction "Starbucks Coffee" #5 = "Food & Dining" /\
  categorizeTransaction "Random LLC" #5 = "Other" /\
  categorizeTransaction "UBEREATS" #5 = "Food & Dining".
Proof.
  split; [apply categorize_in_taxonomy|].
  split; [apply categorize_first_match|].
  split; [reflexivity|].
  split; [|repeat split; vm_compute; reflexivity].
  intros amount'. unfold categorizeTransaction.
  rewrite toLowerCase_idem. reflexivity.
Qed.

End FraudFacts.

(** ** The financial health scorer *)

Module HealthFacts.
Import Schema FinancialHealth.

Lemma ltb_zero_not_eqb (x : Num.number) :
  (x >? #0) = true -> (x === #0) = false.
Proof.
  destruct x as [s|s| |s m e]; try discriminate; destruct s;
    try discriminate; reflexivity.
Qed.

Lemma liquidity_computed tma txs mi :
  recentTransactions tma txs <> [] -> (mi >? #0) = true ->
  liquidity (calculateFinancialHealth tma txs (Some mi))
  = Math.round (liquidityScore tma txs).
Proof.
  intros Hne Hmi. unfold calculateFinancialHealth.
  rewrite (ltb_zero_not_eqb mi Hmi).
  destruct txs as [|t txs]; [contradiction Hne; reflexivity|].
  reflexivity.
Qed.

(** C3: the code at the failing input.  The window holds one income of
    1000 and no expense, the monthly income is 1000: the window expenses
    are 0, hence the monthly expense is 0 and the savings are 1000.  The
    specification gives liquidity 0 there; the code divides the savings
    by the monthly expense, which it does not test, and returns 100. *)
Lemma liquidity_100_without_expenses :
  let tma := #1690000000000 in
  let txs := [entry "income" #1000 #1700000000000] in
  recentTransactions tma txs = txs /\
  (#1000 >? #0) = true /\
  monthlyExpenses tma txs = #0 /\
  (savingsAmount tma txs <=? #0) = false /\
  liquidity (calculateFinancialHealth tma txs (Some #1000)) = #100 /\
  liquidity (calculateFinancialHealth tma txs (Some #1000)) <> #0.
Proof.
  cbv zeta. repeat split; try (vm_compute; reflexivity).
  vm_compute. discriminate.
Qed.

(** The same division with the other zero.  With an expense of -5e-324
    beside the income of 1000 the window expenses are -5e-324, a third of
    which rounds to -0: the monthly expense is 0 again ([=== 0] holds),
    the savings are positive, and the liquidity returned is -Infinity. *)
Lemma liquidity_minus_infinity_with_minus_zero :
  let tma := #1690000000000 in
  let txs := [entry "income" #1000 #1700000000000;
              entry "expense" (S754_finite true 1 (-1074)) #1700000000000] in
  recentTransactions tma txs = txs /\
  monthlyExpenses tma txs = S754_zero true /\
  (monthlyExpenses tma txs === #0) = true /\
  (savingsAmount tma txs >? #0) = true /\
  liquidity (calculateFinancialHealth tma txs (Some #1000)) = Num.NegInfinity.
Proof.
  cbv zeta. repeat split; vm_compute; reflexivity.
Qed.

(** What the code does on every input with a positive monthly income and
    a transaction in the window.  Its test is on the savings alone: the
    liquidity is 0 whenever savingsAmount is not above 0, so whenever it
    is at most 0.  With savings above 0 the quotient is taken whatever
    the monthly expense: a monthly expense of +0 gives 100 and one of -0
    gives -Infinity. *)
Theorem liquidity_zero_without_savings tma txs mi :
  recentTransactions tma txs <> [] ->
  (mi >? #0) = true ->
  ((savingsAmount tma txs >? #0) = false ->
   liquidity (calculateFinancialHealth tma txs (Some mi)) = #0) /\
  ((savingsAmount tma txs <=? #0) = true ->
   liquidity (calculateFinancialHealth tma txs (Some mi)) = #0) /\
  ((savingsAmount tma txs >? #0) = true ->
   (monthlyExpenses tma txs = #0 ->
    liquidity (calculateFinancialHealth tma txs (Some mi)) = #100) /\
   (monthlyExpenses tma txs = S754_zero true ->
    liquidity (calculateFinancialHealth tma txs (Some mi)) = Num.NegInfinity)).
Proof.
  intros Hne Hmi. rewrite (liquidity_computed tma txs mi Hne Hmi).
  unfold liquidityScore, liquidityMonths.
  assert (Hguard : (savingsAmount tma txs >? #0) = false ->
                   Math.round
                     (Math.min
                        [#100;
                         (if savingsAmount tma txs >? #0
                          then savingsAmount tma txs / monthlyExpenses tma txs
                          else #0) / #6 * #100]) = #0).
  { intros Hs. rewrite Hs. vm_compute. reflexivity. }
  split; [exact Hguard|]. split.
  - intros Hs. apply Hguard. apply NumFacts.leb_not_ltb, Hs.
  - intros Hs. rewrite Hs. split; intros Hm; rewrite Hm;
      destruct (savingsAmount tma txs) as [s|s| |s m e]; try discriminate;
      destruct s; try discriminate; vm_compute; reflexivity.
Qed.

Lemma liquidity_zero_without_savings_witness :
  let tma := #1690000000000 in
  let txs := [entry "expense" #1000 #1700000000000] in
  liquidity (calculateFinancialHealth tma txs (Some #1000)) = #0.
Proof.
  cbv zeta.
  apply (liquidity_zero_without_savings
           #1690000000000 [entry "expense" #1000 #1700000000000] #1000);
    [vm_compute; discriminate | vm_compute; reflexivity | vm_compute; reflexivity].
Defined.

(** C4: an empty transaction list, whatever the income, and a zero income,
    whatever the transactions, give 50 for the composite and the five
    components; the branch is taken before [computed], which holds every
    division, is looked at. *)
Theorem calculateFinancialHealth_neutral tma txs mi :
  calculateFinancialHealth tma [] mi = neutral /\
  calculateFinancialHealth tma txs (Some #0) = neutral /\
  calculateFinancialHealth tma txs (Some (S754_zero true)) = neutral /\
  calculateFinancialHealth tma txs None = neutral /\
  neutral = {| score := #50; incomeStability := #50; expenseRatio := #50;
               savingsRate := #50; debtRatio := #50; liquidity := #50 |} /\
  (forall x, (x === #0) = true ->
             calculateFinancialHealth tma txs (Some x) = neutral).
Proof.
  repeat split.
  - unfold calculateFinancialHealth.
    destruct (Nat.eqb (List.length txs) 0); reflexivity.
  - unfold calculateFinancialHealth.
    destruct (Nat.eqb (List.length txs) 0); reflexivity.
  - unfold calculateFinancialHealth.
    destruct (Nat.eqb (List.length txs) 0); reflexivity.
  - intros x Hx. unfold calculateFinancialHealth. rewrite Hx.
    destruct (Nat.eqb (List.length txs) 0); reflexivity.
Qed.

Lemma calculateFinancialHealth_neutral_witness :
  calculateFinancialHealth #1690000000000
    [entry "income" #1000 #1700000000000] (Some (S754_zero true)) = neutral.
Proof.
  apply (calculateFinancialHealth_neutral #1690000000000
           [entry "income" #1000 #1700000000000] None).
  vm_compute; reflexivity.
Defined.

End HealthFacts.

(** ** The dataset pattern miner *)

Module DatasetFacts.
Import DatasetInitialization DatasetSpec NumSpec.

(** *** The counters object *)

Lemma keys_bump f k obj :
  forall k', In k' (keys (bump f k obj)) <-> k' = k \/ In k' (keys obj).
Proof.
  induction obj as [|[k0 d] obj IH]; intros k'; simpl.
  - intuition congruence.
  - destruct (String.eqb_spec k0 k) as [->|Hne]; simpl.
    + intuition congruence.
    + rewrite IH. intuition congruence.
Qed.

Lemma NoDup_keys_bump f k obj :
  NoDup (keys obj) -> NoDup (keys (bump f k obj)).
Proof.
  induction obj as [|[k0 d] obj IH]; simpl; intros H.
  - repeat constructor. intros [].
  - inversion H as [|? ? Hnotin Hnd]; subst.
    destruct (String.eqb_spec k0 k) as [->|Hne]; simpl.
    + constructor; assumption.
    + constructor; [|apply IH; assumption].
      intros Hin. apply keys_bump in Hin. destruct Hin as [->|Hin]; auto.
Qed.

Lemma countersOf_bump f k obj k' :
  countersOf k' (bump f k obj) =
  if String.eqb k k' then bumpCounters f (countersOf k' obj)
  else countersOf k' obj.
Proof.
  unfold countersOf. induction obj as [|[k0 d] obj IH]; simpl.
  - destruct (String.eqb k k'); reflexivity.
  - destruct (String.eqb_spec k0 k) as [->|Hne]; simpl.
    + destruct (String.eqb k k'); reflexivity.
    + destruct (String.eqb_spec k0 k') as [->|Hne'].
      * destruct (String.eqb_spec k k') as [->|_]; [congruence|reflexivity].
      * exact IH.
Qed.

Lemma countersOf_In k d obj :
  NoDup (keys obj) -> In (k, d) obj -> countersOf k obj = d.
Proof.
  unfold countersOf. induction obj as [|[k0 d0] obj IH]; simpl; intros Hnd Hin.
  - contradiction.
  - inversion Hnd as [|? ? Hnotin Hnd']; subst.
    destruct Hin as [E|Hin].
    + inversion E; subst. rewrite String.eqb_refl. reflexivity.
    + destruct (String.eqb_spec k0 k) as [->|Hne].
      * exfalso. apply Hnotin. apply (in_map fst) in Hin. exact Hin.
      * apply IH; assumption.
Qed.

Lemma In_countersOf k obj :
  In k (keys obj) -> In (k, countersOf k obj) obj.
Proof.
  unfold countersOf. induction obj as [|[k0 d0] obj IH]; simpl; intros Hin.
  - contradiction.
  - destruct (String.eqb_spec k0 k) as [->|Hne]; [left; reflexivity|].
    right. apply IH. destruct Hin as [E|Hin]; [congruence|exact Hin].
Qed.

(** *** The pattern keys of one row are distinct *)

Section Rows.
Variable parseFloat : string -> Num.number.
Variable getHours : string -> Num.number.

Lemma extractPatterns_NoDup r f : NoDup (extractPatterns parseFloat getHours r f).
Proof.
  unfold extractPatterns, pushIf.
  repeat match goal with
    | |- context [if ?c then _ else _] => destruct c
    end;
    cbn [app]; repeat constructor; simpl; intuition discriminate.
Qed.

Lemma patternFrequency_fold records acc :
  patternFrequency (fold_left (step parseFloat getHours) records acc)
  = bumpAll (events parseFloat getHours records) (patternFrequency acc).
Proof.
  revert acc. induction records as [|r records IH]; intros acc; simpl.
  - reflexivity.
  - rewrite IH. unfold bumpAll. rewrite fold_left_app. f_equal.
    simpl. generalize (patternFrequency acc).
    induction (extractPatterns parseFloat getHours r (isFraudRow r))
      as [|p ps IHp]; intros obj; simpl.
    + reflexivity.
    + apply IHp.
Qed.

Lemma occurrences_app b k evs evs' :
  occurrences b k (evs ++ evs') = (occurrences b k evs + occurrences b k evs')%nat.
Proof. unfold occurrences. rewrite filter_app, length_app. reflexivity. Qed.

Lemma occurrences_cons b k f p evs :
  occurrences b k ((f, p) :: evs)
  = ((if (String.eqb k p && (negb b || f))%bool then 1 else 0)
     + occurrences b k evs)%nat.
Proof.
  unfold occurrences. simpl.
  destruct (String.eqb k p && (negb b || f))%bool; reflexivity.
Qed.

Lemma bumpAll_spec evs :
  forall obj,
    NoDup (keys obj) ->
    NoDup (keys (bumpAll evs obj)) /\
    (forall k, In k (keys (bumpAll evs obj)) <->
               In k (keys obj) \/ In k (map snd evs)) /\
    (forall k,
        count (countersOf k (bumpAll evs obj))
        = (count (countersOf k obj) + occurrences false k evs)%nat /\
        fraudCount (countersOf k (bumpAll evs obj))
        = (fraudCount (countersOf k obj) + occurrences true k evs)%nat).
Proof.
  induction evs as [|[f p] evs IH]; intros obj Hnd; simpl.
  - split; [exact Hnd|]. split; [intros k; tauto|].
    intros k. unfold occurrences. simpl. split; lia.
  - destruct (IH (bump f p obj) (NoDup_keys_bump f p obj Hnd)) as (A & B & C).
    split; [exact A|]. split.
    + intros k. rewrite B, keys_bump. intuition congruence.
    + intros k. destruct (C k) as [C1 C2]. rewrite C1, C2.
      rewrite countersOf_bump, !occurrences_cons.
      rewrite (String.eqb_sym k p).
      destruct (String.eqb p k), f; simpl; split; lia.
Qed.

(** A row contributes one occurrence of each of its keys. *)
Lemma filter_eqb_NoDup k (l : list string) :
  NoDup l ->
  List.length (filter (String.eqb k) l)
  = if existsb (String.eqb k) l then 1%nat else 0%nat.
Proof.
  induction l as [|x l IH]; simpl; intros H; [reflexivity|].
  inversion H as [|? ? Hnotin Hnd]; subst.
  destruct (String.eqb_spec k x) as [->|Hne]; simpl.
  - rewrite (IH Hnd).
    destruct (existsb (String.eqb x) l) eqn:E; [|reflexivity].
    exfalso. apply Hnotin. apply existsb_exists in E.
    destruct E as (y & Hy & Eq). apply String.eqb_eq in Eq. subst. exact Hy.
  - apply IH, Hnd.
Qed.

Lemma occurrences_row b k f (l : list string) :
  occurrences b k (map (fun p => (f, p)) l)
  = if (negb b || f)%bool then List.length (filter (String.eqb k) l) else 0%nat.
Proof.
  unfold occurrences. induction l as [|x l IH]; simpl.
  - destruct (negb b || f)%bool; reflexivity.
  - destruct (negb b || f)%bool, (String.eqb k x); simpl; rewrite IH; reflexivity.
Qed.

Lemma occurrences_events b k records :
  occurrences b k (events parseFloat getHours records)
  = rowsIn parseFloat getHours b k records.
Proof.
  unfold rowsIn.
  induction records as [|r records IH]; [reflexivity|].
  unfold events in *. simpl flat_map. rewrite occurrences_app, IH. clear IH.
  simpl filter.
  rewrite occurrences_row,
    (filter_eqb_NoDup k _ (extractPatterns_NoDup r (isFraudRow r))).
  generalize (existsb (String.eqb k)
                (extractPatterns parseFloat getHours r (isFraudRow r))).
  intros present.
  destruct (negb b || isFraudRow r)%bool, present; reflexivity.
Qed.

(** What the loop leaves in [patternFrequency]: one entry per key that
    occurs in a processed row, holding the number of rows with the key and
    the number of fraudulent rows with it. *)
Lemma tally_counts rows :
  let obj := patternFrequency (tally parseFloat getHours rows) in
  NoDup (keys obj) /\
  forall k d,
    In (k, d) obj <->
    (d = {| count := rowsIn parseFloat getHours false k rows;
            fraudCount := rowsIn parseFloat getHours true k rows |} /\
     (0 < rowsIn parseFloat getHours false k rows)%nat).
Proof.
  cbv zeta. unfold tally. rewrite patternFrequency_fold. simpl patternFrequency.
  destruct (bumpAll_spec (events parseFloat getHours rows) [] (NoDup_nil _))
    as (A & B & C).
  split; [exact A|]. intros k d.
  assert (Hc : countersOf k (bumpAll (events parseFloat getHours rows) [])
               = {| count := rowsIn parseFloat getHours false k rows;
                    fraudCount := rowsIn parseFloat getHours true k rows |}).
  { destruct (C k) as [C1 C2]. rewrite <- !occurrences_events.
    destruct (countersOf k _) as [c fc]. simpl in C1, C2.
    rewrite C1, C2. reflexivity. }
  assert (Hk : In k (keys (bumpAll (events parseFloat getHours rows) []))
               <-> (0 < rowsIn parseFloat getHours false k rows)%nat).
  { rewrite B, <- occurrences_events.
    unfold occurrences. simpl negb. simpl orb.
    generalize (events parseFloat getHours rows). intros evs.
    split.
    - intros [[]|Hin]. induction evs as [|[f p] evs IH]; simpl in *; [contradiction|].
      rewrite andb_true_r.
      destruct (String.eqb_spec k p) as [->|Hne]; simpl; [lia|].
      apply IH. destruct Hin as [E|Hin]; [congruence|exact Hin].
    - intros Hpos. right.
      induction evs as [|[f p] evs IH]; simpl in *; [lia|].
      rewrite andb_true_r in Hpos.
      destruct (String.eqb_spec k p) as [->|Hne]; [left; reflexivity|].
      right. apply IH. exact Hpos. }
  split.
  - intros Hin. split.
    + rewrite <- Hc. symmetry. apply countersOf_In; assumption.
    + apply Hk. apply (in_map fst) in Hin. exact Hin.
  - intros [-> Hpos]. rewrite <- Hc. apply In_countersOf, Hk, Hpos.
Qed.

End Rows.

(** *** Sorting with a comparator *)

Section Sorting.
Context {A : Type}.
Variable cmp : A -> A -> Num.number.
Variable R : A -> A -> Prop.
Variable P : A -> Prop.
Hypothesis R_trans : forall a b c, R a b -> R b c -> R a c.
Hypothesis cmp_pos : forall a b, P a -> P b -> (cmp a b >? #0) = true -> R b a.
Hypothesis cmp_nonpos : forall a b, P a -> P b -> (cmp a b >? #0) = false -> R a b.

Lemma insertBy_perm x l : Permutation (Arr.insertBy cmp x l) (x :: l).
Proof.
  induction l as [|y l IH]; cbn [Arr.insertBy]; [reflexivity|].
  destruct (cmp x y >? #0); [|reflexivity].
  rewrite IH. apply perm_swap.
Qed.

Lemma sort_cons x l :
  Arr.sort cmp (x :: l) = Arr.insertBy cmp x (Arr.sort cmp l).
Proof. reflexivity. Qed.

Lemma sort_perm l : Permutation (Arr.sort cmp l) l.
Proof.
  induction l as [|x l IH]; [reflexivity|].
  rewrite sort_cons, insertBy_perm. constructor. exact IH.
Qed.

Lemma insertBy_sorted x l :
  P x -> Forall P l -> StronglySorted R l ->
  StronglySorted R (Arr.insertBy cmp x l).
Proof.
  intros Hx. induction l as [|y l IH]; cbn [Arr.insertBy]; intros HP Hs.
  - repeat constructor.
  - inversion HP as [|? ? Hy HPl]; subst.
    inversion Hs as [|? ? Hsl Hall]; subst.
    destruct (cmp x y >? #0) eqn:E.
    + constructor; [apply IH; assumption|].
      apply (Permutation_Forall (x := x :: l)).
      * symmetry. apply insertBy_perm.
      * constructor; [apply cmp_pos; assumption|exact Hall].
    + constructor; [exact Hs|].
      assert (Hxy : R x y) by (apply cmp_nonpos; assumption).
      constructor; [exact Hxy|].
      eapply Forall_impl; [|exact Hall]. intros z Hz. eapply R_trans; eassumption.
Qed.

Lemma sort_sorted l : Forall P l -> StronglySorted R (Arr.sort cmp l).
Proof.
  induction l as [|x l IH]; intros HP; [constructor|].
  inversion HP as [|? ? Hx HPl]; subst. rewrite sort_cons.
  apply insertBy_sorted; [exact Hx| |apply IH; exact HPl].
  apply (Permutation_Forall (x := l)); [symmetry; apply sort_perm|exact HPl].
Qed.

End Sorting.

(** *** The range of the risk score *)

Lemma sameb_eq x y : sameb x y = true -> x = y.
Proof.
  destruct x as [s|s| |s m e], y as [s'|s'| |s' m' e']; simpl;
    try discriminate; try reflexivity.
  - intros H. apply Bool.eqb_prop in H. congruence.
  - intros H. apply Bool.eqb_prop in H. congruence.
  - intros H. apply andb_prop in H. destruct H as [H He].
    apply andb_prop in H. destruct H as [Hs Hm].
    apply Bool.eqb_prop in Hs. apply Pos.eqb_eq in Hm. apply Z.eqb_eq in He.
    congruence.
Qed.

Lemma inTable_In x : inTable x = true -> In x scoreTable.
Proof.
  unfold inTable. intros H. apply existsb_exists in H.
  destruct H as (y & Hy & E). apply sameb_eq in E. subst. exact Hy.
Qed.

(** On the table the comparator of the sort agrees with the order. *)
Lemma scoreTable_order :
  forallb (fun a =>
             forallb (fun b => if b - a >? #0 then a <=? b else b <=? a)
                     scoreTable)
          scoreTable = true.
Proof. vm_compute. reflexivity. Qed.

Lemma small_rounds_in_table :
  forallb (fun z => inTable (Math.min [#100; Num.of_Z z]))
          (map Z.of_nat (seq 0 128)) = true.
Proof. vm_compute. reflexivity. Qed.

Lemma hundred_finite : #100 = S754_finite false 7036874417766400 (-46).
Proof. vm_compute. reflexivity. Qed.

Lemma two_finite : #2 = S754_finite false 4503599627370496 (-51).
Proof. vm_compute. reflexivity. Qed.

Lemma min_100_signed lo x :
  NumSpec.signed false lo x -> (-45 <= lo)%Z ->
  In (Math.min [#100; x]) scoreTable.
Proof.
  intros Hx Hlo. destruct x as [s|s| |s m e]; simpl in Hx; try contradiction.
  - subst. apply inTable_In. vm_compute. reflexivity.
  - subst. apply inTable_In. vm_compute. reflexivity.
  - destruct Hx as [-> He].
    assert (E : Math.min [#100; S754_finite false m e] = #100).
    { unfold Math.min. cbn [fold_left].
      change (Num.min2 Num.Infinity #100) with #100.
      rewrite hundred_finite. unfold Num.min2.
      rewrite NumFacts.compare_finite.
      assert (L : NumSpec.cmp_mag (-46) 7036874417766400 e m = Lt)
        by (apply NumFacts.cmp_mag_lt; left; lia).
      rewrite L. reflexivity. }
    match goal with
    | |- In ?t _ => replace t with #100 by (symmetry; exact E)
    end.
    apply inTable_In. vm_compute. reflexivity.
Qed.

Lemma min_100_round lo x :
  NumSpec.signed false lo x -> In (Math.min [#100; Math.round x]) scoreTable.
Proof.
  intros Hx. destruct x as [s|s| |s m e]; simpl in Hx; try contradiction.
  - subst. apply inTable_In. vm_compute. reflexivity.
  - subst. apply inTable_In. vm_compute. reflexivity.
  - destruct Hx as [-> _]. unfold Math.round, Num.round.
    destruct (0 <=? e)%Z eqn:E.
    + apply (min_100_signed 0); [|lia]. simpl. split; [reflexivity|].
      apply Z.leb_le. exact E.
    + apply Z.leb_gt in E.
      assert (HN : (0 <= (2 * Z.pos m + 2 ^ (- e)) / 2 ^ (1 - e))%Z).
      { apply Z.div_pos.
        - assert (0 <= 2 ^ (- e))%Z by (apply Z.pow_nonneg; lia). lia.
        - apply Z.pow_pos_nonneg; lia. }
      destruct ((2 * Z.pos m + 2 ^ (- e)) / 2 ^ (1 - e))%Z as [|p|p]; [| |lia].
      * apply inTable_In. vm_compute. reflexivity.
      * destruct (Z.lt_ge_cases (Z.pos p) 128) as [Hs|Hb].
        -- pose proof small_rounds_in_table as T.
           rewrite forallb_forall in T. apply inTable_In.
           change (binary_normalize Num.prec Num.emax (Z.pos p) 0 false)
             with (Num.of_Z (Z.pos p)).
           apply T.
           apply in_map_iff. exists (Pos.to_nat p). split; [lia|].
           apply in_seq. lia.
        -- apply (min_100_signed
                    (Z.min 0 (fexp Num.prec Num.emax (Z.pos (digits2_pos p) + 0)))).
           ++ apply NumFacts.binary_round_signed.
           ++ pose proof (NumFacts.digits2_pos_bound p) as Hd.
              assert (Hd8 : (8 <= Z.pos (digits2_pos p))%Z).
              { destruct (Z.lt_ge_cases (Z.pos (digits2_pos p)) 8) as [L|G]; [|exact G].
                exfalso.
                assert (Hm : (2 ^ Z.pos (digits2_pos p) <= 2 ^ 7)%Z)
                  by (apply Z.pow_le_mono_r; lia).
                change (2 ^ 7)%Z with 128%Z in Hm. lia. }
              unfold fexp, emin, Num.prec, Num.emax. lia.
Qed.

Lemma riskScoreOf_in_table (d : Counters) :
  (0 < fraudCount d)%nat -> (0 < count d)%nat ->
  (Z.of_nat (fraudCount d) < 2 ^ 53)%Z -> (Z.of_nat (count d) < 2 ^ 53)%Z ->
  In (riskScoreOf d) scoreTable.
Proof.
  intros Hf Hc Bf Bc. unfold riskScoreOf, natNum.
  destruct (NumFacts.of_Z_count (Z.of_nat (fraudCount d))) as (ma & ea & Ea); [lia|].
  destruct (NumFacts.of_Z_count (Z.of_nat (count d))) as (mb & eb & Eb); [lia|].
  rewrite Ea, Eb.
  destruct (NumFacts.div_finite_signed false ma ea false mb eb) as [lo Hq].
  cbv zeta.
  assert (H1 : NumSpec.signed false (lo + -46)
                 (S754_finite false ma ea / S754_finite false mb eb * #100)).
  { apply (NumFacts.mul_signed false false lo (-46)); [exact Hq| | |].
    - rewrite hundred_finite. simpl. split; [reflexivity|lia].
    - intros s _ s'. rewrite hundred_finite. discriminate.
    - intros s _ s'. rewrite hundred_finite. discriminate. }
  assert (H2 : NumSpec.signed false (lo + -46 + -51)
                 (S754_finite false ma ea / S754_finite false mb eb * #100 * #2)).
  { apply (NumFacts.mul_signed false false (lo + -46) (-51)); [exact H1| | |].
    - rewrite two_finite. simpl. split; [reflexivity|lia].
    - intros s _ s'. rewrite two_finite. discriminate.
    - intros s _ s'. rewrite two_finite. discriminate. }
  eapply min_100_round. exact H2.
Qed.

(** *** The mined patterns *)

Lemma NoDup_keys_filter (f : string * Counters -> bool) obj :
  NoDup (keys obj) -> NoDup (keys (filter f obj)).
Proof.
  unfold keys. induction obj as [|e obj IH]; simpl; intros H; [constructor|].
  inversion H as [|? ? Hnotin Hnd]; subst.
  destruct (f e); simpl; [|apply IH; exact Hnd].
  constructor; [|apply IH; exact Hnd].
  intros Hin. apply Hnotin. apply in_map_iff in Hin.
  destruct Hin as (e' & E & Hin). apply filter_In in Hin.
  apply in_map_iff. exists e'. tauto.
Qed.

Lemma pattern_toPattern obj : map pattern (map toPattern obj) = keys obj.
Proof.
  unfold keys. rewrite map_map. apply map_ext. intros [k d]. reflexivity.
Qed.

Lemma slice0_length {A : Type} (n : N) (l : list A) :
  (Z.of_nat (List.length (Arr.slice0 n l)) <= Z.of_N n)%Z.
Proof.
  unfold Arr.slice0. pose proof (firstn_le_length (N.to_nat n) l) as H.
  rewrite <- N_nat_Z. apply Nat2Z.inj_le. exact H.
Qed.

Section Mined.
Variable parseFloat : string -> Num.number.
Variable getHours : string -> Num.number.

Lemma rowsIn_fraud_le k rows :
  (rowsIn parseFloat getHours true k rows
   <= rowsIn parseFloat getHours false k rows)%nat.
Proof.
  unfold rowsIn. cbn [negb orb].
  induction rows as [|r rows IH]; cbn [filter]; [lia|].
  generalize (existsb (String.eqb k)
                (extractPatterns parseFloat getHours r (isFraudRow r))).
  intros e. destruct e, (isFraudRow r); cbn [andb orb negb List.length]; lia.
Qed.

Lemma rowsIn_le_length b k rows :
  (rowsIn parseFloat getHours b k rows <= List.length rows)%nat.
Proof. unfold rowsIn. apply filter_length_le. Qed.

Lemma ranked_entries records p :
  In p (ranked parseFloat getHours records) <->
  exists k d,
    p = toPattern (k, d) /\
    d = {| count := rowsWith parseFloat getHours false k records;
           fraudCount := rowsWith parseFloat getHours true k records |} /\
    (0 < rowsWith parseFloat getHours true k records)%nat.
Proof.
  unfold ranked, rowsWith.
  destruct (tally_counts parseFloat getHours (Arr.slice0 50000 records))
    as [Hnd Hin].
  revert Hnd Hin. generalize (Arr.slice0 50000 records). intros rows Hnd Hin.
  split.
  - intros Hp.
    apply (Permutation_in _ (sort_perm _ _)) in Hp.
    apply in_map_iff in Hp. destruct Hp as ([k d] & <- & Hp).
    apply filter_In in Hp. destruct Hp as [Hp Hf]. simpl in Hf.
    apply Nat.ltb_lt in Hf. apply Hin in Hp. destruct Hp as [-> Hc].
    exists k. eexists. split; [reflexivity|]. split; [reflexivity|exact Hf].
  - intros (k & d & -> & -> & Hf).
    apply (Permutation_in _ (Permutation_sym (sort_perm _ _))).
    apply in_map. apply filter_In. split.
    + apply Hin. split; [reflexivity|].
      pose proof (rowsIn_fraud_le k rows). lia.
    + simpl. apply Nat.ltb_lt. exact Hf.
Qed.

Lemma ranked_scores_in_table records :
  Forall (fun p => In (fraudRiskScore p) scoreTable) (ranked parseFloat getHours records).
Proof.
  apply Forall_forall. intros p Hp. apply ranked_entries in Hp.
  destruct Hp as (k & d & -> & -> & Hf). simpl.
  pose proof (rowsIn_fraud_le k (Arr.slice0 50000 records)) as Hle.
  pose proof (rowsIn_le_length false k (Arr.slice0 50000 records)) as Hlen.
  pose proof (slice0_length 50000 records) as Hs.
  change (Z.of_N 50000) with 50000%Z in Hs.
  fold (rowsWith parseFloat getHours true k records) in Hle.
  fold (rowsWith parseFloat getHours false k records) in Hle, Hlen.
  assert (B : (50000 < 2 ^ 53)%Z) by reflexivity.
  apply riskScoreOf_in_table; simpl; try lia.
Qed.

Lemma table_compare a b :
  In a scoreTable -> In b scoreTable ->
  ((b - a >? #0) = true -> (a <=? b) = true) /\
  ((b - a >? #0) = false -> (b <=? a) = true).
Proof.
  intros Ha Hb. pose proof scoreTable_order as T.
  rewrite forallb_forall in T. specialize (T a Ha).
  rewrite forallb_forall in T. specialize (T b Hb).
  destruct (b - a >? #0); split; intros E; congruence.
Qed.

Lemma ranked_sorted records : StronglySorted scoreGe (ranked parseFloat getHours records).
Proof.
  unfold ranked.
  apply (sort_sorted _ scoreGe (fun p => In (fraudRiskScore p) scoreTable)).
  - intros a b c Hab Hbc. unfold scoreGe in *.
    eapply NumFacts.leb_trans; eassumption.
  - intros a b Ha Hb E. apply (table_compare _ _ Ha Hb). exact E.
  - intros a b Ha Hb E. apply (table_compare _ _ Ha Hb). exact E.
  - apply (Permutation_Forall (x := ranked parseFloat getHours records));
      [apply sort_perm|apply ranked_scores_in_table].
Qed.

Lemma ranked_NoDup records : NoDup (map pattern (ranked parseFloat getHours records)).
Proof.
  unfold ranked.
  apply (Permutation_NoDup
           (l := map pattern
                   (map toPattern
                      (filter (fun entry => Nat.ltb 0 (fraudCount (snd entry)))
                         (patternFrequency
                            (tally parseFloat getHours
                               (Arr.slice0 50000 records))))))).
  - apply Permutation_map. symmetry. apply sort_perm.
  - rewrite pattern_toPattern. apply NoDup_keys_filter.
    apply (tally_counts parseFloat getHours (Arr.slice0 50000 records)).
Qed.

End Mined.

(** Whatever the parsing functions compute, the device key of the ten
    rows comes out first, seen 10 times, with score 20. *)
Lemma tenRows_device_pattern parseFloat getHours now :
  hd_error (patterns (processDataset parseFloat getHours now tenRows))
  = Some {| pattern := "device_mobile"; frequency := 10; fraudRiskScore := #20;
            description := "Mobile device" |}.
Proof.
  unfold processDataset, patterns, minePatterns, tally, tenRows.
  cbv -[Num.ltb Num.of_Z Num.sub Num.div Num.mul Math.min Math.round].
  generalize (parseFloat "0"). intros a.
  generalize (Num.ltb #100000 a) (Num.ltb #50000 a) (Num.ltb #10000 a)
             (Num.ltb a #100).
  intros [] [] [] []; vm_compute; reflexivity.
Qed.

(** C5: the miner outputs the pattern keys with a fraud count above 0,
    one pattern each, scored min(100, round(fraud rate percent * 2)),
    in descending order of score, cut to the first 15; the common fraud
    indicators are the output patterns with a score above 40; a key seen
    in 10 rows of which 1 is fraudulent scores 20. *)
Theorem processDataset_patterns parseFloat getHours now records :
  let ds := processDataset parseFloat getHours now records in
  let all := ranked parseFloat getHours records in
  NoDup (map pattern all) /\
  (forall k, In k (map pattern all) <->
             (0 < rowsWith parseFloat getHours true k records)%nat) /\
  Forall (fun p =>
            let n := rowsWith parseFloat getHours false (pattern p) records in
            let f := rowsWith parseFloat getHours true (pattern p) records in
            frequency p = n /\
            fraudRiskScore p
            = Math.min [#100; Math.round ((natNum f / natNum n) * #100 * #2)])
         all /\
  StronglySorted scoreGe all /\
  patterns ds = firstn 15 all /\
  commonFraudIndicators ds
  = map pattern (filter (fun p => fraudRiskScore p >? #40) (patterns ds)) /\
  riskScoreOf {| count := 10; fraudCount := 1 |} = #20 /\
  hd_error (patterns (processDataset parseFloat getHours now tenRows))
  = Some {| pattern := "device_mobile"; frequency := 10; fraudRiskScore := #20;
            description := "Mobile device" |}.
Proof.
  cbv zeta. split; [apply ranked_NoDup|]. split; [|split; [|split]].
  - intros k. rewrite in_map_iff. split.
    + intros (p & <- & Hp). apply ranked_entries in Hp.
      destruct Hp as (k' & d & -> & -> & Hf). exact Hf.
    + intros Hf. eexists. split; [|apply ranked_entries].
      2:{ exists k. eexists. split; [reflexivity|]. split; [reflexivity|exact Hf]. }
      reflexivity.
  - apply Forall_forall. intros p Hp. apply ranked_entries in Hp.
    destruct Hp as (k & d & -> & -> & Hf). split; reflexivity.
  - apply ranked_sorted.
  - split; [reflexivity|]. split; [reflexivity|].
    split; [vm_compute; reflexivity|apply tenRows_device_pattern].
Qed.

End DatasetFacts.

(** ** The rule-based fraud report *)

Module LlmFacts.
Import LlmFraudAnalysis.

Lemma forEachM_total {A S : Type} (f : S -> A -> option S) :
  (forall s x, exists s', f s x = Some s') ->
  forall xs s, exists s', forEachM f xs s = Some s'.
Proof.
  intros Hf xs. induction xs as [|x xs IH]; intros s; simpl.
  - eauto.
  - destruct (Hf s x) as [s' ->]. apply IH.
Qed.

(** The reduction without initial value is only reached on a non-empty
    array, so the debit/credit analysis always returns. *)
Lemma calculateDebitCreditAnalysis_returns transactions :
  exists a, calculateDebitCreditAnalysis transactions = Some a.
Proof.
  unfold calculateDebitCreditAnalysis.
  destruct (fold_left _ transactions ([], [])) as [debits credits].
  destruct debits as [|d debits], credits as [|c credits]; cbn; eauto.
Qed.

Section Environment.
Variable now : Num.number.
Variable cachedPatterns : option DatasetInitialization.DatasetPatterns.
Variable numberToString : Num.number -> string.
Variable callGemini :
  list Schema.Transaction -> DebitCreditAnalysis -> string ->
  option LLMFraudAnalysisResult.

(** [group[0]] is only read in a group of more than two members. *)
Lemma detectFraudPatterns_returns transactions :
  exists ps, detectFraudPatterns now cachedPatterns transactions = Some ps.
Proof.
  unfold detectFraudPatterns. cbv zeta.
  match goal with
  | |- context [forEachM ?f ?groups ?ps0] =>
      assert (Hf : forall s x, exists s', f s x = Some s');
      [|destruct (forEachM_total f Hf groups ps0) as [ps ->]; eauto]
  end.
  intros s [key group]. destruct group as [|g group]; cbn; [eauto|].
  match goal with
  | |- context [if ?c then _ else _] => destruct c
  end; eauto.
Qed.

Lemma provideRuleBasedAnalysis_returns transactions a :
  exists r,
    provideRuleBasedAnalysis now cachedPatterns numberToString transactions a
    = Some r /\
    debitCreditAnalysis r = a /\
    detectFraudPatterns now cachedPatterns transactions = Some (fraudPatterns r) /\
    (5 <= List.length (recommendations r))%nat.
Proof.
  unfold provideRuleBasedAnalysis.
  destruct (detectFraudPatterns_returns transactions) as [ps ->]. cbv zeta.
  eexists. split; [reflexivity|]. cbn [debitCreditAnalysis fraudPatterns recommendations].
  split; [reflexivity|]. split; [reflexivity|].
  cbn [filter String.eqb negb Ascii.eqb Bool.eqb].
  destruct (Nat.ltb 0 _); destruct (_ >=? #70); cbn; lia.
Qed.

End Environment.

(** C7: without an API key the analysis does not throw, whatever the
    transactions, and returns a report with every part filled in: the
    debit/credit analysis, the detected patterns, and at least the five
    fixed recommendations; for the empty list the totals and counts are 0,
    no pattern is reported and the overall risk is 0. *)
Theorem analyzeFraudWithLLM_without_key now numberToString callGemini transactions :
  (exists r a,
     calculateDebitCreditAnalysis transactions = Some a /\
     analyzeFraudWithLLM now None numberToString callGemini transactions None
     = Some r /\
     analyzeFraudWithLLM now None numberToString callGemini transactions (Some "")
     = Some r /\
     debitCreditAnalysis r = a /\
     detectFraudPatterns now None transactions = Some (fraudPatterns r) /\
     (5 <= List.length (recommendations r))%nat) /\
  analyzeFraudWithLLM now None numberToString callGemini [] None
  = Some
      {| summary :=
           "Analyzed 0 transactions. Detected 0 flagged transactions and 0 fraud patterns.";
         fraudPatterns := [];
         debitCreditAnalysis :=
           {| totalDebits := #0;
              totalCredits := #0;
              debitCount := 0;
              creditCount := 0;
              largestDebit := {| amount := #0; merchant := "N/A"; category := None |};
              largestCredit := {| amount := #0; merchant := "N/A"; category := None |};
              debitCategories := [];
              creditCategories := [] |};
         riskAssessment :=
           "Your account has a 0.0% fraud risk score. No critical issues found.";
         recommendations :=
           [ "Monitor unusual merchant patterns regularly";
             "Enable transaction alerts for high-value transactions";
             "Review and verify one-time merchants";
             "Maintain current security practices";
             "Keep transaction records for audit purposes" ];
         overallFraudRisk := #0 |}.
Proof.
  split.
  - destruct (calculateDebitCreditAnalysis_returns transactions) as [a Ha].
    destruct (provideRuleBasedAnalysis_returns now None numberToString transactions a)
      as (r & Hr & H1 & H2 & H3).
    exists r, a. unfold analyzeFraudWithLLM. rewrite Ha.
    repeat split; assumption.
  - vm_compute. reflexivity.
Qed.

End LlmFacts.
(** ** Integers as numbers

    Time values and counts are integers of magnitude below 2^53.  Such an
    integer is represented exactly, the order of the numbers is the order
    of the integers, and the sign of a difference is the sign of the
    difference of the integers. *)

Local Close Scope num_scope.

Module IntFacts.
Import Num NumSpec IntSpec NumFacts.

Lemma iter_xO_value p k : Z.pos (Pos.iter xO p k) = Z.pos p * 2 ^ Z.pos k.
Proof.
  induction k as [|k IH] using Pos.peano_ind.
  - simpl. lia.
  - rewrite Pos.iter_succ, Pos2Z.inj_xO, IH, Pos2Z.inj_succ, Z.pow_succ_r by lia.
    lia.
Qed.

Lemma shl_align_value mx ex ez :
  ez <= ex -> Z.pos (fst (shl_align mx ex ez)) = Z.pos mx * 2 ^ (ex - ez).
Proof.
  intros H. unfold shl_align.
  destruct (ez - ex) as [|d|d] eqn:E; simpl fst.
  - replace (ex - ez) with 0 by lia. simpl. lia.
  - lia.
  - rewrite iter_xO_value. replace (ex - ez) with (Z.pos d) by lia. reflexivity.
Qed.

(** Shifting right keeps what is above the bits shifted out. *)
Lemma shr_1_lower c mrs : c * 2 <= shr_m mrs -> c <= shr_m (shr_1 mrs).
Proof.
  destruct mrs as [m r s]. simpl.
  destruct m as [|[p|p|]|[p|p|]]; simpl; lia.
Qed.

Lemma pow_xO n : 2 ^ Z.pos n~0 = 2 ^ Z.pos n * 2 ^ Z.pos n.
Proof. rewrite <- Z.pow_add_r by lia. f_equal. lia. Qed.

Lemma pow_xI n : 2 ^ Z.pos n~1 = 2 * (2 ^ Z.pos n * 2 ^ Z.pos n).
Proof.
  rewrite <- Z.pow_add_r, <- Z.pow_succ_r by lia. f_equal. lia.
Qed.

Lemma iter_shr_1_lower n c mrs :
  c * 2 ^ Z.pos n <= shr_m mrs -> c <= shr_m (iter_pos shr_1 n mrs).
Proof.
  revert c mrs. induction n as [n IH|n IH|]; intros c mrs H.
  - rewrite pow_xI in H. cbn [iter_pos]. apply IH, IH, shr_1_lower.
    revert H. generalize (2 ^ Z.pos n). intros; lia.
  - rewrite pow_xO in H. cbn [iter_pos]. apply IH, IH.
    revert H. generalize (2 ^ Z.pos n). intros; lia.
  - apply shr_1_lower. exact H.
Qed.

Lemma shr_record_of_loc_m m l : shr_m (shr_record_of_loc m l) = m.
Proof. destruct l as [|[]]; reflexivity. Qed.

Lemma shr_fexp_pos m e l :
  0 < m -> -1074 <= e ->
  1 <= shr_m (fst (shr_fexp prec emax m e l)) /\
  e <= snd (shr_fexp prec emax m e l).
Proof.
  intros Hm He. split; [|apply shr_fexp_nonneg; lia].
  destruct m as [|p|p]; try lia.
  unfold shr_fexp, shr. change (Zdigits2 (Z.pos p)) with (Z.pos (digits2_pos p)).
  destruct (fexp prec emax (Z.pos (digits2_pos p) + e) - e) as [|q|q] eqn:E;
    simpl fst; rewrite ?shr_record_of_loc_m; try lia.
  apply iter_shr_1_lower. rewrite shr_record_of_loc_m.
  assert (Hq : Z.pos q <= Z.pos (digits2_pos p) - 1)
    by (unfold fexp, emin, prec, emax in E; lia).
  pose proof (digits2_pos_lower p) as Hl.
  assert (Hp : 2 ^ Z.pos q <= 2 ^ (Z.pos (digits2_pos p) - 1))
    by (apply Z.pow_le_mono_r; lia).
  lia.
Qed.

Lemma round_nearest_even_lower m l : m <= round_nearest_even m l.
Proof.
  destruct l as [|[]]; simpl; try lia. destruct (Z.even m); lia.
Qed.

(** A number that is not zero and has sign [s]. *)
Lemma binary_round_aux_nonzero sx mx ex lx :
  0 < mx -> -1074 <= ex ->
  nonzero sx (binary_round_aux prec emax sx mx ex lx).
Proof.
  intros Hm He. unfold binary_round_aux.
  destruct (shr_fexp_pos mx ex lx Hm He) as [H1 E1].
  destruct (shr_fexp prec emax mx ex lx) as [mrs' e']. simpl in H1, E1.
  pose proof (round_nearest_even_lower (shr_m mrs') (loc_of_shr_record mrs')) as Hr.
  destruct (shr_fexp_pos (round_nearest_even (shr_m mrs') (loc_of_shr_record mrs'))
              e' loc_Exact) as [H2 E2]; [lia|lia|].
  destruct (shr_fexp prec emax _ e' loc_Exact) as [mrs'' e'']. simpl in H2, E2.
  destruct (shr_m mrs'') as [|m|m]; try lia.
  destruct (e'' <=? emax - prec); reflexivity.
Qed.

Lemma binary_round_nonzero sx mx ex :
  -1074 <= ex -> nonzero sx (binary_round prec emax sx mx ex).
Proof.
  intros He. unfold binary_round, shl_align.
  destruct (fexp prec emax (Z.pos (digits2_pos mx) + ex) - ex) as [|d|d] eqn:E;
    apply binary_round_aux_nonzero; try lia.
  unfold fexp, emin, prec, emax in *. lia.
Qed.

Lemma ltb_zero_nonzero s x :
  nonzero s x -> ltb (S754_zero false) x = negb s.
Proof.
  destruct x as [s'|s'| |s' m e]; simpl; try contradiction;
    intros ->; destruct s; reflexivity.
Qed.

(** The sign of a difference of finite numbers is the sign of the
    difference of their aligned mantissas. *)
Lemma sub_finite_sign sx mx ex sy my ey :
  -1074 <= ex -> -1074 <= ey ->
  let ez := Z.min ex ey in
  ltb (S754_zero false) (sub (S754_finite sx mx ex) (S754_finite sy my ey))
  = (0 <? cond_Zopp sx (Z.pos mx * 2 ^ (ex - ez))
          - cond_Zopp sy (Z.pos my * 2 ^ (ey - ez))).
Proof.
  intros Hx Hy ez. unfold sub, SFsub. fold ez.
  rewrite !shl_align_value by (unfold ez; lia).
  destruct (cond_Zopp sx (Z.pos mx * 2 ^ (ex - ez))
            - cond_Zopp sy (Z.pos my * 2 ^ (ey - ez))) as [|d|d];
    unfold binary_normalize.
  - reflexivity.
  - rewrite (ltb_zero_nonzero false) by (apply binary_round_nonzero; unfold ez; lia).
    reflexivity.
  - rewrite (ltb_zero_nonzero true) by (apply binary_round_nonzero; unfold ez; lia).
    reflexivity.
Qed.

(** *** The representation of an integer *)

Lemma digits_le_53 (p : positive) : Z.pos p < 2 ^ 53 -> Z.pos (digits2_pos p) <= 53.
Proof.
  intros H1.
  destruct (Z.le_gt_cases (Z.pos (digits2_pos p)) 53) as [L|G]; [exact L|].
  exfalso. pose proof (digits2_pos_lower p) as Hl.
  assert (Hm : 2 ^ 53 <= 2 ^ (Z.pos (digits2_pos p) - 1))
    by (apply Z.pow_le_mono_r; lia).
  revert H1 Hl Hm. generalize (2 ^ 53) (2 ^ (Z.pos (digits2_pos p) - 1)).
  intros; lia.
Qed.

Lemma binary_round_exact s (p : positive) :
  Z.pos (digits2_pos p) <= 53 ->
  exists m,
    binary_round prec emax s p 0
    = S754_finite s m (Z.pos (digits2_pos p) - 53) /\
    Z.pos m = Z.pos p * 2 ^ (53 - Z.pos (digits2_pos p)).
Proof.
  intros Hd. unfold binary_round, shl_align.
  assert (F : fexp prec emax (Z.pos (digits2_pos p) + 0)
              = Z.pos (digits2_pos p) - 53)
    by (unfold fexp, emin, prec, emax; lia).
  rewrite F, Z.sub_0_r.
  destruct (Z.pos (digits2_pos p) - 53) as [|d|d] eqn:E.
  - exists p. split; [apply (binary_round_aux_canonical s p 0); lia|].
    replace (53 - Z.pos (digits2_pos p)) with 0 by lia. simpl. lia.
  - lia.
  - exists (Pos.iter xO p d). split.
    + apply (binary_round_aux_canonical s (Pos.iter xO p d) (Z.neg d)); [|lia].
      rewrite digits2_iter_xO. lia.
    + rewrite iter_xO_value.
      replace (53 - Z.pos (digits2_pos p)) with (Z.pos d) by lia. reflexivity.
Qed.

(** An integer other than 0 and of magnitude below 2^53 is the finite
    number with its sign, the exponent [digits - 53] and the magnitude
    shifted to 53 bits. *)
Lemma of_Z_exact (z : Z) :
  z <> 0 -> Z.abs z < 2 ^ 53 ->
  exists m e,
    of_Z z = S754_finite (z <? 0) m e /\
    -52 <= e <= 0 /\
    Z.pos m = Z.abs z * 2 ^ (- e) /\
    e = Z.log2 (Z.abs z) - 52.
Proof.
  intros Hz Hb. unfold of_Z, binary_normalize.
  destruct z as [|p|p]; [contradiction Hz; reflexivity| |];
    simpl Z.abs in *;
    pose proof (digits_le_53 p Hb) as Hd;
    destruct (binary_round_exact (Z.pos p <? 0) p Hd) as (m & E & Hm);
    pose proof (digits2_pos_lower p) as Hl;
    pose proof (digits2_pos_bound p) as Hu;
    assert (Hlog : Z.log2 (Z.pos p) = Z.pos (digits2_pos p) - 1)
      by (apply Z.log2_unique; [lia|];
          replace (Z.succ (Z.pos (digits2_pos p) - 1))
            with (Z.pos (digits2_pos p)) by lia;
          split; assumption).
  - exists m, (Z.pos (digits2_pos p) - 53). split; [exact E|].
    split; [lia|]. split; [|lia].
    rewrite Hm. f_equal. f_equal. lia.
  - destruct (binary_round_exact true p Hd) as (m' & E' & Hm').
    exists m', (Z.pos (digits2_pos p) - 53). split; [exact E'|].
    split; [lia|]. split; [|lia].
    rewrite Hm'. f_equal. f_equal. lia.
Qed.

Lemma cond_Zopp_abs z : cond_Zopp (z <? 0) (Z.abs z) = z.
Proof. destruct z; reflexivity. Qed.

Lemma cond_Zopp_mul b x y : cond_Zopp b (x * y) = cond_Zopp b x * y.
Proof. destruct b; simpl; lia. Qed.

(** [a - b > 0] on integers read as numbers is [b < a]. *)
Lemma sub_of_Z_pos (a b : Z) :
  Z.abs a < 2 ^ 53 -> Z.abs b < 2 ^ 53 ->
  ltb (of_Z 0) (sub (of_Z a) (of_Z b)) = (b <? a).
Proof.
  intros Ha Hb. change (of_Z 0) with (S754_zero false).
  destruct (Z.eq_dec a 0) as [->|Na]; destruct (Z.eq_dec b 0) as [->|Nb].
  - reflexivity.
  - destruct (of_Z_exact b Nb Hb) as (m & e & -> & _).
    change (of_Z 0) with (S754_zero false). simpl.
    destruct (Z.ltb_spec b 0), (Z.ltb_spec 0 b); simpl; try reflexivity; lia.
  - destruct (of_Z_exact a Na Ha) as (m & e & -> & _).
    change (of_Z 0) with (S754_zero false). simpl.
    destruct (Z.ltb_spec a 0), (Z.ltb_spec 0 a); simpl; try reflexivity; lia.
  - destruct (of_Z_exact a Na Ha) as (ma & ea & -> & Hea & Hma & _).
    destruct (of_Z_exact b Nb Hb) as (mb & eb & -> & Heb & Hmb & _).
    rewrite sub_finite_sign by lia. rewrite Hma, Hmb.
    rewrite <- !Z.mul_assoc, <- !Z.pow_add_r by lia.
    replace (- ea + (ea - Z.min ea eb)) with (- Z.min ea eb) by lia.
    replace (- eb + (eb - Z.min ea eb)) with (- Z.min ea eb) by lia.
    rewrite !cond_Zopp_mul, !cond_Zopp_abs.
    assert (Hp : 0 < 2 ^ (- Z.min ea eb)) by (apply Z.pow_pos_nonneg; lia).
    revert Hp. generalize (2 ^ (- Z.min ea eb)). intros k Hk.
    destruct (Z.ltb_spec 0 (a * k - b * k)), (Z.ltb_spec b a);
      try reflexivity; nia.
Qed.

(** The order of integers read as numbers is the order of the integers. *)
Lemma compare_of_Z_pos (p q : positive) :
  Z.pos p < 2 ^ 53 -> Z.pos q < 2 ^ 53 ->
  forall mp ep mq eq,
    of_Z (Z.pos p) = S754_finite false mp ep ->
    of_Z (Z.pos q) = S754_finite false mq eq ->
    cmp_mag ep mp eq mq = (Z.pos p ?= Z.pos q).
Proof.
  intros Hp Hq mp ep mq eq Ep Eq.
  destruct (of_Z_exact (Z.pos p)) as (mp' & ep' & Ep' & Rp & Hmp & Hep); [lia|exact Hp|].
  destruct (of_Z_exact (Z.pos q)) as (mq' & eq' & Eq' & Rq & Hmq & Heq); [lia|exact Hq|].
  rewrite Ep in Ep'. rewrite Eq in Eq'.
  injection Ep' as <- <-. injection Eq' as <- <-.
  simpl Z.abs in *.
  pose proof (Z.log2_spec (Z.pos p) eq_refl) as [Lp Up].
  pose proof (Z.log2_spec (Z.pos q) eq_refl) as [Lq Uq].
  pose proof (Z.log2_nonneg (Z.pos p)) as Np.
  pose proof (Z.log2_nonneg (Z.pos q)) as Nq.
  unfold cmp_mag. subst ep eq.
  destruct (Z.compare_spec (Z.log2 (Z.pos p) - 52) (Z.log2 (Z.pos q) - 52))
    as [E|E|E].
  - rewrite (Pos2Z.inj_compare mp mq), Hmp, Hmq.
    replace (Z.log2 (Z.pos q)) with (Z.log2 (Z.pos p)) by lia.
    assert (Hk : 0 < 2 ^ (- (Z.log2 (Z.pos p) - 52)))
      by (apply Z.pow_pos_nonneg; lia).
    revert Hk. generalize (2 ^ (- (Z.log2 (Z.pos p) - 52))). intros k Hk.
    destruct (Z.compare_spec (Z.pos p * k) (Z.pos q * k)),
             (Z.compare_spec (Z.pos p) (Z.pos q)); try reflexivity; nia.
  - symmetry. apply Z.compare_lt_iff.
    assert (H : 2 ^ Z.succ (Z.log2 (Z.pos p)) <= 2 ^ Z.log2 (Z.pos q))
      by (apply Z.pow_le_mono_r; lia).
    lia.
  - symmetry. apply Z.compare_gt_iff.
    assert (H : 2 ^ Z.succ (Z.log2 (Z.pos q)) <= 2 ^ Z.log2 (Z.pos p))
      by (apply Z.pow_le_mono_r; lia).
    lia.
Qed.

Lemma compare_of_Z (a b : Z) :
  Z.abs a < 2 ^ 53 -> Z.abs b < 2 ^ 53 ->
  SFcompare (of_Z a) (of_Z b) = Some (a ?= b).
Proof.
  intros Ha Hb.
  destruct (Z.eq_dec a 0) as [->|Na]; destruct (Z.eq_dec b 0) as [->|Nb].
  - reflexivity.
  - destruct (of_Z_exact b Nb Hb) as (m & e & -> & _).
    change (of_Z 0) with (S754_zero false). simpl.
    destruct b; try reflexivity. contradiction Nb; reflexivity.
  - destruct (of_Z_exact a Na Ha) as (m & e & -> & _).
    change (of_Z 0) with (S754_zero false). simpl.
    destruct a; try reflexivity. contradiction Na; reflexivity.
  - destruct (of_Z_exact a Na Ha) as (ma & ea & Ea & _).
    destruct (of_Z_exact b Nb Hb) as (mb & eb & Eb & _).
    rewrite Ea, Eb, compare_finite.
    destruct a as [|p|p], b as [|q|q]; try (contradiction Na; reflexivity);
      try (contradiction Nb; reflexivity); simpl Z.ltb; cbv iota; try reflexivity.
    + f_equal. apply compare_of_Z_pos; assumption.
    + f_equal.
      assert (Ep : of_Z (Z.pos p) = S754_finite false ma ea).
      { destruct (of_Z_exact (Z.pos p)) as (m' & e' & E' & _ & Hm' & He');
          [lia|exact Ha|].
        destruct (of_Z_exact (Z.neg p) Na Ha) as (m'' & e'' & E'' & _ & Hm'' & He'').
        rewrite Ea in E''. injection E'' as <- <-.
        rewrite E'. simpl Z.abs in *. simpl Z.ltb. f_equal; [|lia].
        apply Pos2Z.inj. rewrite Hm', Hm''. f_equal. f_equal. lia. }
      assert (Eq : of_Z (Z.pos q) = S754_finite false mb eb).
      { destruct (of_Z_exact (Z.pos q)) as (m' & e' & E' & _ & Hm' & He');
          [lia|exact Hb|].
        destruct (of_Z_exact (Z.neg q) Nb Hb) as (m'' & e'' & E'' & _ & Hm'' & He'').
        rewrite Eb in E''. injection E'' as <- <-.
        rewrite E'. simpl Z.abs in *. simpl Z.ltb. f_equal; [|lia].
        apply Pos2Z.inj. rewrite Hm', Hm''. f_equal. f_equal. lia. }
      rewrite (compare_of_Z_pos q p Hb Ha mb eb ma ea Eq Ep).
      simpl. apply Pos.compare_antisym.
Qed.

Lemma leb_of_Z (a b : Z) :
  Z.abs a < 2 ^ 53 -> Z.abs b < 2 ^ 53 -> leb (of_Z a) (of_Z b) = (a <=? b).
Proof.
  intros Ha Hb. unfold leb, SFleb. rewrite compare_of_Z by assumption.
  unfold Z.leb. destruct (a ?= b); reflexivity.
Qed.

End IntFacts.

Local Open Scope num_scope.
(** ** The in-memory storage *)

Module MapFacts.
Section Entries.
Context {V : Type}.
Implicit Types (m : list (string * V)) (k : string) (v : V).

Lemma get_set_same m k v : JsMap.get (JsMap.set m k v) k = Some v.
Proof.
  unfold JsMap.get. induction m as [|[k' v'] m IH]; cbn [JsMap.set find fst].
  - rewrite String.eqb_refl. reflexivity.
  - destruct (String.eqb k' k) eqn:E; cbn [find fst]; rewrite E; [reflexivity|exact IH].
Qed.

Lemma get_set_other m k v k' :
  k' <> k -> JsMap.get (JsMap.set m k v) k' = JsMap.get m k'.
Proof.
  intros N. unfold JsMap.get.
  induction m as [|[k0 v0] m IH]; cbn [JsMap.set find fst].
  - apply String.eqb_neq in N. rewrite String.eqb_sym, N. reflexivity.
  - destruct (String.eqb k0 k) eqn:E; cbn [find fst].
    + apply String.eqb_eq in E. subst k0.
      apply String.eqb_neq in N. rewrite String.eqb_sym, N. reflexivity.
    + destruct (String.eqb k0 k'); [reflexivity|exact IH].
Qed.

Lemma has_get m k : JsMap.has m k = StorageSpec.isSome (JsMap.get m k).
Proof.
  unfold JsMap.has, JsMap.get. induction m as [|[k' v'] m IH]; cbn [existsb find fst].
  - reflexivity.
  - destruct (String.eqb k' k); [reflexivity|exact IH].
Qed.

Lemma get_delete_same m k : JsMap.get (fst (JsMap.delete m k)) k = None.
Proof.
  unfold JsMap.get, JsMap.delete. cbn [fst].
  induction m as [|[k' v'] m IH]; cbn [filter fst]; [reflexivity|].
  destruct (String.eqb k' k) eqn:E; cbn [negb find fst]; [exact IH|].
  rewrite E. exact IH.
Qed.

Lemma get_delete_other m k k' :
  k' <> k -> JsMap.get (fst (JsMap.delete m k)) k' = JsMap.get m k'.
Proof.
  intros N. unfold JsMap.get, JsMap.delete. cbn [fst].
  induction m as [|[k0 v0] m IH]; cbn [filter find fst]; [reflexivity|].
  destruct (String.eqb k0 k) eqn:E; cbn [negb find fst].
  - apply String.eqb_eq in E. subst k0.
    apply String.eqb_neq in N. rewrite String.eqb_sym, N. exact IH.
  - destruct (String.eqb k0 k'); [reflexivity|exact IH].
Qed.

Lemma get_In m k v : JsMap.get m k = Some v -> In v (JsMap.values m).
Proof.
  unfold JsMap.get, JsMap.values. induction m as [|[k' v'] m IH]; cbn [find map fst snd].
  - discriminate.
  - destruct (String.eqb k' k); [intros [= <-]; left; reflexivity|].
    intros H. right. apply IH, H.
Qed.

Lemma keys_set_present m k v :
  JsMap.has m k = true -> map fst (JsMap.set m k v) = map fst m.
Proof.
  unfold JsMap.has. induction m as [|[k' v'] m IH]; cbn [existsb JsMap.set map fst].
  - discriminate.
  - destruct (String.eqb k' k); cbn [orb map fst]; [reflexivity|].
    intros H. f_equal. apply IH, H.
Qed.

Lemma set_absent m k v :
  JsMap.has m k = false -> JsMap.set m k v = m ++ [(k, v)].
Proof.
  unfold JsMap.has. induction m as [|[k' v'] m IH]; cbn [existsb JsMap.set fst].
  - reflexivity.
  - destruct (String.eqb k' k); cbn [orb]; [discriminate|].
    intros H. rewrite <- app_comm_cons. f_equal. apply IH, H.
Qed.

(** The entries of the map after [set]: the value stored is among them,
    and every other one was there before. *)
Lemma In_set m k v e :
  In e (JsMap.set m k v) -> e = (k, v) \/ In e m.
Proof.
  induction m as [|[k' v'] m IH]; cbn [JsMap.set].
  - intros [<-|[]]. left. reflexivity.
  - destruct (String.eqb k' k) eqn:E.
    + apply String.eqb_eq in E. subst k'.
      intros [<-|H]; [left; reflexivity|right; right; exact H].
    + intros [<-|H]; [right; left; reflexivity|].
      destruct (IH H) as [->|H']; [left; reflexivity|right; right; exact H'].
Qed.

Lemma In_values_set m k v : In v (JsMap.values (JsMap.set m k v)).
Proof. apply (get_In _ k). apply get_set_same. Qed.

Lemma keyed_ids (idOf : V -> string) m :
  StorageSpec.keyed idOf m -> map idOf (JsMap.values m) = map fst m.
Proof.
  unfold StorageSpec.keyed, JsMap.values. induction 1 as [|[k v] m Hid _ IH];
    cbn [map fst snd] in *; [reflexivity|].
  rewrite Hid, IH. reflexivity.
Qed.

Lemma keyed_set (idOf : V -> string) m k v :
  StorageSpec.keyed idOf m -> idOf v = k -> StorageSpec.keyed idOf (JsMap.set m k v).
Proof.
  unfold StorageSpec.keyed. intros Hm Hv.
  induction Hm as [|[k' v'] m Hid Hm IH]; cbn [JsMap.set].
  - constructor; [exact Hv|constructor].
  - destruct (String.eqb k' k) eqn:E.
    + apply String.eqb_eq in E. subst k'. constructor; [exact Hv|exact Hm].
    + constructor; [exact Hid|exact IH].
Qed.

Lemma keyed_delete (idOf : V -> string) m k :
  StorageSpec.keyed idOf m -> StorageSpec.keyed idOf (fst (JsMap.delete m k)).
Proof.
  unfold StorageSpec.keyed, JsMap.delete. cbn [fst]. intros Hm.
  apply Forall_forall. intros e He. apply filter_In in He.
  rewrite Forall_forall in Hm. apply Hm, He.
Qed.

(** With entries stored under their ids, each key once, [set] on a key
    that is present replaces the entry of that id and no other. *)
Lemma values_set_present (idOf : V -> string) m k v :
  StorageSpec.keyed idOf m -> NoDup (map fst m) -> JsMap.has m k = true ->
  JsMap.values (JsMap.set m k v)
  = map (fun x => if String.eqb (idOf x) k then v else x) (JsMap.values m).
Proof.
  unfold StorageSpec.keyed, JsMap.values, JsMap.has.
  intros Hk. induction Hk as [|[k' v'] m Hid Hk IH];
    cbn [JsMap.set map existsb fst snd] in *; intros ND Hh; [discriminate|].
  apply NoDup_cons_iff in ND. destruct ND as [Hnotin ND'].
  rewrite Hid. destruct (String.eqb k' k) eqn:E; cbn [map snd fst orb] in *.
  - f_equal. apply String.eqb_eq in E.
    rewrite <- (map_id (map snd m)) at 1. apply map_ext_in.
    intros x Hx. destruct (String.eqb (idOf x) k) eqn:E2; [|reflexivity].
    exfalso. apply Hnotin. apply String.eqb_eq in E2.
    rewrite <- (keyed_ids idOf m Hk).
    replace k' with (idOf x) by congruence.
    apply in_map. exact Hx.
  - f_equal. apply IH; assumption.
Qed.

End Entries.
End MapFacts.

Module StorageFacts.
Import Storage StorageSpec MapFacts.

(** *** Transactions *)

Lemma getTransactionsByUser_perm s userId :
  Permutation (getTransactionsByUser s userId)
    (filter (fun t => String.eqb (Schema.userId t) userId)
            (JsMap.values (transactions s))).
Proof. apply DatasetFacts.sort_perm. Qed.

(** X1: a created transaction is read back under its id and is listed
    for its user; every other id reads as before, and the other maps are
    untouched. *)
Theorem createTransaction_read_back uuid now s ins :
  let s' := fst (createTransaction uuid now s ins) in
  let t := snd (createTransaction uuid now s ins) in
  getTransaction s' uuid = Some t /\
  (forall id, id <> uuid -> getTransaction s' id = getTransaction s id) /\
  In t (getTransactionsByUser s' (InsertTransaction.userId ins)) /\
  Schema.id t = uuid /\
  (getTransaction s uuid = None ->
   JsMap.values (transactions s') = JsMap.values (transactions s) ++ [t]) /\
  users s' = users s /\ budgets s' = budgets s /\ goals s' = goals s /\
  financialHealth s' = financialHealth s.
Proof.
  cbv zeta. unfold createTransaction, getTransaction. cbn [fst snd transactions withTransactions].
  split; [apply get_set_same|]. split; [intros id N; apply get_set_other, N|].
  split.
  - eapply Permutation_in; [symmetry; apply getTransactionsByUser_perm|].
    apply filter_In. cbn [transactions withTransactions Schema.userId].
    split; [apply In_values_set|apply String.eqb_refl].
  - split; [reflexivity|]. split; [|repeat split].
    intros H. rewrite set_absent.
    + unfold JsMap.values. rewrite map_app. reflexivity.
    + rewrite has_get, H. reflexivity.
Qed.

Lemma deleteTransaction_eq s id :
  deleteTransaction s id
  = (withTransactions s (fst (JsMap.delete (transactions s) id)),
     JsMap.has (transactions s) id).
Proof. reflexivity. Qed.

(** X2: deleting reports whether the id was stored; afterwards the id is
    unknown, every other id reads as before, and a second delete reports
    [false]. *)
Theorem deleteTransaction_removes s id :
  let s' := fst (deleteTransaction s id) in
  snd (deleteTransaction s id) = isSome (getTransaction s id) /\
  getTransaction s' id = None /\
  (forall id', id' <> id -> getTransaction s' id' = getTransaction s id') /\
  snd (deleteTransaction s' id) = false /\
  Forall (fun t => In t (getTransactionsByUser s (Schema.userId t)))
         (JsMap.values (transactions s')).
Proof.
  cbv zeta. rewrite !deleteTransaction_eq. unfold getTransaction.
  cbn [fst snd transactions withTransactions].
  split; [apply has_get|]. split; [apply get_delete_same|].
  split; [intros id' N; apply get_delete_other, N|]. split.
  - rewrite has_get, get_delete_same. reflexivity.
  - apply Forall_forall. intros t Ht.
    eapply Permutation_in; [symmetry; apply getTransactionsByUser_perm|].
    apply filter_In. split; [|apply String.eqb_refl].
    unfold JsMap.values, JsMap.delete in *. cbn [fst] in Ht.
    apply in_map_iff in Ht. destruct Ht as (e & <- & He).
    apply filter_In in He. apply in_map. apply He.
Qed.

Lemma spread_twice {A : Type} (update : option A) (old : A) :
  spread update (spread update old) = spread update old.
Proof. destruct update; reflexivity. Qed.

(** X3: an update of an id that is not stored changes nothing and
    returns nothing.  An update of a stored id returns the merged
    record, which is read back under that id: each of the thirteen
    properties is the one of the updates when they have it, the id
    included, and the stored one otherwise; without any property the
    record is as it was, and the same update made again returns the same
    record.  The keys of the map and the records of the other ids are
    as before. *)
Theorem updateTransaction_merges s id updates :
  let s' := fst (updateTransaction s id updates) in
  (getTransaction s id = None -> updateTransaction s id updates = (s, None)) /\
  (forall t, getTransaction s id = Some t ->
     exists t',
       snd (updateTransaction s id updates) = Some t' /\
       getTransaction s' id = Some t' /\
       Schema.id t' = spread (TransactionUpdates.id updates) (Schema.id t) /\
       Schema.userId t'
       = spread (TransactionUpdates.userId updates) (Schema.userId t) /\
       Schema.date t' = spread (TransactionUpdates.date updates) (Schema.date t) /\
       Schema.amount t'
       = spread (TransactionUpdates.amount updates) (Schema.amount t) /\
       Schema.merchant t'
       = spread (TransactionUpdates.merchant updates) (Schema.merchant t) /\
       Schema.category t'
       = spread (TransactionUpdates.category updates) (Schema.category t) /\
       Schema.type t' = spread (TransactionUpdates.type updates) (Schema.type t) /\
       Schema.description t'
       = spread (TransactionUpdates.description updates) (Schema.description t) /\
       Schema.location t'
       = spread (TransactionUpdates.location updates) (Schema.location t) /\
       Schema.accountId t'
       = spread (TransactionUpdates.accountId updates) (Schema.accountId t) /\
       Schema.isFraudulent t'
       = spread (TransactionUpdates.isFraudulent updates) (Schema.isFraudulent t) /\
       Schema.fraudReason t'
       = spread (TransactionUpdates.fraudReason updates) (Schema.fraudReason t) /\
       Schema.createdAt t'
       = spread (TransactionUpdates.createdAt updates) (Schema.createdAt t) /\
       (updates = noUpdates -> t' = t) /\
       snd (updateTransaction s' id updates) = Some t') /\
  (forall id', id' <> id -> getTransaction s' id' = getTransaction s id') /\
  map fst (transactions s') = map fst (transactions s).
Proof.
  cbv zeta.
  assert (Hr : updateTransaction s id updates
               = updateTransaction s id updates) by reflexivity.
  unfold updateTransaction at 2 in Hr. unfold getTransaction.
  destruct (JsMap.get (transactions s) id) as [t|] eqn:E;
    cbv zeta in Hr; rewrite !Hr; cbn [fst snd transactions withTransactions].
  - split; [discriminate|]. split; [|split].
    + intros t0 [= <-]. eexists. split; [reflexivity|].
      split; [apply get_set_same|].
      do 13 (split; [reflexivity|]). split.
      * intros ->. destruct t; reflexivity.
      * unfold updateTransaction. cbn [transactions withTransactions].
        rewrite get_set_same. cbn [snd Schema.id Schema.userId Schema.date
          Schema.amount Schema.merchant Schema.category Schema.type
          Schema.description Schema.location Schema.accountId
          Schema.isFraudulent Schema.fraudReason Schema.createdAt].
        rewrite !spread_twice. reflexivity.
    + intros id' N. apply get_set_other, N.
    + apply keys_set_present. rewrite has_get, E. reflexivity.
  - split; [reflexivity|]. split; [discriminate|]. split; reflexivity.
Qed.

(** *** The order of the listing *)

Lemma isTimeValue_int x :
  TimeSpec.isTimeValue x = true -> exists z, (Z.abs z < 2 ^ 53)%Z /\ x = Num.of_Z z.
Proof.
  unfold TimeSpec.isTimeValue. destruct (TimeSpec.toZ x) as [z|]; [|discriminate].
  intros H. apply andb_prop in H. destruct H as [Hz Hs].
  exists z. split; [|apply DatasetFacts.sameb_eq, Hs].
  apply Z.leb_le in Hz. eapply Z.le_lt_trans; [exact Hz|reflexivity].
Qed.

Lemma notOlder_trans a b c : notOlder a b -> notOlder b c -> notOlder a c.
Proof. unfold notOlder. intros H1 H2. eapply NumFacts.leb_trans; eassumption. Qed.

Lemma byDate_pos a b :
  TimeSpec.isTimeValue (Schema.date a) = true ->
  TimeSpec.isTimeValue (Schema.date b) = true ->
  (Schema.date b - Schema.date a >? #0) = true -> notOlder b a.
Proof.
  intros Ha Hb. unfold notOlder.
  destruct (isTimeValue_int _ Ha) as (za & Ba & ->).
  destruct (isTimeValue_int _ Hb) as (zb & Bb & ->).
  rewrite IntFacts.sub_of_Z_pos, IntFacts.leb_of_Z by assumption.
  intros H. apply Z.ltb_lt in H. apply Z.leb_le. lia.
Qed.

Lemma byDate_nonpos a b :
  TimeSpec.isTimeValue (Schema.date a) = true ->
  TimeSpec.isTimeValue (Schema.date b) = true ->
  (Schema.date b - Schema.date a >? #0) = false -> notOlder a b.
Proof.
  intros Ha Hb. unfold notOlder.
  destruct (isTimeValue_int _ Ha) as (za & Ba & ->).
  destruct (isTimeValue_int _ Hb) as (zb & Bb & ->).
  rewrite IntFacts.sub_of_Z_pos, IntFacts.leb_of_Z by assumption.
  intros H. apply Z.ltb_ge in H. apply Z.leb_le. lia.
Qed.

Lemma byDate_sorted (l : list Schema.Transaction) :
  Forall (fun t => TimeSpec.isTimeValue (Schema.date t) = true) l ->
  StronglySorted notOlder
    (Arr.sort (fun a b => Schema.date b - Schema.date a) l).
Proof.
  intros Hd.
  apply (DatasetFacts.sort_sorted _ notOlder
           (fun t => TimeSpec.isTimeValue (Schema.date t) = true)).
  - exact notOlder_trans.
  - intros a b Ha Hb. apply byDate_pos; assumption.
  - intros a b Ha Hb. apply byDate_nonpos; assumption.
  - exact Hd.
Qed.

(** X4: on every store the listing of a user holds the stored
    transactions of that user, each as often as it is stored, and no
    other.  When the dates of the transactions listed are valid time
    values the listing runs from the newest to the oldest. *)
Theorem getTransactionsByUser_newest_first s userId :
  let listing := getTransactionsByUser s userId in
  Permutation listing
    (filter (fun t => String.eqb (Schema.userId t) userId)
            (JsMap.values (transactions s))) /\
  Forall (fun t => Schema.userId t = userId) listing /\
  (Forall (fun t => TimeSpec.isTimeValue (Schema.date t) = true) listing ->
   StronglySorted notOlder listing).
Proof.
  cbv zeta. split; [apply getTransactionsByUser_perm|]. split.
  - apply (Permutation_Forall (x := filter (fun t => String.eqb (Schema.userId t) userId)
                                       (JsMap.values (transactions s)))).
    + symmetry. apply getTransactionsByUser_perm.
    + apply Forall_forall. intros t Ht. apply filter_In in Ht.
      apply String.eqb_eq, Ht.
  - intros Hd. unfold getTransactionsByUser. apply byDate_sorted.
    apply (Permutation_Forall (getTransactionsByUser_perm s userId)), Hd.
Qed.

Lemma getTransactionsByUser_newest_first_witness :
  map Schema.id (getTransactionsByUser threePurchases "u1") = ["id-2"; "id-1"] /\
  StronglySorted notOlder (getTransactionsByUser threePurchases "u1").
Proof.
  split; [vm_compute; reflexivity|].
  apply (getTransactionsByUser_newest_first threePurchases "u1").
  repeat constructor; vm_compute; reflexivity.
Defined.

(** X5: on every store the listing of a date range holds the stored
    transactions of the user dated from [startDate] to [endDate], both
    included, and no other: its members are those of the full listing
    of the user with a date in the range.  When the dates of the
    transactions listed are valid time values the listing runs from the
    newest to the oldest. *)
Theorem getTransactionsByDateRange_in_range s userId startDate endDate :
  let listing := getTransactionsByDateRange s userId startDate endDate in
  Forall (fun t => Schema.userId t = userId /\
                   (startDate <=? Schema.date t) = true /\
                   (Schema.date t <=? endDate) = true) listing /\
  (forall t, In t listing <->
             In t (getTransactionsByUser s userId) /\
             (startDate <=? Schema.date t) = true /\
             (Schema.date t <=? endDate) = true) /\
  Permutation listing
    (filter (fun t => ((startDate <=? Schema.date t)
                       && (Schema.date t <=? endDate))%bool)
            (filter (fun t => String.eqb (Schema.userId t) userId)
                    (JsMap.values (transactions s)))) /\
  (Forall (fun t => TimeSpec.isTimeValue (Schema.date t) = true) listing ->
   StronglySorted notOlder listing).
Proof.
  cbv zeta.
  assert (Hin : forall t,
             In t (getTransactionsByDateRange s userId startDate endDate) <->
             In t (JsMap.values (transactions s)) /\
             Schema.userId t = userId /\
             (startDate <=? Schema.date t) = true /\
             (Schema.date t <=? endDate) = true).
  { intros t. unfold getTransactionsByDateRange. split.
    - intros H. apply (Permutation_in _ (DatasetFacts.sort_perm _ _)) in H.
      apply filter_In in H. destruct H as [H1 H2]. cbv zeta in H2.
      apply andb_prop in H2. destruct H2 as [H2 H4].
      apply andb_prop in H2. destruct H2 as [H2 H3].
      apply String.eqb_eq in H2. tauto.
    - intros (H1 & H2 & H3 & H4).
      apply (Permutation_in _ (Permutation_sym (DatasetFacts.sort_perm _ _))).
      apply filter_In. split; [exact H1|]. cbv zeta.
      rewrite H3, H4. subst userId. rewrite String.eqb_refl. reflexivity. }
  assert (Hperm : Permutation
            (getTransactionsByDateRange s userId startDate endDate)
            (filter (fun t => ((startDate <=? Schema.date t)
                               && (Schema.date t <=? endDate))%bool)
                    (filter (fun t => String.eqb (Schema.userId t) userId)
                            (JsMap.values (transactions s))))).
  { unfold getTransactionsByDateRange.
    eapply Permutation_trans; [apply DatasetFacts.sort_perm|].
    cbv zeta. generalize (JsMap.values (transactions s)). intros l.
    induction l as [|t l IH]; [constructor|]. cbn [filter].
    destruct (String.eqb (Schema.userId t) userId); cbn [andb filter];
      [|exact IH].
    destruct ((startDate <=? Schema.date t) && (Schema.date t <=? endDate))%bool;
      [constructor|]; exact IH. }
  split; [|split; [|split]].
  - apply Forall_forall. intros t Ht. apply Hin in Ht. tauto.
  - intros t. rewrite Hin. split.
    + intros (H1 & H2 & H3 & H4). split; [|tauto].
      eapply Permutation_in; [symmetry; apply getTransactionsByUser_perm|].
      apply filter_In. split; [exact H1|]. subst userId. apply String.eqb_refl.
    + intros (H1 & H3 & H4).
      apply (Permutation_in _ (getTransactionsByUser_perm _ _)) in H1.
      apply filter_In in H1. destruct H1 as [H1 H2]. apply String.eqb_eq in H2. tauto.
  - exact Hperm.
  - intros Hd. unfold getTransactionsByDateRange in Hd |- *.
    apply byDate_sorted.
    eapply Permutation_Forall; [apply DatasetFacts.sort_perm|exact Hd].
Qed.

Lemma getTransactionsByDateRange_in_range_witness :
  map Schema.id
    (getTransactionsByDateRange threePurchases "u1" #1590000000000 #1700000000000)
  = ["id-2"; "id-1"] /\
  map Schema.id
    (getTransactionsByDateRange threePurchases "u1" #1640000000000 #1700000000000)
  = ["id-2"] /\
  StronglySorted notOlder
    (getTransactionsByDateRange threePurchases "u1" #1590000000000 #1700000000000).
Proof.
  split; [vm_compute; reflexivity|]. split; [vm_compute; reflexivity|].
  apply (getTransactionsByDateRange_in_range threePurchases "u1" #1590000000000
           #1700000000000).
  repeat constructor; vm_compute; reflexivity.
Defined.

(** *** Users *)

Lemma find_set_new {V : Type} (p : V -> bool) (m : list (string * V)) k v :
  find p (JsMap.values m) = None -> p v = true ->
  find p (JsMap.values (JsMap.set m k v)) = Some v.
Proof.
  unfold JsMap.values. intros Hn Hv.
  induction m as [|[k' v'] m IH]; cbn [JsMap.set map snd find] in *.
  - rewrite Hv. reflexivity.
  - destruct (p v') eqn:E; [discriminate|].
    destruct (String.eqb k' k); cbn [map snd find].
    + rewrite Hv. reflexivity.
    + rewrite E. apply IH, Hn.
Qed.

(** X6: a created user is read back under the custom id when one is
    given and not empty, else under the new id, with an empty monthly
    income stored as none; every other id reads as before; and the user
    is found by its name when no stored user had that name. *)
Theorem createUser_read_back uuid now s insertUser customId :
  let s' := fst (createUser uuid now s insertUser customId) in
  let user := snd (createUser uuid now s insertUser customId) in
  let id := match customId with Some (String _ _ as c) => c | _ => uuid end in
  getUser s' id = Some user /\
  User.id user = id /\
  User.monthlyIncome user = orNull (InsertUser.monthlyIncome insertUser) /\
  (forall id', id' <> id -> getUser s' id' = getUser s id') /\
  (getUserByUsername s (InsertUser.username insertUser) = None ->
   getUserByUsername s' (InsertUser.username insertUser) = Some user) /\
  transactions s' = transactions s /\
  financialHealth s' = financialHealth s.
Proof.
  cbv zeta. unfold createUser, getUser, getUserByUsername.
  cbn [fst snd users withUsers transactions financialHealth User.id
       User.monthlyIncome].
  split; [apply get_set_same|]. split; [reflexivity|]. split; [reflexivity|].
  split; [intros id' N; apply get_set_other, N|]. split; [|split; reflexivity].
  intros Hn. apply find_set_new; [exact Hn|].
  cbn [User.username]. apply String.eqb_refl.
Qed.

(** *** Budgets and goals *)

(** X7: deleting a budget keeps the record: it is still read under its
    id and listed for its user, now with status "deleted" and the
    deletion date; the keys of the map are as before, and deleting it
    again succeeds again.  An id that is not stored gives [false] and no
    change. *)
Theorem deleteBudget_keeps_record now s id :
  let s' := fst (deleteBudget now s id) in
  snd (deleteBudget now s id) = isSome (getBudget s id) /\
  (getBudget s id = None -> s' = s) /\
  (forall b, getBudget s id = Some b ->
     exists b',
       getBudget s' id = Some b' /\
       Budget.status b' = "deleted" /\ Budget.deletedAt b' = Some now /\
       Budget.userId b' = Budget.userId b /\ Budget.amount b' = Budget.amount b /\
       In b' (getBudgetsByUser s' (Budget.userId b)) /\
       snd (deleteBudget now s' id) = true) /\
  (forall id', id' <> id -> getBudget s' id' = getBudget s id') /\
  map fst (budgets s') = map fst (budgets s).
Proof.
  cbv zeta. unfold deleteBudget, getBudget.
  destruct (JsMap.get (budgets s) id) as [b|] eqn:E;
    cbn [fst snd budgets withBudgets].
  - split; [reflexivity|]. split; [discriminate|]. split; [|split].
    + intros b0 [= <-]. eexists. split; [apply get_set_same|].
      rewrite get_set_same. repeat split.
      unfold getBudgetsByUser. apply filter_In. cbn [budgets withBudgets].
      split; [apply In_values_set|apply String.eqb_refl].
    + intros id' N. apply get_set_other, N.
    + apply keys_set_present. rewrite has_get, E. reflexivity.
  - split; [reflexivity|]. split; [reflexivity|]. split; [discriminate|].
    split; reflexivity.
Qed.

(** X8: deleting a goal keeps the record: it is still read under its id,
    now with status "deleted", and still listed for its user; the keys
    of the map are as before, and deleting it again succeeds again.  An
    id that is not stored gives [false] and no change. *)
Theorem deleteGoal_keeps_record s id :
  let s' := fst (deleteGoal s id) in
  snd (deleteGoal s id) = isSome (getGoal s id) /\
  (getGoal s id = None -> s' = s) /\
  (forall g, getGoal s id = Some g ->
     exists g',
       getGoal s' id = Some g' /\
       Goal.status g' = "deleted" /\
       Goal.userId g' = Goal.userId g /\
       Goal.currentAmount g' = Goal.currentAmount g /\
       In g' (getGoalsByUser s' (Goal.userId g)) /\
       snd (deleteGoal s' id) = true) /\
  (forall id', id' <> id -> getGoal s' id' = getGoal s id') /\
  map fst (goals s') = map fst (goals s).
Proof.
  cbv zeta. unfold deleteGoal, getGoal.
  destruct (JsMap.get (goals s) id) as [g|] eqn:E;
    cbn [fst snd goals withGoals].
  - split; [reflexivity|]. split; [discriminate|]. split; [|split].
    + intros g0 [= <-]. eexists. split; [apply get_set_same|].
      rewrite get_set_same. repeat split.
      unfold getGoalsByUser. apply filter_In. cbn [goals withGoals].
      split; [apply In_values_set|apply String.eqb_refl].
    + intros id' N. apply get_set_other, N.
    + apply keys_set_present. rewrite has_get, E. reflexivity.
  - split; [reflexivity|]. split; [reflexivity|]. split; [discriminate|].
    split; reflexivity.
Qed.

(** *** Financial health records *)

Lemma find_map_same {A : Type} (p : A -> bool) (f : A -> A) (l : list A) :
  (forall x, In x l -> p (f x) = p x) ->
  find p (map f l) = option_map f (find p l).
Proof.
  induction l as [|x l IH]; cbn [map find]; intros H; [reflexivity|].
  rewrite H by (left; reflexivity).
  destruct (p x); [reflexivity|]. apply IH. intros y Hy. apply H. right. exact Hy.
Qed.

Lemma find_none_notin {A : Type} (p : A -> bool) (l : list A) x :
  find p l = None -> In x l -> p x = false.
Proof. intros H Hx. exact (find_none p l H x Hx). Qed.

Lemma NoDup_map_inj {A B : Type} (f : A -> B) (l : list A) x y :
  NoDup (map f l) -> In x l -> In y l -> f x = f y -> x = y.
Proof.
  induction l as [|z l IH]; cbn [map]; intros ND Hx Hy E; [contradiction|].
  apply NoDup_cons_iff in ND. destruct ND as [Hn ND].
  destruct Hx as [->|Hx], Hy as [->|Hy].
  - reflexivity.
  - exfalso. apply Hn. rewrite E. apply in_map, Hy.
  - exfalso. apply Hn. rewrite <- E. apply in_map, Hx.
  - apply IH; assumption.
Qed.

Lemma NoDup_snoc {A : Type} (l : list A) x :
  NoDup l -> ~ In x l -> NoDup (l ++ [x]).
Proof.
  intros H N. apply (Permutation_NoDup (l := x :: l)).
  - apply Permutation_cons_append.
  - constructor; assumption.
Qed.

Lemma find_append {A : Type} (p : A -> bool) (l l' : list A) :
  find p (l ++ l') = match find p l with Some x => Some x | None => find p l' end.
Proof.
  induction l as [|x l IH]; simpl; [reflexivity|].
  destruct (p x); [reflexivity|exact IH].
Qed.

Lemma has_In {V : Type} (m : list (string * V)) k v :
  In (k, v) m -> JsMap.has m k = true.
Proof.
  intros H. unfold JsMap.has. apply existsb_exists.
  exists (k, v). split; [exact H|apply String.eqb_refl].
Qed.

Lemma has_false_notin {V : Type} (m : list (string * V)) k :
  JsMap.has m k = false -> ~ In k (map fst m).
Proof.
  intros H Hin. apply in_map_iff in Hin. destruct Hin as ([k' v] & E & Hin).
  cbn [fst] in E. subst k'. rewrite (has_In m k v Hin) in H. discriminate.
Qed.

(** Replacing, among records with distinct ids, the record [e] by a
    record of the same user. *)
Lemma replace_user l e h x :
  NoDup (map Health.id l) -> In e l -> Health.userId h = Health.userId e ->
  In x l -> Health.userId (HealthSpec.replaceById e h x) = Health.userId x.
Proof.
  intros Hids He Hh Hx. unfold HealthSpec.replaceById.
  destruct (String.eqb (Health.id x) (Health.id e)) eqn:Ex; [|reflexivity].
  apply String.eqb_eq in Ex.
  rewrite (NoDup_map_inj Health.id _ x e Hids Hx He Ex). exact Hh.
Qed.

Lemma replace_find l e h u :
  NoDup (map Health.id l) -> In e l -> Health.userId h = Health.userId e ->
  find (HealthSpec.byUser u) (map (HealthSpec.replaceById e h) l)
  = option_map (HealthSpec.replaceById e h) (find (HealthSpec.byUser u) l).
Proof.
  intros Hids He Hh. apply find_map_same. intros x Hx. unfold HealthSpec.byUser.
  rewrite (replace_user l e h x Hids He Hh Hx). reflexivity.
Qed.

Lemma replace_other l e h y :
  NoDup (map Health.id l) -> In e l -> In y l ->
  Health.userId y <> Health.userId e -> HealthSpec.replaceById e h y = y.
Proof.
  intros Hids He Hy N. unfold HealthSpec.replaceById.
  destruct (String.eqb (Health.id y) (Health.id e)) eqn:Ex; [|reflexivity].
  apply String.eqb_eq in Ex.
  rewrite (NoDup_map_inj Health.id _ y e Hids Hy He Ex) in N.
  contradiction N. reflexivity.
Qed.

(** The two branches of the upsert. *)
Lemma upsert_existing uuid now s health e :
  healthWf s ->
  getFinancialHealth s (HealthInput.userId health) = Some e ->
  let h := HealthSpec.recordOf (Health.id e) now health in
  createOrUpdateFinancialHealth uuid now s health
  = (withFinancialHealth s (JsMap.set (financialHealth s) (Health.id e) h), h) /\
  JsMap.values (JsMap.set (financialHealth s) (Health.id e) h)
  = map (HealthSpec.replaceById e h) (JsMap.values (financialHealth s)) /\
  map fst (JsMap.set (financialHealth s) (Health.id e) h)
  = map fst (financialHealth s) /\
  In e (JsMap.values (financialHealth s)) /\
  NoDup (map Health.id (JsMap.values (financialHealth s))) /\
  Health.userId e = HealthInput.userId health.
Proof.
  intros (Hk & Hkeys & Hu) E. cbv zeta.
  unfold createOrUpdateFinancialHealth. rewrite E.
  unfold getFinancialHealth in E.
  pose proof (find_some _ _ E) as [He Hue]. apply String.eqb_eq in Hue.
  assert (Hhas : JsMap.has (financialHealth s) (Health.id e) = true).
  { unfold JsMap.values in He. apply in_map_iff in He.
    destruct He as ([k v] & Ev & Hin). cbn [snd] in Ev. subst v.
    unfold keyed in Hk. rewrite Forall_forall in Hk.
    pose proof (Hk _ Hin) as Hid. cbn [fst snd] in Hid. rewrite Hid.
    eapply has_In. exact Hin. }
  split; [reflexivity|].
  split; [apply (values_set_present Health.id _ _ _ Hk Hkeys Hhas)|].
  split; [apply keys_set_present, Hhas|]. split; [exact He|].
  split; [rewrite (keyed_ids Health.id _ Hk); exact Hkeys|exact Hue].
Qed.

Lemma upsert_new uuid now s health :
  JsMap.has (financialHealth s) uuid = false ->
  getFinancialHealth s (HealthInput.userId health) = None ->
  let h := HealthSpec.recordOf uuid now health in
  createOrUpdateFinancialHealth uuid now s health
  = (withFinancialHealth s (financialHealth s ++ [(uuid, h)]), h) /\
  forall x, In x (JsMap.values (financialHealth s)) ->
            Health.userId x <> HealthInput.userId health.
Proof.
  intros Hfresh E. cbv zeta. unfold createOrUpdateFinancialHealth. rewrite E.
  rewrite (set_absent _ _ _ Hfresh). split; [reflexivity|].
  intros x Hx Hux. unfold getFinancialHealth in E.
  pose proof (find_none_notin _ _ x E Hx) as Hp. cbn beta in Hp.
  rewrite Hux, String.eqb_refl in Hp. discriminate.
Qed.

(** The upsert keeps the store well formed, and the user reads the
    record returned, which carries the metrics given. *)
Lemma upsert_reads_back uuid now s health :
  healthWf s ->
  JsMap.has (financialHealth s) uuid = false ->
  let s' := fst (createOrUpdateFinancialHealth uuid now s health) in
  let h := snd (createOrUpdateFinancialHealth uuid now s health) in
  healthWf s' /\
  getFinancialHealth s' (HealthInput.userId health) = Some h /\
  metricsOf h = health.
Proof.
  intros Hwf Hfresh. cbv zeta.
  destruct (getFinancialHealth s (HealthInput.userId health)) as [e|] eqn:E.
  - destruct (upsert_existing uuid now s health e Hwf E)
      as (-> & Hv & Hkeys' & He & Hids & Hue).
    destruct Hwf as (Hk & Hkeys & Hu).
    cbn [fst snd]. unfold healthWf, getFinancialHealth.
    cbn [financialHealth withFinancialHealth]. rewrite Hv, Hkeys'.
    split; [split; [|split]|split].
    + apply keyed_set; [exact Hk|reflexivity].
    + exact Hkeys.
    + rewrite map_map. rewrite (map_ext_in _ Health.userId); [exact Hu|].
      intros x Hx.
      apply (replace_user (JsMap.values (financialHealth s)) e); try assumption.
      symmetry. exact Hue.
    + pose proof (replace_find (JsMap.values (financialHealth s)) e
                    (HealthSpec.recordOf (Health.id e) now health)
                    (HealthInput.userId health) Hids He (eq_sym Hue)) as Hf.
      unfold HealthSpec.byUser in Hf. rewrite Hf.
      unfold getFinancialHealth in E. rewrite E. cbn [option_map].
      unfold HealthSpec.replaceById. rewrite String.eqb_refl. reflexivity.
    + destruct health; reflexivity.
  - destruct (upsert_new uuid now s health Hfresh E) as (-> & Hnot).
    destruct Hwf as (Hk & Hkeys & Hu).
    cbn [fst snd]. unfold healthWf, getFinancialHealth.
    cbn [financialHealth withFinancialHealth].
    unfold JsMap.values in *. rewrite !map_app. cbn [map fst snd].
    split; [split; [|split]|split].
    + unfold keyed. apply Forall_app. split; [exact Hk|].
      constructor; [reflexivity|constructor].
    + apply NoDup_snoc; [exact Hkeys|]. apply has_false_notin, Hfresh.
    + apply NoDup_snoc; [exact Hu|].
      intros Hin. apply in_map_iff in Hin. destruct Hin as (x & Ex & Hx).
      apply (Hnot x Hx). exact Ex.
    + rewrite find_append. unfold getFinancialHealth, JsMap.values in E. rewrite E.
      cbn [find HealthSpec.recordOf Health.userId]. rewrite String.eqb_refl.
      reflexivity.
    + destruct health; reflexivity.
Qed.

(** X9: the upsert keeps the health records well formed: stored under
    their ids, one per user. Afterwards the user reads the record
    returned, which carries the metrics given, under the id of the
    record the user had if there was one; the records of the other users
    read as before. *)
Theorem createOrUpdateFinancialHealth_one_per_user uuid now s health :
  healthWf s ->
  JsMap.has (financialHealth s) uuid = false ->
  let s' := fst (createOrUpdateFinancialHealth uuid now s health) in
  let h := snd (createOrUpdateFinancialHealth uuid now s health) in
  healthWf s' /\
  getFinancialHealth s' (HealthInput.userId health) = Some h /\
  metricsOf h = health /\
  Health.id h
  = match getFinancialHealth s (HealthInput.userId health) with
    | Some existing => Health.id existing
    | None => uuid
    end /\
  (forall u, u <> HealthInput.userId health ->
             getFinancialHealth s' u = getFinancialHealth s u).
Proof.
  intros Hwf Hfresh. cbv zeta.
  destruct (upsert_reads_back uuid now s health Hwf Hfresh) as (H1 & H2 & H3).
  split; [exact H1|]. split; [exact H2|]. split; [exact H3|].
  destruct (getFinancialHealth s (HealthInput.userId health)) as [e|] eqn:E.
  - destruct (upsert_existing uuid now s health e Hwf E)
      as (-> & Hv & _ & He & Hids & Hue).
    cbn [fst snd]. split; [reflexivity|]. intros u Nu.
    unfold getFinancialHealth. cbn [financialHealth withFinancialHealth].
    rewrite Hv.
    pose proof (replace_find (JsMap.values (financialHealth s)) e
                  (HealthSpec.recordOf (Health.id e) now health) u
                  Hids He (eq_sym Hue)) as Hf.
    unfold HealthSpec.byUser in Hf. rewrite Hf.
    destruct (find (fun fh => String.eqb (Health.userId fh) u)
                   (JsMap.values (financialHealth s))) as [y|] eqn:Ey;
      [|reflexivity].
    cbn [option_map]. f_equal.
    pose proof (find_some _ _ Ey) as [Hy Huy]. apply String.eqb_eq in Huy.
    apply (replace_other (JsMap.values (financialHealth s)) e _ y Hids He Hy).
    congruence.
  - destruct (upsert_new uuid now s health Hfresh E) as (-> & _).
    cbn [fst snd]. split; [reflexivity|]. intros u Nu.
    unfold getFinancialHealth. cbn [financialHealth withFinancialHealth].
    unfold JsMap.values. rewrite map_app, find_append.
    destruct (find (fun fh => String.eqb (Health.userId fh) u)
                   (map snd (financialHealth s))); [reflexivity|].
    cbn [map snd find HealthSpec.recordOf Health.userId].
    apply String.eqb_neq in Nu. rewrite String.eqb_sym, Nu. reflexivity.
Qed.

Lemma createOrUpdateFinancialHealth_one_per_user_witness :
  let r := createOrUpdateFinancialHealth "h-c" #1700000360000 twoRecords
             (metrics "u1" #72) in
  healthWf (fst r) /\
  getFinancialHealth (fst r) "u1" = Some (snd r) /\
  Health.id (snd r) = "h-a" /\
  Health.score (snd r) = #72 /\
  getFinancialHealth (fst r) "u2" = getFinancialHealth twoRecords "u2" /\
  map fst (financialHealth (fst r)) = ["h-a"; "h-b"].
Proof.
  cbv zeta.
  destruct (createOrUpdateFinancialHealth_one_per_user "h-c" #1700000360000
              twoRecords (metrics "u1" #72))
    as (Hwf & Hget & Hm & Hid & Hother).
  - unfold healthWf, keyed. vm_compute. split; [|split].
    + repeat constructor.
    + repeat (constructor; [simpl; intuition discriminate|]). constructor.
    + repeat (constructor; [simpl; intuition discriminate|]). constructor.
  - vm_compute. reflexivity.
  - split; [exact Hwf|]. split; [exact Hget|]. split; [|split; [|split]].
    + rewrite Hid. reflexivity.
    + apply (f_equal HealthInput.score) in Hm. exact Hm.
    + apply Hother. discriminate.
    + vm_compute. reflexivity.
Defined.

Lemma createOrUpdateFinancialHealth_frame uuid now s health :
  transactions (fst (createOrUpdateFinancialHealth uuid now s health))
  = transactions s /\
  users (fst (createOrUpdateFinancialHealth uuid now s health)) = users s.
Proof.
  unfold createOrUpdateFinancialHealth.
  destruct (getFinancialHealth s (HealthInput.userId health)); split; reflexivity.
Qed.

End StorageFacts.
(** ** The transaction route *)

Module RouteFacts.
Import Storage StorageSpec MapFacts StorageFacts Routes RouteSpec.

(** The candidate the route checks differs from the request in its
    category and its flag, which the rule engine does not read. *)
Lemma check_on_request now data transactionData h :
  InsertTransaction.amount transactionData = InsertTransaction.amount data ->
  InsertTransaction.merchant transactionData = InsertTransaction.merchant data ->
  FraudDetection.detectFraud now (asCandidate transactionData) h
  = FraudDetection.detectFraud now (asCandidate data) h.
Proof.
  intros Ha Hm.
  unfold FraudDetection.detectFraud, FraudDetection.risks, FraudDetection.fires1,
    FraudDetection.fires2, FraudDetection.fires5, FraudDetection.fires6,
    FraudDetection.merchantFrequency, FraudDetection.duplicates.
  cbn [asCandidate Schema.amount Schema.merchant]. rewrite Ha, Hm. reflexivity.
Qed.

Section Environment.
Variable parseFloat : string -> Num.number.
Variable now : Num.number.
Variable threeMonthsAgo : Num.number.
Variable userUuid : string.
Variable transactionUuid : string.
Variable healthUuid : string.

Lemma ensureUser_frame s userId :
  transactions (ensureUser now userUuid s userId) = transactions s /\
  financialHealth (ensureUser now userUuid s userId) = financialHealth s /\
  budgets (ensureUser now userUuid s userId) = budgets s /\
  goals (ensureUser now userUuid s userId) = goals s.
Proof.
  unfold ensureUser. destruct (getUser s userId); repeat split; reflexivity.
Qed.

Lemma getTransactionsByUser_transactions s s' userId :
  transactions s = transactions s' ->
  getTransactionsByUser s userId = getTransactionsByUser s' userId.
Proof. unfold getTransactionsByUser. intros ->. reflexivity. Qed.

(** After [ensureUser] a user with a non-empty id exists, and a user that
    existed is the one it was. *)
Lemma ensureUser_exists s userId :
  userId <> "" ->
  exists user,
    getUser (ensureUser now userUuid s userId) userId = Some user /\
    (forall u, getUser s userId = Some u -> user = u) /\
    (getUser s userId = None -> User.monthlyIncome user = None).
Proof.
  intros N. unfold ensureUser.
  destruct (getUser s userId) as [u|] eqn:E.
  - exists u. rewrite E. split; [reflexivity|]. split; [congruence|discriminate].
  - destruct userId as [|c r]; [contradiction N; reflexivity|].
    eexists. unfold createUser, getUser. cbn [fst users withUsers].
    split; [apply get_set_same|]. split; [discriminate|reflexivity].
Qed.

Lemma recalculateHealth_frame s userId :
  transactions (recalculateHealth parseFloat now threeMonthsAgo healthUuid s userId)
  = transactions s /\
  users (recalculateHealth parseFloat now threeMonthsAgo healthUuid s userId)
  = users s.
Proof.
  unfold recalculateHealth. destruct (getUser s userId); [|split; reflexivity].
  split; apply createOrUpdateFinancialHealth_frame.
Qed.

(** The reason of a fraudulent verdict is one of the rule texts, none of
    which is empty. *)
Lemma detectFraud_reason_kept t h :
  orNull (FraudDetection.reason (FraudDetection.detectFraud now t h))
  = FraudDetection.reason (FraudDetection.detectFraud now t h).
Proof. FraudFacts.all_rule_cases; vm_compute; reflexivity. Qed.

Lemma orNull_idem a : orNull (orNull a) = orNull a.
Proof. destruct a as [[|c r]|]; reflexivity. Qed.

(** X10: [POST /api/transactions] checks the candidate against the
    listing of its user before the request, and stores it under the new
    id, where it is read back and listed: flagged when the request flags
    it or the check does, with the reason of the check when the check
    flags it, and with the category of the request unless that is empty
    or "Other", in which case the categorizer chooses. *)
Theorem postTransaction_stores_verdict s data :
  let s' := fst (postTransaction parseFloat now threeMonthsAgo userUuid
                transactionUuid healthUuid s data) in
  let t := fst (snd (postTransaction parseFloat now threeMonthsAgo userUuid
                transactionUuid healthUuid s data)) in
  let fraudCheck := snd (snd (postTransaction parseFloat now threeMonthsAgo userUuid
                transactionUuid healthUuid s data)) in
  let u := InsertTransaction.userId data in
  fraudCheck
  = FraudDetection.detectFraud now (asCandidate data) (getTransactionsByUser s u) /\
  getTransaction s' transactionUuid = Some t /\
  In t (getTransactionsByUser s' u) /\
  Schema.isFraudulent t
  = (flagOf data || FraudDetection.isFraudulent fraudCheck)%bool /\
  Schema.fraudReason t
  = (if FraudDetection.isFraudulent fraudCheck
     then FraudDetection.reason fraudCheck
     else orNull (InsertTransaction.fraudReason data)) /\
  Schema.category t = categoryOf data /\
  Schema.amount t = InsertTransaction.amount data /\
  Schema.merchant t = InsertTransaction.merchant data /\
  Schema.userId t = u.
Proof.
  cbv zeta.
  assert (Hfc : snd (snd (postTransaction parseFloat now threeMonthsAgo userUuid
                transactionUuid healthUuid s data))
                = FraudDetection.detectFraud now (asCandidate data)
                    (getTransactionsByUser s (InsertTransaction.userId data))).
  { cbv beta iota zeta delta [postTransaction createTransaction fst snd].
    rewrite (getTransactionsByUser_transactions _ s)
      by apply ensureUser_frame.
    apply check_on_request; reflexivity. }
  split; [exact Hfc|]. rewrite Hfc.
  set (fc := FraudDetection.detectFraud now (asCandidate data)
               (getTransactionsByUser s (InsertTransaction.userId data))) in *.
  assert (Ht : exists t,
             fst (snd (postTransaction parseFloat now threeMonthsAgo userUuid
                transactionUuid healthUuid s data)) = t /\
             getTransaction (fst (postTransaction parseFloat now threeMonthsAgo userUuid
                transactionUuid healthUuid s data)) transactionUuid = Some t /\
             In t (getTransactionsByUser (fst (postTransaction parseFloat now threeMonthsAgo userUuid
                transactionUuid healthUuid s data))
                     (InsertTransaction.userId data)) /\
             Schema.isFraudulent t
             = (flagOf data || FraudDetection.isFraudulent fc)%bool /\
             Schema.fraudReason t
             = (if FraudDetection.isFraudulent fc
                then orNull (FraudDetection.reason fc)
                else orNull (InsertTransaction.fraudReason data)) /\
             Schema.category t = categoryOf data /\
             Schema.amount t = InsertTransaction.amount data /\
             Schema.merchant t = InsertTransaction.merchant data /\
             Schema.userId t = InsertTransaction.userId data).
  { revert Hfc.
    cbv beta iota zeta delta [postTransaction createTransaction fst snd].
    intros Hfc. rewrite Hfc. eexists. split; [reflexivity|].
    split; [|split].
    - unfold getTransaction.
      rewrite (proj1 (recalculateHealth_frame _ _)).
      cbn [transactions withTransactions]. apply get_set_same.
    - eapply Permutation_in; [symmetry; apply getTransactionsByUser_perm|].
      rewrite (proj1 (recalculateHealth_frame _ _)).
      cbn [transactions withTransactions]. apply filter_In.
      split; [apply In_values_set|].
      destruct (FraudDetection.isFraudulent fc); apply String.eqb_refl.
    - clear Hfc. unfold flagOf, categoryOf.
      destruct (FraudDetection.isFraudulent fc);
        destruct (InsertTransaction.isFraudulent data) as [[|]|];
        cbn [Schema.isFraudulent Schema.fraudReason Schema.category Schema.amount
             Schema.merchant Schema.userId InsertTransaction.isFraudulent
             InsertTransaction.fraudReason InsertTransaction.category
             InsertTransaction.amount InsertTransaction.merchant
             InsertTransaction.userId orb];
        rewrite ?orNull_idem; repeat split; reflexivity. }
  destruct Ht as (t & -> & H1 & H2 & H3 & H4 & H5).
  split; [exact H1|]. split; [exact H2|]. split; [exact H3|].
  split; [|exact H5].
  rewrite H4. unfold fc. rewrite detectFraud_reason_kept. reflexivity.
Qed.

Lemma neutral_without_income txs :
  FinancialHealth.calculateFinancialHealth threeMonthsAgo txs (Some #0)
  = FinancialHealth.neutral.
Proof.
  unfold FinancialHealth.calculateFinancialHealth.
  change (#0 === #0) with true. rewrite orb_true_r. reflexivity.
Qed.

(** X11: after [POST /api/transactions] for a user id that is not empty
    the user exists, unchanged if it existed, and has one health record:
    the score computed from the listing that includes the new
    transaction and from the monthly income of the user. For a user the
    request created that record is the neutral one. *)
Theorem postTransaction_recomputes_health s data :
  InsertTransaction.userId data <> "" ->
  healthWf s ->
  JsMap.has (financialHealth s) healthUuid = false ->
  let s' := fst (postTransaction parseFloat now threeMonthsAgo userUuid
                transactionUuid healthUuid s data) in
  let u := InsertTransaction.userId data in
  exists user h,
    getUser s' u = Some user /\
    (forall u0, getUser s u = Some u0 -> user = u0) /\
    getFinancialHealth s' u = Some h /\
    metricsOf h
    = withUserId u
        (FinancialHealth.calculateFinancialHealth threeMonthsAgo
           (getTransactionsByUser s' u) (Some (incomeOf parseFloat user))) /\
    healthWf s' /\
    (getUser s u = None -> parseFloat "0" = #0 ->
     metricsOf h = withUserId u FinancialHealth.neutral).
Proof.
  intros Nu Hwf Hfresh. cbv zeta.
  destruct (ensureUser_exists s _ Nu) as (user & Hget & Hsame & Hnew).
  exists user.
  cbv beta iota zeta delta [postTransaction createTransaction fst snd].
  match goal with
  | |- context [recalculateHealth _ _ _ _ ?x _] => set (s2 := x)
  end.
  assert (Hu2 : getUser s2 (InsertTransaction.userId data) = Some user) by exact Hget.
  assert (Hh2 : financialHealth s2 = financialHealth s)
    by (unfold s2; cbn [financialHealth withTransactions]; apply ensureUser_frame).
  assert (Hwf2 : healthWf s2) by (unfold healthWf; rewrite Hh2; exact Hwf).
  assert (Hfresh2 : JsMap.has (financialHealth s2) healthUuid = false)
    by (rewrite Hh2; exact Hfresh).
  unfold recalculateHealth. rewrite Hu2.
  match goal with
  | |- context [createOrUpdateFinancialHealth _ _ _ ?x] => set (input := x)
  end.
  destruct (upsert_reads_back healthUuid now s2 input Hwf2 Hfresh2)
    as (Hwf' & Hread & Hmet).
  destruct (createOrUpdateFinancialHealth_frame healthUuid now s2 input)
    as [Htx Husers].
  eexists. split; [|split; [exact Hsame|split; [exact Hread|split; [|split]]]].
  - unfold getUser. rewrite Husers. exact Hu2.
  - rewrite Hmet. unfold input, incomeOf.
    rewrite (getTransactionsByUser_transactions _ s2 _ Htx). reflexivity.
  - exact Hwf'.
  - intros Hnone H0. rewrite Hmet. unfold input.
    rewrite (Hnew Hnone), H0, neutral_without_income. reflexivity.
Qed.

End Environment.

Lemma postTransaction_recomputes_health_witness :
  let s' := fst (postTransaction CsvSpec.readInt #1700000000000 #1692000000000
                   "u-9" "t-3" "h-c" household
                   (purchase "u1" #500 #1699000000000)) in
  exists user h,
    getUser s' "u1" = Some user /\
    getUser household "u1" = Some user /\
    User.monthlyIncome user = Some "3000" /\
    getFinancialHealth s' "u1" = Some h /\
    Health.id h = "h-a" /\
    Health.score h = #56 /\
    Health.liquidity h = #38 /\
    getFinancialHealth household "u1"
    = Some (snd (createOrUpdateFinancialHealth "h-a" #1700000000000 empty
                   (metrics "u1" #50))) /\
    map Schema.id (getTransactionsByUser s' "u1") = ["t-3"; "t-2"; "t-1"] /\
    getFinancialHealth s' "u2" = getFinancialHealth household "u2" /\
    healthWf s'.
Proof.
  cbv zeta.
  destruct (postTransaction_recomputes_health CsvSpec.readInt #1700000000000
              #1692000000000 "u-9" "t-3" "h-c" household
              (purchase "u1" #500 #1699000000000))
    as (user & h & Hu & Hsame & Hh & Hm & Hwf & _).
  - discriminate.
  - unfold healthWf, keyed. vm_compute. split; [|split].
    + repeat constructor.
    + repeat (constructor; [simpl; intuition discriminate|]). constructor.
    + repeat (constructor; [simpl; intuition discriminate|]). constructor.
  - vm_compute. reflexivity.
  - cbv zeta in Hu, Hh, Hm, Hwf.
    assert (Eu : getUser household "u1" = Some user).
    { destruct (getUser household "u1") as [u0|] eqn:E0; [|discriminate E0].
      rewrite (Hsame u0 E0). reflexivity. }
    assert (Ei : User.monthlyIncome user = Some "3000").
    { vm_compute in Eu. injection Eu as <-. reflexivity. }
    exists user, h.
    split; [exact Hu|]. split; [exact Eu|]. split; [exact Ei|].
    split; [exact Hh|].
    assert (Em : metricsOf h
                 = withUserId "u1"
                     (FinancialHealth.calculateFinancialHealth #1692000000000
                        (getTransactionsByUser
                           (fst (postTransaction CsvSpec.readInt #1700000000000
                                   #1692000000000 "u-9" "t-3" "h-c" household
                                   (purchase "u1" #500 #1699000000000))) "u1")
                        (Some #3000))).
    { rewrite Hm. unfold incomeOf. rewrite Ei. reflexivity. }
    split.
    { clear - Hh. vm_compute in Hh. injection Hh as <-.
      reflexivity. }
    split.
    { apply (f_equal HealthInput.score) in Em.
      cbn [metricsOf HealthInput.score] in Em. rewrite Em.
      vm_compute. reflexivity. }
    split.
    { apply (f_equal HealthInput.liquidity) in Em.
      cbn [metricsOf HealthInput.liquidity] in Em. rewrite Em.
      vm_compute. reflexivity. }
    split; [vm_compute; reflexivity|].
    split; [vm_compute; reflexivity|].
    split; [vm_compute; reflexivity|].
    exact Hwf.
Defined.

End RouteFacts.
(** ** Receipt analysis *)

Module VisionFacts.
Import VisionAnalysis VisionSpec.

Lemma indexOf_range item l : (-1 <= indexOf item l < Z.of_nat (List.length l))%Z.
Proof.
  induction l as [|x l IH]; cbn [indexOf List.length]; [lia|].
  destruct (String.eqb x item); [lia|].
  destruct (Z.ltb_spec (indexOf item l) 0); lia.
Qed.

Lemma indexOf_absent item l : ~ In item l -> indexOf item l = (-1)%Z.
Proof.
  induction l as [|x l IH]; cbn [indexOf In]; intros H; [reflexivity|].
  destruct (String.eqb x item) eqn:E.
  - apply String.eqb_eq in E. contradiction H. left. exact E.
  - rewrite IH by tauto. reflexivity.
Qed.

Lemma indexOf_present item l : In item l -> (0 <= indexOf item l)%Z.
Proof.
  induction l as [|x l IH]; cbn [indexOf In]; intros H; [contradiction|].
  destruct (String.eqb x item) eqn:E; [lia|].
  destruct H as [->|H]; [rewrite String.eqb_refl in E; discriminate|].
  specialize (IH H). destruct (Z.ltb_spec (indexOf item l) 0); lia.
Qed.

(** The index of an item in [pre ++ item :: suf] is the length of [pre]
    exactly when [pre] does not hold it. *)
Lemma indexOf_at pre item suf :
  (indexOf item (pre ++ item :: suf) =? Z.of_nat (List.length pre))%Z
  = negb (existsb (String.eqb item) pre).
Proof.
  induction pre as [|x pre IH]; cbn [List.app indexOf List.length existsb].
  - rewrite String.eqb_refl. reflexivity.
  - rewrite (String.eqb_sym item x). destruct (String.eqb x item) eqn:E; cbn [orb negb].
    + apply Z.eqb_neq. lia.
    + rewrite <- IH.
      pose proof (indexOf_present item (pre ++ item :: suf)) as Hp.
      assert (0 <= indexOf item (pre ++ item :: suf))%Z
        by (apply Hp, in_or_app; right; left; reflexivity).
      destruct (Z.ltb_spec (indexOf item (pre ++ item :: suf)) 0); [lia|].
      destruct (Z.eqb_spec (indexOf item (pre ++ item :: suf))
                           (Z.of_nat (List.length pre)));
        destruct (Z.eqb_spec (indexOf item (pre ++ item :: suf) + 1)
                             (Z.of_nat (S (List.length pre)))); try reflexivity; lia.
Qed.

(** What the filter keeps of [suf], the part of [l] after [pre]: the
    items that occur neither in [pre] nor earlier in [suf]. *)
Lemma filterFrom_spec l pre suf :
  l = pre ++ suf ->
  let kept :=
    filterFrom (fun item index => (indexOf item l =? index)%Z)
               (Z.of_nat (List.length pre)) suf in
  NoDup kept /\ (forall x, In x kept <-> In x suf /\ ~ In x pre).
Proof.
  cbv zeta. set (f := fun item index => (indexOf item l =? index)%Z).
  revert pre. induction suf as [|y suf IH]; intros pre E; cbn [filterFrom].
  - split; [constructor|]. intros x. cbn [In]. tauto.
  - assert (E' : l = (pre ++ [y]) ++ suf) by (rewrite <- app_assoc; exact E).
    specialize (IH (pre ++ [y]) E').
    rewrite length_app in IH. cbn [List.length] in IH.
    replace (Z.of_nat (List.length pre + 1)) with (Z.of_nat (List.length pre) + 1)%Z
      in IH by lia.
    destruct IH as [ND HIn].
    assert (Hf : f y (Z.of_nat (List.length pre))
                 = negb (existsb (String.eqb y) pre))
      by (unfold f; rewrite E; apply indexOf_at).
    rewrite Hf.
    destruct (existsb (String.eqb y) pre) eqn:Ex; cbn [negb].
    + apply existsb_exists in Ex. destruct Ex as (z & Hz & Ez).
      apply String.eqb_eq in Ez. subst z.
      split; [exact ND|]. intros x. rewrite HIn. cbn [In]. rewrite in_app_iff.
      cbn [In]. split.
      * intros [H1 H2]. split; [right; exact H1|tauto].
      * intros [[->|H1] H2]; [contradiction|]. split; [exact H1|].
        intros [H|[->|[]]]; contradiction.
    + assert (Hy : ~ In y pre).
      { intros H.
        assert (X : existsb (String.eqb y) pre = true)
          by (apply existsb_exists; exists y; split; [exact H|apply String.eqb_refl]).
        rewrite X in Ex. discriminate. }
      split.
      * constructor; [|exact ND]. rewrite HIn. rewrite in_app_iff. cbn [In]. tauto.
      * intros x. cbn [In]. rewrite HIn, in_app_iff. cbn [In].
        destruct (string_dec y x) as [->|N]; [tauto|]. tauto.
Qed.

Lemma detect_collect receiptData :
  NoDup (detectFraudIndicatorsFromReceipt receiptData) /\
  (forall x, In x (detectFraudIndicatorsFromReceipt receiptData)
             <-> In x (collectIndicators receiptData)) /\
  hd_error (detectFraudIndicatorsFromReceipt receiptData)
  = hd_error (collectIndicators receiptData).
Proof.
  unfold detectFraudIndicatorsFromReceipt.
  destruct (filterFrom_spec (collectIndicators receiptData) []
              (collectIndicators receiptData) eq_refl) as [ND HIn].
  cbn [List.length Z.of_nat] in ND, HIn.
  split; [exact ND|]. split.
  - intros x. rewrite HIn. cbn [In]. tauto.
  - destruct (collectIndicators receiptData) as [|y l]; [reflexivity|].
    cbn [filterFrom indexOf]. rewrite String.eqb_refl. reflexivity.
Qed.

(** X12: the indicators returned are those collected, each once, and the
    first one, which the route stores as the reason, is the first one
    collected.  So an indicator the model reported that a keyword rule
    gives too is listed once, as for a receipt whose text holds
    "duplicate". *)
Theorem detectFraudIndicatorsFromReceipt_distinct receiptData :
  let indicators := detectFraudIndicatorsFromReceipt receiptData in
  NoDup indicators /\
  (forall x, In x indicators <-> In x (collectIndicators receiptData)) /\
  hd_error indicators = hd_error (collectIndicators receiptData) /\
  detectFraudIndicatorsFromReceipt
    (receipt #10 "Retry of a duplicate" ["Possible duplicate transaction"; "Odd"])
  = ["Possible duplicate transaction"; "Odd"].
Proof.
  cbv zeta. destruct (detect_collect receiptData) as (H1 & H2 & H3).
  split; [exact H1|]. split; [exact H2|]. split; [exact H3|].
  vm_compute. reflexivity.
Qed.

Lemma collect_flags receiptData :
  match hd_error (collectIndicators receiptData) with
  | Some first =>
      ((amount receiptData >? #500000) || keywordHit receiptData
       || reported receiptData)%bool = true /\
      ((amount receiptData >? #500000) = true ->
       first = "Unusually high transaction amount")
  | None =>
      ((amount receiptData >? #500000) || keywordHit receiptData
       || reported receiptData)%bool = false
  end.
Proof.
  unfold collectIndicators, keywordHit, reported.
  generalize (amount receiptData >? #500000). intros a.
  destruct (fraudIndicators receiptData) as [[|d ds]|];
    (destruct (extractedText receiptData) as [[|c text]|];
     [| cbn [existsb];
        generalize (Str.includes (Str.toLowerCase (String c text)) "duplicate"),
                   (Str.includes (Str.toLowerCase (String c text)) "retry"),
                   (Str.includes (Str.toLowerCase (String c text)) "unauthorized"),
                   (Str.includes (Str.toLowerCase (String c text)) "failed"),
                   (Str.includes (Str.toLowerCase (String c text)) "test"),
                   (Str.includes (Str.toLowerCase (String c text)) "demo");
        intros [|] [|] [|] [|] [|] [|] |]);
    destruct a; cbn; try reflexivity; (split; [reflexivity|]);
    first [reflexivity | discriminate | intros _; reflexivity].
Qed.

(** X13: a receipt gets an indicator exactly when its amount is above
    500000, one of the six keywords occurs in its text, or the model
    reported an indicator; with an amount above 500000 the first
    indicator, which the route stores as the reason, is the one of the
    amount. *)
Theorem detectFraudIndicatorsFromReceipt_flags receiptData :
  Nat.ltb 0 (List.length (detectFraudIndicatorsFromReceipt receiptData))
  = ((amount receiptData >? #500000) || keywordHit receiptData
     || reported receiptData)%bool /\
  ((amount receiptData >? #500000) = true ->
   hd_error (detectFraudIndicatorsFromReceipt receiptData)
   = Some "Unusually high transaction amount").
Proof.
  destruct (detect_collect receiptData) as (_ & _ & Hhd).
  pose proof (collect_flags receiptData) as Hc. rewrite <- Hhd in Hc.
  destruct (detectFraudIndicatorsFromReceipt receiptData) as [|x l];
    cbn [hd_error List.length Nat.ltb Nat.leb] in *.
  - split; [symmetry; exact Hc|]. intros Ha. rewrite Ha in Hc. discriminate.
  - destruct Hc as [H1 H2]. split; [symmetry; exact H1|].
    intros Ha. rewrite (H2 Ha). reflexivity.
Qed.

Lemma detectFraudIndicatorsFromReceipt_flags_witness :
  hd_error (detectFraudIndicatorsFromReceipt
              (receipt #500001 "This is a test" ["Odd"]))
  = Some "Unusually high transaction amount".
Proof.
  apply (detectFraudIndicatorsFromReceipt_flags
           (receipt #500001 "This is a test" ["Odd"])).
  vm_compute. reflexivity.
Defined.

(** X14: without an API key, and when the call of the model fails, the
    analysis is the fallback one: not fraudulent, risk 0, amount 0; it
    gets no indicator and does not pass the test of the route for
    storing a transaction. *)
Theorem analyzeReceiptWithVision_fallback today callGeminiVision imageBase64 apiKey :
  (apiKey = None \/ apiKey = Some "" \/
   exists key, apiKey = Some key /\ callGeminiVision imageBase64 key = None) ->
  let result := analyzeReceiptWithVision today callGeminiVision imageBase64 apiKey in
  result = fallbackReceiptAnalysis today imageBase64 /\
  isFraudulent result = false /\
  riskScore result = #0 /\
  amount (receiptData result) = #0 /\
  detectFraudIndicatorsFromReceipt (receiptData result) = [] /\
  isValidOCR (receiptData result) = false.
Proof.
  intros H. cbv zeta.
  assert (E : analyzeReceiptWithVision today callGeminiVision imageBase64 apiKey
              = fallbackReceiptAnalysis today imageBase64).
  { unfold analyzeReceiptWithVision.
    destruct H as [->|[->|(key & -> & Hc)]]; try reflexivity.
    destruct key; [reflexivity|]. rewrite Hc. reflexivity. }
  rewrite E. split; [reflexivity|]. split; [reflexivity|]. split; [reflexivity|].
  split; [reflexivity|]. split; vm_compute; reflexivity.
Qed.

Lemma analyzeReceiptWithVision_fallback_witness :
  detectFraudIndicatorsFromReceipt
    (receiptData (analyzeReceiptWithVision "2024-11-24" (fun _ _ => None)
                    "aGVsbG8=" (Some "key")))
  = [].
Proof.
  apply (analyzeReceiptWithVision_fallback "2024-11-24" (fun _ _ => None)
           "aGVsbG8=" (Some "key")).
  right. right. exists "key". split; reflexivity.
Defined.

End VisionFacts.
(** ** Dataset statistics *)

Module ProcessorFacts.
Import DatasetInitialization DatasetProcessor ProcessorSpec DatasetSpec.

(** *** The counting object *)

Lemma keys_addTo k n obj k' :
  In k' (map fst (addTo k n obj)) <-> k' = k \/ In k' (map fst obj).
Proof.
  induction obj as [|[k0 v] obj IH]; cbn [addTo map fst In].
  - intuition congruence.
  - destruct (String.eqb_spec k0 k) as [->|Hne]; cbn [map fst In].
    + intuition congruence.
    + rewrite IH. intuition congruence.
Qed.

Lemma NoDup_addTo k n obj : NoDup (map fst obj) -> NoDup (map fst (addTo k n obj)).
Proof.
  induction obj as [|[k0 v] obj IH]; cbn [addTo map fst]; intros H.
  - repeat constructor. intros [].
  - apply NoDup_cons_iff in H. destruct H as [Hnotin Hnd].
    destruct (String.eqb_spec k0 k) as [->|Hne]; cbn [map fst].
    + constructor; assumption.
    + constructor; [|apply IH; assumption].
      intros Hin. apply keys_addTo in Hin. destruct Hin as [->|Hin]; auto.
Qed.

Lemma sumValues_addTo k n obj : sumValues (addTo k n obj) = (sumValues obj + n)%nat.
Proof.
  unfold sumValues. induction obj as [|[k0 v] obj IH]; cbn [addTo fold_right snd].
  - lia.
  - destruct (String.eqb k0 k); cbn [fold_right snd]; [lia|].
    rewrite IH. lia.
Qed.

(** *** The category of a row *)

Lemma estimateCategory_in_names record : In (estimateCategory record) categoryNames.
Proof.
  unfold estimateCategory.
  generalize (Str.toLowerCase
                (template (orElse (orElse (Merchant record) (MerchantID record))
                                  (Some "")))).
  generalize (Str.toLowerCase (template (orElse (ProductCD record) (Some "")))).
  intros p m.
  repeat (FraudFacts.keyword_step; try (simpl; tauto)).
Qed.

(** *** The loop over the rows *)

Section Rows.
Variable parseFloat : string -> Num.number.
Variable getHours : string -> Num.number.

Lemma tally_fold rows acc :
  let acc' := fold_left (step parseFloat getHours) rows acc in
  seen acc' = (seen acc + List.length rows)%nat /\
  frauds acc' = (frauds acc + List.length (filter isFraudRow rows))%nat /\
  amounts acc' = amounts acc ++ map (amountOf parseFloat) rows /\
  merchantData acc' = bumpAll (merchantEvents rows) (merchantData acc) /\
  sumValues (categories acc') = (sumValues (categories acc) + List.length rows)%nat /\
  (NoDup (map fst (categories acc)) -> NoDup (map fst (categories acc'))) /\
  (forall k, In k (map fst (categories acc')) ->
             In k (map fst (categories acc)) \/ In k categoryNames).
Proof.
  cbv zeta. revert acc. induction rows as [|r rows IH]; intros acc;
    cbn [fold_left List.length filter map].
  - rewrite app_nil_r, !Nat.add_0_r. repeat split; auto.
  - destruct (IH (step parseFloat getHours acc r)) as (H1 & H2 & H3 & H4 & H5 & H6 & H7).
    rewrite H1, H2, H3, H4, H5.
    cbn [step seen frauds amounts merchantData categories].
    rewrite sumValues_addTo, <- app_assoc.
    split; [lia|]. split.
    { destruct (isFraudRow r); cbn [List.length]; lia. }
    split; [reflexivity|]. split; [reflexivity|]. split; [lia|]. split.
    + intros Hnd. apply H6. cbn [step categories]. apply NoDup_addTo, Hnd.
    + intros k Hk. destruct (H7 k Hk) as [Hin|Hin]; [|right; exact Hin].
      cbn [step categories] in Hin. apply keys_addTo in Hin.
      destruct Hin as [->|Hin]; [right; apply estimateCategory_in_names|left; exact Hin].
Qed.

Lemma tally_spec rows :
  let acc := tally parseFloat getHours rows in
  seen acc = List.length rows /\
  frauds acc = List.length (filter isFraudRow rows) /\
  amounts acc = map (amountOf parseFloat) rows /\
  merchantData acc = bumpAll (merchantEvents rows) [] /\
  sumValues (categories acc) = List.length rows /\
  NoDup (map fst (categories acc)) /\
  incl (map fst (categories acc)) categoryNames.
Proof.
  cbv zeta. unfold tally.
  destruct (tally_fold rows
              {| seen := 0; frauds := 0; merchantData := []; amounts := [];
                 patterns := []; categories := [] |})
    as (H1 & H2 & H3 & H4 & H5 & H6 & H7).
  cbn [seen frauds amounts merchantData categories sumValues fold_right map
       List.app] in *.
  repeat split; try assumption.
  - apply H6. constructor.
  - intros k Hk. destruct (H7 k Hk) as [[]|H]. exact H.
Qed.

Lemma occurrences_merchantEvents b k rows :
  occurrences b k (merchantEvents rows) = rowsOf k b rows.
Proof.
  unfold occurrences, rowsOf, merchantEvents.
  induction rows as [|r rows IH]; cbn [map filter fst snd]; [reflexivity|].
  destruct (String.eqb k (merchantOf r) && (negb b || isFraudRow r))%bool;
    cbn [List.length]; rewrite IH; reflexivity.
Qed.

(** The merchant counters after the loop: one entry per merchant of a
    row, with the numbers of its rows. *)
Lemma merchantData_spec rows :
  NoDup (keys (merchantData (tally parseFloat getHours rows))) /\
  (forall k d,
     In (k, d) (merchantData (tally parseFloat getHours rows)) ->
     d = {| count := rowsOf k false rows;
          DatasetInitialization.fraudCount := rowsOf k true rows |}).
Proof.
  destruct (tally_spec rows) as (_ & _ & _ & -> & _).
  destruct (DatasetFacts.bumpAll_spec parseFloat getHours (merchantEvents rows) []
              (NoDup_nil _))
    as (Hnd & _ & Hc).
  split; [exact Hnd|]. intros k d Hin.
  destruct (Hc k) as [C1 C2].
  rewrite (DatasetFacts.countersOf_In k d _ Hnd Hin) in C1, C2.
  cbn in C1, C2. rewrite !occurrences_merchantEvents in *.
  destruct d as [c f]. cbn [count DatasetInitialization.fraudCount] in *.
  congruence.
Qed.

Lemma slice0_nil {A : Type} (records : list A) :
  Arr.slice0 50000 records = [] <-> records = [].
Proof.
  unfold Arr.slice0. split; [|intros ->; apply firstn_nil].
  destruct records as [|x records]; [reflexivity|].
  destruct (N.to_nat 50000) as [|n] eqn:E; [|discriminate].
  apply (f_equal Z.of_nat) in E. rewrite N_nat_Z in E. discriminate.
Qed.

Lemma sort_length {A : Type} (cmp : A -> A -> Num.number) (l : list A) :
  List.length (Arr.sort cmp l) = List.length l.
Proof. apply Permutation_length, DatasetFacts.sort_perm. Qed.

Lemma median_defined {A : Type} (l : list A) :
  nth_error l (Nat.div (List.length l) 2) = None <-> l = [].
Proof.
  rewrite nth_error_None. split.
  - destruct l as [|x l]; [reflexivity|]. intros H. exfalso.
    assert (List.length (x :: l) / 2 < List.length (x :: l))%nat
      by (apply Nat.div_lt; cbn [List.length]; lia).
    lia.
  - intros ->. cbn. lia.
Qed.

(** X15: the statistics of a dataset without rows cannot be computed:
    the promise is rejected; with one row or more it is fulfilled. *)
Theorem processIEEEDataset_needs_rows records :
  processIEEEDataset parseFloat getHours records = None <-> records = [].
Proof.
  unfold processIEEEDataset.
  match goal with
  | |- context [nth_error ?l ?i] =>
      pose proof (median_defined l) as Hm; destruct (nth_error l i) as [median|]
  end.
  - split; [discriminate|]. intros ->.
    assert (H : Some median <> None) by discriminate.
    exfalso. apply H. apply Hm. reflexivity.
  - split; [|reflexivity]. intros _.
    destruct Hm as [Hm _]. specialize (Hm eq_refl).
    apply (f_equal (@List.length _)) in Hm. rewrite sort_length in Hm.
    destruct (tally_spec (Arr.slice0 50000 records)) as (_ & _ & Ha & _).
    rewrite Ha, length_map in Hm. cbn [List.length] in Hm.
    apply slice0_nil. apply length_zero_iff_nil. exact Hm.
Qed.

Lemma processIEEEDataset_fields records stats :
  processIEEEDataset parseFloat getHours records = Some stats ->
  let acc := tally parseFloat getHours (Arr.slice0 50000 records) in
  totalTransactions stats = seen acc /\
  fraudCount stats = frauds acc /\
  categoryDistribution stats = categories acc /\
  topMerchants stats
  = Arr.slice0 10 (ProcessorRank.rankedMerchants parseFloat getHours records) /\
  (List.length (fraudPatterns stats) <= 10)%nat.
Proof.
  unfold processIEEEDataset.
  match goal with
  | |- context [nth_error ?l ?i] => destruct (nth_error l i) as [median|]
  end; [|discriminate].
  intros [= <-]. cbv zeta.
  cbn [totalTransactions fraudCount categoryDistribution topMerchants fraudPatterns].
  repeat split. unfold Arr.slice0. apply firstn_le_length.
Qed.

(** X16: the statistics count the rows processed, which are the first
    50000: the total is their number, the fraud count that of the rows
    labelled fraudulent, and the category distribution gives every row
    one of the ten categories, so that its counts add up to the total. *)
Theorem processIEEEDataset_counts_rows records stats :
  processIEEEDataset parseFloat getHours records = Some stats ->
  let rows := Arr.slice0 50000 records in
  totalTransactions stats = List.length rows /\
  (totalTransactions stats <= List.length records)%nat /\
  (Z.of_nat (totalTransactions stats) <= 50000)%Z /\
  fraudCount stats = List.length (filter isFraudRow rows) /\
  (fraudCount stats <= totalTransactions stats)%nat /\
  sumValues (categoryDistribution stats) = totalTransactions stats /\
  NoDup (map fst (categoryDistribution stats)) /\
  incl (map fst (categoryDistribution stats)) categoryNames /\
  (List.length (fraudPatterns stats) <= 10)%nat /\
  (List.length (topMerchants stats) <= 10)%nat.
Proof.
  intros H. cbv zeta.
  destruct (processIEEEDataset_fields records stats H) as (-> & -> & -> & -> & Hp).
  destruct (tally_spec (Arr.slice0 50000 records))
    as (-> & -> & _ & _ & -> & Hnd & Hincl).
  split; [reflexivity|].
  split; [unfold Arr.slice0; rewrite length_firstn; apply Nat.le_min_r|].
  split; [apply (DatasetFacts.slice0_length 50000)|].
  split; [reflexivity|]. split; [apply filter_length_le|].
  split; [reflexivity|]. split; [exact Hnd|]. split; [exact Hincl|].
  split; [exact Hp|]. unfold Arr.slice0. apply firstn_le_length.
Qed.

Lemma rowsOf_positive name b rows :
  (0 < rowsOf name b rows)%nat -> In name (map merchantOf rows).
Proof.
  unfold rowsOf. intros H.
  match type of H with
  | (0 < List.length ?l)%nat => destruct l as [|r l'] eqn:E
  end; rewrite ?E in H; [cbn in H; lia|].
  assert (Hr : In r (r :: l')) by (left; reflexivity).
  rewrite <- E in Hr. apply filter_In in Hr. destruct Hr as [Hr Hc].
  apply andb_prop in Hc. destruct Hc as [Hc _]. apply String.eqb_eq in Hc.
  rewrite Hc. apply in_map, Hr.
Qed.

Lemma rowsOf_fraud_le name rows : (rowsOf name true rows <= rowsOf name false rows)%nat.
Proof.
  unfold rowsOf. cbn [negb orb].
  induction rows as [|r rows IH]; cbn [filter]; [lia|].
  destruct (String.eqb name (merchantOf r)), (isFraudRow r);
    cbn [andb List.length]; lia.
Qed.

Lemma merchantData_keys rows k :
  In k (keys (merchantData (tally parseFloat getHours rows)))
  <-> In k (map merchantOf rows).
Proof.
  destruct (tally_spec rows) as (_ & _ & _ & -> & _).
  destruct (DatasetFacts.bumpAll_spec parseFloat getHours (merchantEvents rows) []
              (NoDup_nil _)) as (_ & Hk & _).
  rewrite Hk. unfold merchantEvents. rewrite map_map. cbn [snd keys map In]. tauto.
Qed.

Lemma rankedMerchants_entries records m :
  In m (ProcessorRank.rankedMerchants parseFloat getHours records) <->
  exists name,
    m = {| Merchant.name := name;
           Merchant.count := rowsOf name false (Arr.slice0 50000 records);
           Merchant.fraudCount := rowsOf name true (Arr.slice0 50000 records) |} /\
    (0 < rowsOf name true (Arr.slice0 50000 records))%nat.
Proof.
  unfold ProcessorRank.rankedMerchants.
  generalize (Arr.slice0 50000 records). intros rows.
  destruct (merchantData_spec rows) as [Hnd Hd].
  split.
  - intros Hm. apply (Permutation_in _ (DatasetFacts.sort_perm _ _)) in Hm.
    apply in_map_iff in Hm. destruct Hm as ([k d] & <- & Hm).
    apply filter_In in Hm. destruct Hm as [Hin Hf]. cbn [snd] in Hf.
    apply Nat.ltb_lt in Hf. rewrite (Hd k d Hin) in *.
    exists k. split; [reflexivity|exact Hf].
  - intros (name & -> & Hf).
    apply (Permutation_in _ (Permutation_sym (DatasetFacts.sort_perm _ _))).
    apply in_map_iff.
    exists (name, {| count := rowsOf name false rows;
                     DatasetInitialization.fraudCount := rowsOf name true rows |}).
    split; [reflexivity|]. apply filter_In. split; [|apply Nat.ltb_lt; exact Hf].
    assert (Hk : In name (keys (merchantData (tally parseFloat getHours rows))))
      by (apply merchantData_keys; eapply rowsOf_positive; exact Hf).
    apply DatasetFacts.In_countersOf in Hk.
    rewrite (Hd _ _ Hk) in Hk at 1. exact Hk.
Qed.

Lemma natNum_sub_pos a b :
  (Z.of_nat a < 2 ^ 53)%Z -> (Z.of_nat b < 2 ^ 53)%Z ->
  (natNum b - natNum a >? #0) = (a <? b)%nat.
Proof.
  intros Ha Hb. unfold natNum.
  rewrite IntFacts.sub_of_Z_pos by (rewrite Z.abs_eq by lia; assumption).
  destruct (Z.ltb_spec (Z.of_nat a) (Z.of_nat b)), (Nat.ltb_spec a b);
    try reflexivity; lia.
Qed.

Lemma byFraudCount_sorted records :
  StronglySorted byFraudCount
    (ProcessorRank.rankedMerchants parseFloat getHours records).
Proof.
  unfold ProcessorRank.rankedMerchants.
  apply (DatasetFacts.sort_sorted _ byFraudCount
           (fun m => (Z.of_nat (Merchant.fraudCount m) < 2 ^ 53)%Z)).
  - unfold byFraudCount. intros a b c H1 H2. lia.
  - unfold byFraudCount. intros a b Ha Hb H.
    rewrite natNum_sub_pos in H by assumption. apply Nat.ltb_lt in H. lia.
  - unfold byFraudCount. intros a b Ha Hb H.
    rewrite natNum_sub_pos in H by assumption. apply Nat.ltb_ge in H. exact H.
  - apply Forall_forall. intros m Hm.
    assert (Hr : In m (ProcessorRank.rankedMerchants parseFloat getHours records)).
    { apply (Permutation_in _ (Permutation_sym (DatasetFacts.sort_perm _ _))).
      exact Hm. }
    apply rankedMerchants_entries in Hr. destruct Hr as (name & -> & _).
    cbn [Merchant.fraudCount].
    assert (H1 : (rowsOf name true (Arr.slice0 50000 records)
                  <= List.length (Arr.slice0 50000 records))%nat)
      by (unfold rowsOf; apply filter_length_le).
    pose proof (DatasetFacts.slice0_length 50000 records) as H2.
    apply (Z.le_lt_trans _ 50000); [|reflexivity].
    change (Z.of_N 50000) with 50000%Z in H2. lia.
Qed.

Lemma rankedMerchants_NoDup records :
  NoDup (map Merchant.name (ProcessorRank.rankedMerchants parseFloat getHours records)).
Proof.
  unfold ProcessorRank.rankedMerchants.
  destruct (merchantData_spec (Arr.slice0 50000 records)) as [Hnd _].
  eapply Permutation_NoDup.
  - apply Permutation_map. symmetry. apply DatasetFacts.sort_perm.
  - rewrite map_map.
    rewrite (map_ext _ fst) by (intros [k d]; reflexivity).
    apply (DatasetFacts.NoDup_keys_filter _ _ Hnd).
Qed.

(** X17: the top merchants are the first ten of the merchants with a
    fraudulent row among the rows processed, each listed once with the
    number of its rows and of its fraudulent rows, in descending order
    of the latter. *)
Theorem processIEEEDataset_top_merchants records stats :
  processIEEEDataset parseFloat getHours records = Some stats ->
  let rows := Arr.slice0 50000 records in
  let ranked := ProcessorRank.rankedMerchants parseFloat getHours records in
  topMerchants stats = firstn 10 ranked /\
  NoDup (map Merchant.name ranked) /\
  (forall m, In m ranked <->
     exists name,
       m = {| Merchant.name := name;
              Merchant.count := rowsOf name false rows;
              Merchant.fraudCount := rowsOf name true rows |} /\
       (0 < rowsOf name true rows)%nat) /\
  Forall (fun m => (0 < Merchant.fraudCount m <= Merchant.count m)%nat) ranked /\
  StronglySorted byFraudCount ranked.
Proof.
  intros H. cbv zeta.
  destruct (processIEEEDataset_fields records stats H) as (_ & _ & _ & -> & _).
  split; [reflexivity|]. split; [apply rankedMerchants_NoDup|].
  split; [apply rankedMerchants_entries|]. split; [|apply byFraudCount_sorted].
  apply Forall_forall. intros m Hm. apply rankedMerchants_entries in Hm.
  destruct Hm as (name & -> & Hf). cbn [Merchant.fraudCount Merchant.count].
  split; [exact Hf|apply rowsOf_fraud_le].
Qed.

End Rows.

Lemma processIEEEDataset_counts_rows_witness :
  exists stats,
    processIEEEDataset (fun _ => Num.dec 125 1) (fun _ => Num.NaN) threeRows
    = Some stats /\
    totalTransactions stats = 3%nat /\
    categoryDistribution stats = [("Fuel", 2%nat); ("Food & Dining", 1%nat)].
Proof.
  assert (E : exists stats,
             processIEEEDataset (fun _ => Num.dec 125 1) (fun _ => Num.NaN) threeRows
             = Some stats /\
             categoryDistribution stats = [("Fuel", 2%nat); ("Food & Dining", 1%nat)])
    by (eexists; split; vm_compute; reflexivity).
  destruct E as (stats & E & Hc). exists stats. split; [exact E|].
  split; [|exact Hc].
  apply (processIEEEDataset_counts_rows (fun _ => Num.dec 125 1) (fun _ => Num.NaN)
           threeRows stats E).
Defined.

Lemma processIEEEDataset_top_merchants_witness :
  exists stats,
    processIEEEDataset (fun _ => Num.dec 125 1) (fun _ => Num.NaN) threeRows
    = Some stats /\
    map Merchant.name (topMerchants stats) = ["City Gas"; "Corner Cafe"] /\
    StronglySorted byFraudCount
      (ProcessorRank.rankedMerchants (fun _ => Num.dec 125 1) (fun _ => Num.NaN)
         threeRows).
Proof.
  assert (E : exists stats,
             processIEEEDataset (fun _ => Num.dec 125 1) (fun _ => Num.NaN) threeRows
             = Some stats /\
             map Merchant.name (topMerchants stats) = ["City Gas"; "Corner Cafe"])
    by (eexists; split; vm_compute; reflexivity).
  destruct E as (stats & E & Hn). exists stats. split; [exact E|].
  split; [exact Hn|].
  apply (processIEEEDataset_top_merchants (fun _ => Num.dec 125 1) (fun _ => Num.NaN)
           threeRows stats E).
Defined.

End ProcessorFacts.
(** ** CSV rows with free column names *)

Module CsvFacts.
Import CsvAnalyzer CsvSpec.

Lemma row_get_In record key v : get record key = Some v -> exists k, In (k, v) record.
Proof.
  unfold get. destruct (find _ record) as [[k v']|] eqn:E; [|discriminate].
  intros [= <-]. exists k. exact (proj1 (find_some _ _ E)).
Qed.

Lemma row_get_key record key v : get record key = Some v -> In key (keys record).
Proof.
  unfold get, keys. destruct (find _ record) as [[k v']|] eqn:E; [|discriminate].
  intros _. destruct (find_some _ _ E) as [Hin Hk]. cbn [fst] in Hk.
  apply String.eqb_eq in Hk. subst k. apply (in_map fst) in Hin. exact Hin.
Qed.

Lemma row_key_get record key : In key (keys record) -> get record key <> None.
Proof.
  unfold get, keys. intros Hin. apply in_map_iff in Hin.
  destruct Hin as ([k v] & E & Hin). cbn [fst] in E. subst k.
  destruct (find (fun kv => String.eqb (fst kv) key) record) eqn:F; [discriminate|].
  pose proof (find_none _ _ F _ Hin) as H. cbn [fst] in H.
  rewrite String.eqb_refl in H. discriminate.
Qed.

Section Builtins.
Variable parseFloat : string -> Num.number.

Lemma isPositive_cell v :
  isPositive parseFloat v = true ->
  exists s, v = Some s /\ (parseFloat s >? #0) = true.
Proof.
  unfold isPositive, parseValue. destruct v as [s|].
  - intros H. apply andb_prop in H. exists s. split; [reflexivity|apply H].
  - intros H. apply andb_prop in H. destruct H as [_ H]. discriminate.
Qed.

Lemma cell_In record column s :
  cell record column = Some s -> exists k, In (k, s) record.
Proof.
  unfold cell. destruct column as [[|c r]|]; try discriminate.
  destruct (truthy (get record (String c r))); [|discriminate].
  apply row_get_In.
Qed.

Lemma scanColumns_income record columnNames :
  scanColumns parseFloat record columnNames = "income" ->
  exists k s, In (k, s) record /\ (parseFloat s >? #0) = true.
Proof.
  induction columnNames as [|col rest IH]; cbn [scanColumns]; [discriminate|].
  match goal with
  | |- context [isPositive parseFloat ?v] => generalize (isPositive_cell v);
      destruct (isPositive parseFloat v); intros Hv
  end.
  - destruct (Hv eq_refl) as (s & Hs & Hp). apply row_get_In in Hs.
    destruct Hs as [k Hk]. intros _. exists k, s. split; assumption.
  - rewrite !andb_false_r. exact IH.
Qed.

Lemma scanColumns_values record columnNames :
  scanColumns parseFloat record columnNames = "income" \/
  scanColumns parseFloat record columnNames = "expense".
Proof.
  induction columnNames as [|col rest IH]; cbn [scanColumns]; [right; reflexivity|].
  repeat match goal with
  | |- context [if ?c then _ else _] => destruct c
  end; auto.
Qed.

(** X18: the type detected is "income" or "expense", and it is "income"
    only when some cell of the row reads as a number above 0: a row
    without such a cell is an expense. *)
Theorem detectTransactionType_income_needs_amount record analysis :
  (detectTransactionType parseFloat record analysis = "income" \/
   detectTransactionType parseFloat record analysis = "expense") /\
  (detectTransactionType parseFloat record analysis = "income" ->
   exists k s, In (k, s) record /\ (parseFloat s >? #0) = true) /\
  ((forall k s, In (k, s) record -> (parseFloat s >? #0) = false) ->
   detectTransactionType parseFloat record analysis = "expense").
Proof.
  assert (Hvals : detectTransactionType parseFloat record analysis = "income" \/
                  detectTransactionType parseFloat record analysis = "expense").
  { unfold detectTransactionType.
    repeat match goal with
    | |- context [if ?c then _ else _] => destruct c
    end; auto. apply scanColumns_values. }
  assert (Hinc : detectTransactionType parseFloat record analysis = "income" ->
                 exists k s, In (k, s) record /\ (parseFloat s >? #0) = true).
  { unfold detectTransactionType.
    destruct (truthy (cell record (creditColumn analysis))
              && isPositive parseFloat (cell record (creditColumn analysis)))%bool
      eqn:E1.
    - intros _. apply andb_prop in E1. destruct E1 as [_ E1].
      apply isPositive_cell in E1. destruct E1 as (s & Hs & Hp).
      apply cell_In in Hs. destruct Hs as [k Hk]. exists k, s. split; assumption.
    - destruct (truthy (cell record (debitColumn analysis))
                && isPositive parseFloat (cell record (debitColumn analysis)))%bool;
        [discriminate|]. apply scanColumns_income. }
  split; [exact Hvals|]. split; [exact Hinc|].
  intros Hno. destruct Hvals as [Hi|He]; [|exact He].
  destruct (Hinc Hi) as (k & s & Hin & Hp). rewrite (Hno k s Hin) in Hp. discriminate.
Qed.

End Builtins.

Lemma detectTransactionType_income_needs_amount_witness :
  detectTransactionType readInt [("Date", "2024-11-24"); ("Narration", "NEFT")]
    noAnalysis = "expense" /\
  detectTransactionType readInt statementRow noAnalysis = "expense".
Proof.
  split; [|vm_compute; reflexivity].
  apply (detectTransactionType_income_needs_amount readInt
           [("Date", "2024-11-24"); ("Narration", "NEFT")] noAnalysis).
  intros k s [[= <- <-]|[[= <- <-]|[]]]; vm_compute; reflexivity.
Defined.

(** *** The amount of a row *)

Lemma firstAmountColumn_defined record ks v :
  incl ks (keys record) -> firstAmountColumn record ks = Some v -> v <> None.
Proof.
  induction ks as [|key rest IH]; cbn [firstAmountColumn]; intros Hincl; [discriminate|].
  destruct (Str.includes (Str.toLowerCase key) "amount"
            || Str.includes (Str.toLowerCase key) "total"
            || String.eqb (Str.toLowerCase key) "value")%bool.
  - intros [= <-]. apply row_key_get. apply Hincl. left. reflexivity.
  - apply IH. intros k Hk. apply Hincl. right. exact Hk.
Qed.

(** X19: the amount extracted is never undefined. Without a usable
    credit or debit column it is the cell of the first column whose
    lower-cased name holds "amount" or "total" or is "value", and "0"
    when the row has no such column: the final lookup of the column
    "amount" never finds one. *)
Theorem extractAmountFromRecord_fallback record analysis type :
  extractAmountFromRecord record analysis type <> None /\
  (cell record (creditColumn analysis) = None ->
   cell record (debitColumn analysis) = None ->
   extractAmountFromRecord record analysis type
   = match find amountLike (keys record) with
     | Some key => get record key
     | None => Some "0"
     end) /\
  (find amountLike (keys record) = None -> get record "amount" = None).
Proof.
  assert (Hdead : find amountLike (keys record) = None -> get record "amount" = None).
  { intros Hnone. destruct (get record "amount") as [v|] eqn:E; [|reflexivity].
    apply row_get_key in E. pose proof (find_none _ _ Hnone _ E) as H.
    vm_compute in H. discriminate. }
  assert (Hloop : firstAmountColumn record (keys record)
                  = option_map (get record) (find amountLike (keys record))).
  { generalize (keys record). intros ks.
    induction ks as [|key rest IH]; cbn [firstAmountColumn find]; [reflexivity|].
    unfold amountLike at 1.
    destruct (Str.includes (Str.toLowerCase key) "amount"
              || Str.includes (Str.toLowerCase key) "total"
              || String.eqb (Str.toLowerCase key) "value")%bool;
      [reflexivity|exact IH]. }
  split; [|split; [|exact Hdead]].
  - unfold extractAmountFromRecord.
    destruct (String.eqb type "income" && truthy (cell record (creditColumn analysis)))%bool
      eqn:E1.
    { apply andb_prop in E1. destruct E1 as [_ E1].
      destruct (cell record (creditColumn analysis)); [discriminate|discriminate]. }
    destruct (String.eqb type "expense" && truthy (cell record (debitColumn analysis)))%bool
      eqn:E2.
    { apply andb_prop in E2. destruct E2 as [_ E2].
      destruct (cell record (debitColumn analysis)); [discriminate|discriminate]. }
    destruct (firstAmountColumn record (keys record)) as [v|] eqn:E3.
    + apply (firstAmountColumn_defined record (keys record) v (incl_refl _) E3).
    + destruct (truthy (get record "amount")) eqn:E4; [|discriminate].
      destruct (get record "amount"); [discriminate|discriminate].
  - intros Hc Hd. unfold extractAmountFromRecord. rewrite Hc, Hd.
    cbn [truthy]. rewrite !andb_false_r. rewrite Hloop.
    destruct (find amountLike (keys record)) as [key|] eqn:E; cbn [option_map];
      [reflexivity|].
    rewrite (Hdead eq_refl). reflexivity.
Qed.

Lemma extractAmountFromRecord_fallback_witness :
  extractAmountFromRecord statementRow noAnalysis "expense" = Some "0".
Proof.
  apply (extractAmountFromRecord_fallback statementRow noAnalysis "expense");
    reflexivity.
Defined.

(** *** The type detection of the upload route *)

Lemma prefix_append a b s :
  String.prefix (a ++ b) s = true -> String.prefix a s = true.
Proof.
  revert s. induction a as [|c a IH]; intros s; destruct s as [|c' s];
    cbn [String.append String.prefix]; try reflexivity; try discriminate.
  destruct (Ascii.ascii_dec c c'); [apply IH|discriminate].
Qed.

(** A text that holds a phrase holds every beginning of it. *)
Lemma includes_append s a b :
  Str.includes s (a ++ b) = true -> Str.includes s a = true.
Proof.
  induction s as [|c s IH]; cbn [Str.includes]; intros H;
    apply orb_prop in H; apply orb_true_iff; destruct H as [H|H].
  - left. eapply prefix_append, H.
  - discriminate.
  - left. eapply prefix_append, H.
  - right. apply IH, H.
Qed.

Lemma expense_keyword_payment text :
  Str.includes text "payment" = true ->
  existsb (fun kw => Str.includes text kw) Routes.expenseKeywords = true.
Proof. intros H. cbn [existsb Routes.expenseKeywords]. rewrite H. reflexivity. Qed.

(** X20: in the upload route a row without explicit type and without a
    credit or debit column that holds a positive number is an income
    exactly when its merchant, or else its description, holds an income
    keyword and no expense keyword. The income keyword "payment
    received" therefore never decides, since it holds the expense
    keyword "payment": such a row is an expense. *)
Theorem upload_detectTransactionType_keywords parseFloat record :
  get record "type" = None ->
  Routes.scanColumns parseFloat record (keys record) = None ->
  (Routes.detectTransactionType parseFloat record = "income" <->
   (existsb (fun kw => Str.includes (merchantText record) kw) Routes.incomeKeywords
    && negb (existsb (fun kw => Str.includes (merchantText record) kw)
               Routes.expenseKeywords))%bool = true) /\
  (Routes.detectTransactionType parseFloat record = "income" \/
   Routes.detectTransactionType parseFloat record = "expense") /\
  (Str.includes (merchantText record) "payment received" = true ->
   Routes.detectTransactionType parseFloat record = "expense").
Proof.
  intros Ht Hs.
  assert (E : Routes.detectTransactionType parseFloat record
              = if (existsb (fun kw => Str.includes (merchantText record) kw)
                      Routes.incomeKeywords
                    && negb (existsb (fun kw => Str.includes (merchantText record) kw)
                               Routes.expenseKeywords))%bool
                then "income" else "expense").
  { unfold Routes.detectTransactionType. rewrite Ht, Hs. cbn [truthy andb].
    fold (merchantText record).
    repeat match goal with
    | |- context [if ?c then _ else _] => destruct c
    end; reflexivity. }
  rewrite E.
  destruct (existsb (fun kw => Str.includes (merchantText record) kw)
              Routes.incomeKeywords
            && negb (existsb (fun kw => Str.includes (merchantText record) kw)
                       Routes.expenseKeywords))%bool eqn:B.
  - split; [tauto|]. split; [left; reflexivity|].
    intros Hp. exfalso.
    assert (Hpay : Str.includes (merchantText record) "payment" = true)
      by (apply (includes_append _ "payment" " received"); exact Hp).
    rewrite (expense_keyword_payment _ Hpay) in B.
    rewrite andb_false_r in B. discriminate.
  - split; [split; discriminate|]. split; [right; reflexivity|]. reflexivity.
Qed.

Lemma upload_detectTransactionType_keywords_witness :
  Routes.detectTransactionType readInt paymentReceived = "expense".
Proof.
  apply (upload_detectTransactionType_keywords readInt paymentReceived);
    vm_compute; reflexivity.
Defined.

End CsvFacts.
(** ** More on the rule engine and the health score *)

Module CoreFacts.
Import Schema FraudDetection.

(** X21: the verdict is fraudulent exactly when the amount is above
    100000 or a duplicate is found: the two velocity rules, the
    first-time merchant rule and an amount above 50000 never flag a
    transaction, alone or together. The reason is that of the duplicate
    rule when it fires, else that of the amount. *)
Theorem detectFraud_flags_large_or_duplicate now t h :
  let res := detectFraud now t h in
  isFraudulent res = (fires2 t || fires6 now t h)%bool /\
  reason res
  = (if fires6 now t h then Some "Potential duplicate transaction"
     else if fires2 t then Some "Extremely large transaction amount"
     else None) /\
  (isFraudulent res = false -> (riskScore res <=? #80) = true).
Proof.
  cbv zeta. split; [|split].
  - FraudFacts.all_rule_cases; vm_compute; reflexivity.
  - FraudFacts.all_rule_cases; vm_compute; reflexivity.
  - FraudFacts.all_rule_cases; vm_compute; intros H; try reflexivity; discriminate H.
Qed.

(** X22: the check reads the amount and the merchant of the candidate,
    the merchant up to the case of its letters, and nothing else: not
    its date, its category or its type. *)
Theorem detectFraud_reads_candidate now t t' h :
  amount t = amount t' ->
  Str.toLowerCase (merchant t) = Str.toLowerCase (merchant t') ->
  detectFraud now t h = detectFraud now t' h.
Proof.
  intros Ha Hm.
  unfold detectFraud, risks, fires1, fires2, fires5, fires6, merchantFrequency,
    duplicates.
  rewrite Ha, Hm. reflexivity.
Qed.

Lemma detectFraud_reads_candidate_witness :
  detectFraud #1700000000000 (candidate #60000 "ACME" #1)
    [candidate #60000 "acme" #1699999999000]
  = detectFraud #1700000000000 (candidate #60000 "Acme" #1700000000000)
      [candidate #60000 "acme" #1699999999000].
Proof.
  apply (detectFraud_reads_candidate #1700000000000 (candidate #60000 "ACME" #1)
           (candidate #60000 "Acme" #1700000000000)); reflexivity.
Defined.

(** *** The range of the health score *)

Lemma leb_of_compare x y c :
  SFcompare x y = Some c -> c <> Lt -> (y <=? x) = true.
Proof.
  intros E N. unfold Num.leb, SFleb. rewrite (NumFacts.compare_antisym _ _ _ E).
  destruct c; try reflexivity. contradiction N. reflexivity.
Qed.

(** [Math.max(0, Math.min(100, x))] is NaN or lies between 0 and 100. *)
Lemma clamp_range x :
  let y := Math.max [#0; Math.min [#100; x]] in
  y = Num.NaN \/ ((#0 <=? y) && (y <=? #100))%bool = true.
Proof.
  cbv zeta. unfold Math.max, Math.min. cbn [fold_left].
  change (Num.max2 Num.NegInfinity #0) with #0.
  change (Num.min2 Num.Infinity #100) with #100.
  assert (Hmin : Num.min2 #100 x = Num.NaN \/ Num.min2 #100 x = #100 \/
                 (Num.min2 #100 x = x /\ (x <=? #100) = true)).
  { unfold Num.min2. destruct (SFcompare #100 x) as [[| |]|] eqn:E.
    - right. right. rewrite DatasetFacts.hundred_finite at 1.
      split; [reflexivity|]. apply (leb_of_compare _ _ _ E). discriminate.
    - right. left. reflexivity.
    - right. right. split; [reflexivity|].
      apply (leb_of_compare _ _ _ E). discriminate.
    - left. reflexivity. }
  destruct Hmin as [->|[->|[-> Hx]]].
  - left. reflexivity.
  - right. vm_compute. reflexivity.
  - unfold Num.max2. destruct (SFcompare #0 x) as [[| |]|] eqn:E.
    + right. vm_compute. reflexivity.
    + right. rewrite Hx, andb_true_r. unfold Num.leb, SFleb. rewrite E. reflexivity.
    + right. vm_compute. reflexivity.
    + left. reflexivity.
Qed.

(** X23: the overall score is NaN or lies between 0 and 100, and the
    income stability is one of 0, 20, 40, 50 and 85: it never reaches
    100. *)
Theorem calculateFinancialHealth_ranges threeMonthsAgo transactions monthlyIncome :
  let res :=
    FinancialHealth.calculateFinancialHealth threeMonthsAgo transactions
      monthlyIncome in
  (FinancialHealth.score res = Num.NaN \/
   ((#0 <=? FinancialHealth.score res)
    && (FinancialHealth.score res <=? #100))%bool = true) /\
  In (FinancialHealth.incomeStability res) [#0; #20; #40; #50; #85].
Proof.
  cbv zeta. unfold FinancialHealth.calculateFinancialHealth.
  match goal with
  | |- context [if ?c then _ else _] => destruct c
  end.
  - split; [right; vm_compute; reflexivity|].
    right. right. right. left. reflexivity.
  - unfold FinancialHealth.computed.
    cbn [FinancialHealth.score FinancialHealth.incomeStability].
    split; [apply clamp_range|].
    unfold FinancialHealth.incomeStabilityValue.
    match goal with
    | |- context [List.length ?l] => destruct (List.length l) as [|[|[|n]]]
    end.
    + left. vm_compute. reflexivity.
    + right. left. vm_compute. reflexivity.
    + right. right. left. vm_compute. reflexivity.
    + right. right. right. right. left. vm_compute. reflexivity.
Qed.

End CoreFacts.
(** ** More on the dataset pattern miner *)

Module MinerFacts.
Import DatasetInitialization DatasetSpec MinerSpec.

Lemma In_firstn {A : Type} (n : nat) (l : list A) x : In x (firstn n l) -> In x l.
Proof.
  intros H. rewrite <- (firstn_skipn n l). apply in_or_app. left. exact H.
Qed.

Lemma NoDup_firstn {A : Type} (n : nat) (l : list A) : NoDup l -> NoDup (firstn n l).
Proof.
  intros H. rewrite <- (firstn_skipn n l) in H. apply NoDup_app_remove_r in H. exact H.
Qed.

Lemma keys_filter_NoDup {V : Type} (keep : string * V -> bool)
  (obj : list (string * V)) :
  NoDup (map fst obj) -> NoDup (map fst (filter keep obj)).
Proof.
  intros ND. induction obj as [|[k v] obj IH]; cbn [map filter fst] in *.
  - constructor.
  - apply NoDup_cons_iff in ND. destruct ND as [fresh rest].
    destruct (keep (k, v)); cbn [map fst]; [|exact (IH rest)].
    constructor; [|exact (IH rest)].
    intros Hin. apply fresh. apply in_map_iff in Hin.
    destruct Hin as ([k' v'] & E & Hy). cbn [fst] in E. subst k'.
    apply filter_In in Hy. apply in_map_iff. exists (k, v'). tauto.
Qed.

(** *** The merchant counters *)

Lemma In_addTo k n obj k' v :
  In (k', v) (addTo k n obj) ->
  In (k', v) obj \/ (k' = k /\ (v = n \/ exists v0, In (k, v0) obj /\ v = (v0 + n)%nat)).
Proof.
  induction obj as [|[k0 v0] obj IH]; cbn [addTo].
  - intros [[= <- <-]|[]]. right. split; [reflexivity|left; reflexivity].
  - destruct (String.eqb_spec k0 k) as [->|Hne].
    + intros [[= <- <-]|H].
      * right. split; [reflexivity|]. right. exists v0. split; [left; reflexivity|reflexivity].
      * left. right. exact H.
    + intros [[= <- <-]|H]; [left; left; reflexivity|].
      destruct (IH H) as [H'|(-> & [->|(v1 & H1 & ->)])].
      * left. right. exact H'.
      * right. split; [reflexivity|left; reflexivity].
      * right. split; [reflexivity|]. right. exists v1. split; [right; exact H1|reflexivity].
Qed.

Section Rows.
Variable parseFloat : string -> Num.number.
Variable getHours : string -> Num.number.

Lemma merchantFraudMap_fold rows acc :
  let acc' := fold_left (step parseFloat getHours) rows acc in
  (NoDup (map fst (merchantFraudMap acc)) -> NoDup (map fst (merchantFraudMap acc'))) /\
  (forall k v, In (k, v) (merchantFraudMap acc') -> (0 < v)%nat ->
     (exists v0, In (k, v0) (merchantFraudMap acc) /\ (0 < v0)%nat) \/
     exists r, In r rows /\ DatasetProcessor.merchantOf r = k /\ isFraudRow r = true).
Proof.
  cbv zeta. revert acc. induction rows as [|r rows IH]; intros acc; cbn [fold_left].
  - split; [auto|]. intros k v Hin Hv. left. exists v. split; assumption.
  - destruct (IH (step parseFloat getHours acc r)) as [H1 H2]. split.
    + intros Hnd. apply H1. cbn [step merchantFraudMap].
      apply ProcessorFacts.NoDup_addTo, Hnd.
    + intros k v Hin Hv. destruct (H2 k v Hin Hv) as [(v0 & Hin0 & Hv0)|(r' & Hr & Hk & Hf)].
      * cbn [step merchantFraudMap] in Hin0. apply In_addTo in Hin0.
        destruct Hin0 as [Hold|(-> & [->|(v1 & H1' & ->)])].
        -- left. exists v0. split; assumption.
        -- right. exists r. split; [left; reflexivity|]. split; [reflexivity|].
           destruct (isFraudRow r) eqn:Ef; [reflexivity|lia].
        -- destruct (isFraudRow r) eqn:Ef.
           ++ right. exists r. split; [left; reflexivity|]. split; [reflexivity|exact Ef].
           ++ left. exists v1. split; [exact H1'|lia].
      * right. exists r'. split; [right; exact Hr|]. split; assumption.
Qed.

Lemma zero_ratio y : (natNum 0 / y >? Num.dec 5 2) = false.
Proof. destruct y as [[]|[]| |[] m e]; vm_compute; reflexivity. Qed.

(** X24: bounds of the mined result: at most 15 patterns, each with an
    integer score from 0 to 100, at most 10 high-risk merchants, each
    named once, the indicators among the pattern keys, and the number of
    rows analysed at most 50000. Without rows the result is empty and
    its fraud percentage is NaN. *)
Theorem processDataset_bounds now records :
  let ds := processDataset parseFloat getHours now records in
  (List.length (patterns ds) <= 15)%nat /\
  Forall (fun p => In (fraudRiskScore p) scoreTable) (patterns ds) /\
  incl (commonFraudIndicators ds) (map pattern (patterns ds)) /\
  (List.length (highRiskMerchants ds) <= 10)%nat /\
  NoDup (highRiskMerchants ds) /\
  totalTransactionsAnalyzed ds = List.length (Arr.slice0 50000 records) /\
  (Z.of_nat (totalTransactionsAnalyzed ds) <= 50000)%Z /\
  processDataset parseFloat getHours now []
  = {| patterns := []; totalTransactionsAnalyzed := 0;
       fraudPercentage := Num.NaN; lastUpdated := now;
       highRiskMerchants := []; commonFraudIndicators := [] |}.
Proof.
  cbv zeta. unfold processDataset.
  cbn [patterns commonFraudIndicators highRiskMerchants totalTransactionsAnalyzed].
  split; [unfold minePatterns, Arr.slice0; apply firstn_le_length|].
  split.
  { apply Forall_forall. intros p Hp. unfold minePatterns, Arr.slice0 in Hp.
    apply In_firstn in Hp.
    pose proof (DatasetFacts.ranked_scores_in_table parseFloat getHours records) as H.
    rewrite Forall_forall in H. apply H. exact Hp. }
  split.
  { intros k Hk. apply in_map_iff in Hk. destruct Hk as (p & <- & Hp).
    apply filter_In in Hp. apply in_map, Hp. }
  split; [unfold Arr.slice0; apply firstn_le_length|].
  split.
  { unfold Arr.slice0. apply NoDup_firstn. apply keys_filter_NoDup.
    apply (merchantFraudMap_fold (Arr.slice0 50000 records)). constructor. }
  split; [reflexivity|].
  split; [apply (DatasetFacts.slice0_length 50000)|].
  vm_compute. reflexivity.
Qed.

(** X25: a merchant reported as high-risk has a fraudulent row among the
    rows analysed. *)
Theorem processDataset_high_risk_has_fraud now records merchant :
  In merchant (highRiskMerchants (processDataset parseFloat getHours now records)) ->
  exists r,
    In r (Arr.slice0 50000 records) /\
    DatasetProcessor.merchantOf r = merchant /\ isFraudRow r = true.
Proof.
  unfold processDataset. cbn [highRiskMerchants]. intros H.
  unfold Arr.slice0 in H at 1. apply In_firstn in H.
  apply in_map_iff in H. destruct H as ([k v] & E & H). cbn [fst] in E. subst k.
  apply filter_In in H. destruct H as [Hin Hr].
  destruct v as [|v].
  - rewrite zero_ratio in Hr. discriminate.
  - destruct (merchantFraudMap_fold (Arr.slice0 50000 records)
                {| totalFraud := 0; patternFrequency := []; merchantFraudMap := [] |})
      as [_ H2].
    destruct (H2 merchant (S v) Hin (Nat.lt_0_succ v)) as [(v0 & [] & _)|Hr'].
    exact Hr'.
Qed.

(** *** Rows that name no merchant *)

Lemma unnamed_key r :
  unnamed r = true ->
  template
    (orElse (Merchant r)
            (Some ("Merchant_" ++ template (orElse (MerchantID r)
                                                   (Some "Unknown")))%string))
  = "Merchant_Unknown" /\
  String.eqb
    (template (orElse (Merchant r)
                      (Some ("Merchant_" ++ template (MerchantID r))%string)))
    "Merchant_Unknown" = false.
Proof.
  unfold unnamed, orElse. intros H. apply andb_prop in H. destruct H as [H1 H2].
  destruct (truthy (Merchant r)); [discriminate|].
  destruct (MerchantID r) as [[|c s]|]; try discriminate; split; reflexivity.
Qed.

Lemma unnamed_fold rows acc n :
  forallb unnamed rows = true ->
  merchantFraudMap acc = [("Merchant_Unknown", n)] ->
  merchantFraudMap (fold_left (step parseFloat getHours) rows acc)
  = [("Merchant_Unknown", (n + List.length (filter isFraudRow rows))%nat)].
Proof.
  revert acc n. induction rows as [|r rows IH]; intros acc n Hu Hm;
    cbn [fold_left filter forallb] in *.
  - rewrite Hm. cbn [List.length]. rewrite Nat.add_0_r. reflexivity.
  - apply andb_prop in Hu. destruct Hu as [Hr Hu].
    rewrite (IH (step parseFloat getHours acc r)
                (n + (if isFraudRow r then 1 else 0))%nat Hu).
    + destruct (isFraudRow r); cbn [List.length]; do 2 f_equal; lia.
    + cbn [step merchantFraudMap]. rewrite (proj1 (unnamed_key r Hr)), Hm.
      reflexivity.
Qed.

Lemma unnamed_tally rows :
  rows <> [] ->
  forallb unnamed rows = true ->
  merchantFraudMap (tally parseFloat getHours rows)
  = [("Merchant_Unknown", List.length (filter isFraudRow rows))].
Proof.
  destruct rows as [|r rows]; [intros N; contradiction N; reflexivity|].
  intros _ Hu. cbn [forallb] in Hu. apply andb_prop in Hu. destruct Hu as [Hr Hu].
  unfold tally. cbn [fold_left].
  rewrite (unnamed_fold rows _ (if isFraudRow r then 1 else 0)%nat Hu).
  - cbn [filter]. destruct (isFraudRow r); reflexivity.
  - cbn [step merchantFraudMap]. rewrite (proj1 (unnamed_key r Hr)). reflexivity.
Qed.

Lemma unnamed_total rows :
  forallb unnamed rows = true ->
  filter (fun r =>
            String.eqb
              (template (orElse (Merchant r)
                                (Some ("Merchant_" ++ template (MerchantID r))%string)))
              "Merchant_Unknown")
         rows = [].
Proof.
  induction rows as [|r rows IH]; cbn [forallb filter]; intros Hu; [reflexivity|].
  apply andb_prop in Hu. destruct Hu as [Hr Hu].
  rewrite (proj2 (unnamed_key r Hr)). apply IH, Hu.
Qed.

Lemma list_eq_dec_nil {A : Type} (l : list A) : {l = []} + {l <> []}.
Proof. destruct l; [left; reflexivity|right; discriminate]. Qed.

Lemma forallb_firstn {A : Type} (p : A -> bool) (n : nat) (l : list A) :
  forallb p l = true -> forallb p (firstn n l) = true.
Proof.
  intros H. rewrite forallb_forall in *. intros x Hx. apply H.
  eapply In_firstn, Hx.
Qed.

Lemma fraud_over_none f :
  (0 < Z.of_nat f < 2 ^ 53)%Z -> (natNum f / natNum 0 >? Num.dec 5 2) = true.
Proof.
  intros H. unfold natNum.
  destruct (NumFacts.of_Z_count (Z.of_nat f) H) as (m & e & ->).
  reflexivity.
Qed.

(** X26: when no row names a merchant, cell [Merchant] and [MerchantID]
    both empty or absent, all rows count for "Merchant_Unknown", and
    that name is reported as high-risk as soon as one of the rows
    analysed is fraudulent, however many they are. *)
Theorem processDataset_unnamed_merchants now records :
  forallb unnamed records = true ->
  highRiskMerchants (processDataset parseFloat getHours now records)
  = if existsb isFraudRow (Arr.slice0 50000 records)
    then ["Merchant_Unknown"] else [].
Proof.
  intros Hu. unfold processDataset. cbn [highRiskMerchants].
  assert (Hu' : forallb unnamed (Arr.slice0 50000 records) = true)
    by (apply forallb_firstn, Hu).
  pose proof (DatasetFacts.slice0_length 50000 records) as Hlen.
  change (Z.of_N 50000) with 50000%Z in Hlen.
  revert Hu' Hlen. generalize (Arr.slice0 50000 records). intros rows Hu' Hlen.
  destruct (list_eq_dec_nil rows) as [->|Hne]; [reflexivity|].
  rewrite (unnamed_tally rows Hne Hu'). cbn [filter].
  rewrite (unnamed_total rows Hu'). cbn [List.length].
  pose proof (filter_length_le isFraudRow rows) as Hle.
  assert (Hex : existsb isFraudRow rows
                = Nat.ltb 0 (List.length (filter isFraudRow rows))).
  { clear. induction rows as [|x l IH]; [reflexivity|].
    cbn [existsb filter]. destruct (isFraudRow x); [reflexivity|exact IH]. }
  rewrite Hex.
  destruct (List.length (filter isFraudRow rows)) as [|f] eqn:Ef.
  - rewrite zero_ratio. reflexivity.
  - rewrite fraud_over_none.
    + reflexivity.
    + split; [lia|]. apply (Z.le_lt_trans _ 50000); [lia|reflexivity].
Qed.

End Rows.

Lemma processDataset_high_risk_has_fraud_witness :
  exists r,
    In r (Arr.slice0 50000 unnamedRows) /\
    DatasetProcessor.merchantOf r = "Merchant_Unknown" /\ isFraudRow r = true.
Proof.
  apply (processDataset_high_risk_has_fraud (fun _ => #0) (fun _ => Num.NaN) #0
           unnamedRows "Merchant_Unknown").
  vm_compute. left. reflexivity.
Defined.

Lemma processDataset_unnamed_merchants_witness :
  highRiskMerchants (processDataset (fun _ => #0) (fun _ => Num.NaN) #0 unnamedRows)
  = ["Merchant_Unknown"].
Proof.
  apply (processDataset_unnamed_merchants (fun _ => #0) (fun _ => Num.NaN) #0
           unnamedRows).
  vm_compute. reflexivity.
Defined.

End MinerFacts.
(** ** More on the debit and credit analysis *)

Module LlmMoreFacts.
Import LlmFraudAnalysis LlmSpec.

Lemma ltb_trans x y z : (x <? y) = true -> (y <? z) = true -> (x <? z) = true.
Proof.
  intros H1 H2. eapply NumFacts.ltb_leb_trans; [exact H1|].
  apply NumFacts.ltb_leb, H2.
Qed.

Lemma ltb_asym x y : (x <? y) = true -> (y <? x) = false.
Proof. intros H. apply NumFacts.leb_not_ltb, NumFacts.ltb_leb, H. Qed.

Lemma ltb_irrefl x : (x <? x) = false.
Proof.
  destruct (x <? x) eqn:E; [|reflexivity].
  rewrite (ltb_asym _ _ E) in E. discriminate.
Qed.

(** The scan for the largest entry: the result is the start or above
    it, and nothing scanned is above the result. *)
Lemma fold_larger rest x :
  let larger := fun max d : Entry => if amount d >? amount max then d else max in
  let res := fold_left larger rest x in
  In res (x :: rest) /\
  (res = x \/ (amount res >? amount x) = true) /\
  Forall (fun d => (amount d >? amount res) = false) rest.
Proof.
  cbv zeta. revert x. induction rest as [|d rest IH]; intros x; cbn [fold_left].
  - split; [left; reflexivity|]. split; [left; reflexivity|constructor].
  - destruct (IH (if amount d >? amount x then d else x)) as (Hin & Hup & Hall).
    set (res := fold_left _ rest _) in *.
    destruct (amount d >? amount x) eqn:E.
    + split; [right; exact Hin|]. split; [|constructor; [|exact Hall]].
      * right. destruct Hup as [->|Hup]; [exact E|]. eapply ltb_trans; eassumption.
      * destruct Hup as [->|Hup]; [apply ltb_irrefl|apply ltb_asym, Hup].
    + split; [|split; [exact Hup|constructor; [|exact Hall]]].
      * destruct Hin as [<-|Hin]; [left; reflexivity|right; right; exact Hin].
      * destruct Hup as [->|Hup]; [exact E|].
        destruct (amount d >? amount res) eqn:E2; [|reflexivity].
        rewrite (ltb_trans _ _ _ Hup E2) in E. discriminate.
Qed.

Lemma reduce1_largest entries :
  entries <> [] ->
  exists e,
    reduce1 (fun max d : Entry => if amount d >? amount max then d else max) entries
    = Some e /\ largestOf entries e.
Proof.
  destruct entries as [|x rest]; [intros N; contradiction N; reflexivity|].
  intros _. cbn [reduce1]. eexists. split; [reflexivity|].
  destruct (fold_larger rest x) as (Hin & Hup & Hall). cbv zeta in *.
  split; [exact Hin|]. constructor; [|exact Hall].
  destruct Hup as [->|Hup]; [apply ltb_irrefl|apply ltb_asym, Hup].
Qed.

(** X27: the analysis counts the expenses as debits and the incomes as
    credits; the largest debit is one of the debits, none of which has a
    larger amount, and the stand-in "N/A" with amount 0 when there is no
    debit; likewise for the credits. *)
Theorem calculateDebitCreditAnalysis_largest transactions :
  exists a,
    calculateDebitCreditAnalysis transactions = Some a /\
    debitCount a = List.length (debitsOf transactions) /\
    creditCount a = List.length (creditsOf transactions) /\
    (debitCount a + creditCount a <= List.length transactions)%nat /\
    (if Nat.eqb (debitCount a) 0 then largestDebit a = notAvailable
     else largestOf (debitsOf transactions) (largestDebit a)) /\
    (if Nat.eqb (creditCount a) 0 then largestCredit a = notAvailable
     else largestOf (creditsOf transactions) (largestCredit a)).
Proof.
  unfold calculateDebitCreditAnalysis.
  match goal with
  | |- context [fold_left ?f transactions ([], [])] =>
      assert (Hs : forall txs debits credits,
                 fold_left f txs (debits, credits)
                 = (debits ++ debitsOf txs, credits ++ creditsOf txs))
  end.
  { unfold debitsOf, creditsOf.
    induction txs as [|t txs IH]; intros debits credits; cbn [fold_left filter map].
    - rewrite !app_nil_r. reflexivity.
    - destruct (String.eqb (Schema.type t) "expense") eqn:E1.
      + apply String.eqb_eq in E1. rewrite E1. cbn [String.eqb Ascii.eqb Bool.eqb].
        rewrite IH. cbn [map]. rewrite <- app_assoc. reflexivity.
      + destruct (String.eqb (Schema.type t) "income") eqn:E2.
        * rewrite IH. cbn [map]. rewrite <- app_assoc. reflexivity.
        * apply IH. }
  rewrite Hs. clear Hs. cbn [List.app].
  assert (Hd : exists e,
             (if Nat.ltb 0 (List.length (debitsOf transactions))
              then reduce1 (fun max d : Entry =>
                              if amount d >? amount max then d else max)
                     (debitsOf transactions)
              else Some notAvailable) = Some e /\
             (if Nat.eqb (List.length (debitsOf transactions)) 0
              then e = notAvailable else largestOf (debitsOf transactions) e)).
  { destruct (debitsOf transactions) as [|x l] eqn:E.
    - exists notAvailable. split; reflexivity.
    - destruct (reduce1_largest (x :: l)) as (e & He & Hl); [discriminate|].
      exists e. split; [exact He|exact Hl]. }
  assert (Hc : exists e,
             (if Nat.ltb 0 (List.length (creditsOf transactions))
              then reduce1 (fun max d : Entry =>
                              if amount d >? amount max then d else max)
                     (creditsOf transactions)
              else Some notAvailable) = Some e /\
             (if Nat.eqb (List.length (creditsOf transactions)) 0
              then e = notAvailable else largestOf (creditsOf transactions) e)).
  { destruct (creditsOf transactions) as [|x l] eqn:E.
    - exists notAvailable. split; reflexivity.
    - destruct (reduce1_largest (x :: l)) as (e & He & Hl); [discriminate|].
      exists e. split; [exact He|exact Hl]. }
  destruct Hd as (ed & Hed & Hld). destruct Hc as (ec & Hec & Hlc).
  unfold notAvailable in Hed, Hec. rewrite Hed, Hec.
  eexists. split; [reflexivity|].
  cbn [debitCount creditCount largestDebit largestCredit].
  split; [reflexivity|]. split; [reflexivity|]. split; [|split; assumption].
  unfold debitsOf, creditsOf. rewrite !length_map.
  clear. induction transactions as [|t txs IH]; cbn [filter List.length]; [lia|].
  destruct (String.eqb (Schema.type t) "expense") eqn:E1.
  - apply String.eqb_eq in E1. rewrite E1. cbn [String.eqb Ascii.eqb Bool.eqb].
    cbn [List.length]. lia.
  - destruct (String.eqb (Schema.type t) "income"); cbn [List.length]; lia.
Qed.

End LlmMoreFacts.
